(** * Texture resolution for OBJ/MTL meshes

    A shallow embedding of the texture-resolution logic of the mesh viewer:
    [MeshGUI.find_texture_file] and [MeshGUI.load_obj_with_textures]
    (testing.py) and [comprehensive_mesh_analysis_and_load] (new.py),
    together with the parts of Python's [str] and [os.path] they call.

    Conventions of the embedding.
    - A Python [str] is a [string]; a character of code [n] stands for the
      code point [n] (so the text covered is the one with code points
      below 256).
    - [os.path] is [posixpath]: the separator is [/].
    - The file system, the text files and the geometry library are the
      fields of a [World]; the code only ever reads from them.
    - Every call with an effect (an existence check, opening a file, a
      log line, a library call) is recorded, in program order, in a trace
      of [Event]s. *)

From Stdlib Require Import String Ascii List Bool Arith ZArith QArith Lia.
Import ListNotations.

Local Open Scope string_scope.
Local Open Scope list_scope.

(** ** Python strings *)

Module PyStr.

(** [s[n:]] for [0 <= n]. *)
Fixpoint drop (n : nat) (s : string) : string :=
  match n, s with
  | O, _ => s
  | S _, EmptyString => EmptyString
  | S n', String _ s' => drop n' s'
  end.

(** [s[:n]] for [0 <= n]. *)
Fixpoint take (n : nat) (s : string) : string :=
  match n, s with
  | O, _ => EmptyString
  | S _, EmptyString => EmptyString
  | S n', String c s' => String c (take n' s')
  end.

(** [s[i:j]] for [0 <= i], [0 <= j]. *)
Definition slice (i j : nat) (s : string) : string :=
  take (j - i) (drop i s).

(** [s.startswith(p)]. *)
Definition startswith (s p : string) : bool := String.prefix p s.

(** [s.endswith(p)]. *)
Definition endswith (s p : string) : bool :=
  (String.length p <=? String.length s)%nat
  && String.eqb (drop (String.length s - String.length p) s) p.

Fixpoint rfind_from (c : ascii) (s : string) (i last : Z) : Z :=
  match s with
  | EmptyString => last
  | String a s' =>
      rfind_from c s' (i + 1)%Z (if Ascii.eqb a c then i else last)
  end.

(** [s.rfind(c)] for a one-character [c]: the highest index of [c] in
    [s], or [-1]. *)
Definition rfind (s : string) (c : ascii) : Z := rfind_from c s 0%Z (-1)%Z.

(** The characters [str.strip()] removes: the ASCII white space
    (tab, line feed, vertical tab, form feed, carriage return, the four
    separators 28..31, space) and, below 256, NEL and the no-break
    space. *)
Definition isspace (c : ascii) : bool :=
  let n := nat_of_ascii c in
  ((9 <=? n) && (n <=? 13) || (28 <=? n) && (n <=? 32)
   || (n =? 133) || (n =? 160))%nat.

Fixpoint lstrip_by (f : ascii -> bool) (s : string) : string :=
  match s with
  | EmptyString => EmptyString
  | String c s' => if f c then lstrip_by f s' else s
  end.

Fixpoint rstrip_by (f : ascii -> bool) (s : string) : string :=
  match s with
  | EmptyString => EmptyString
  | String c s' =>
      match rstrip_by f s' with
      | EmptyString => if f c then EmptyString else String c EmptyString
      | t => String c t
      end
  end.

(** [s.strip()]. *)
Definition strip (s : string) : string :=
  rstrip_by isspace (lstrip_by isspace s).

(** [s.rstrip(c)] for a one-character [c]. *)
Definition rstrip_char (c : ascii) (s : string) : string :=
  rstrip_by (Ascii.eqb c) s.

(** [s.partition(' ')] when a space occurs: the text before the first
    space and the text after it. *)
Fixpoint cut_at_space (s : string) : option (string * string) :=
  match s with
  | EmptyString => None
  | String c s' =>
      if Ascii.eqb c " "%char then Some (EmptyString, s')
      else match cut_at_space s' with
           | Some (a, b) => Some (String c a, b)
           | None => None
           end
  end.

(** [s.split(' ', 1)]: at most one split, at the first space. *)
Definition split_space_1 (s : string) : list string :=
  match cut_at_space s with
  | Some (a, b) => [a; b]
  | None => [s]
  end.

(** [s == c * len(s)]: every character of [s] is [c]. *)
Fixpoint all_char (c : ascii) (s : string) : bool :=
  match s with
  | EmptyString => true
  | String a s' => Ascii.eqb a c && all_char c s'
  end.

(** Truth value of a string: [bool(s)]. *)
Definition truthy (s : string) : bool := negb (String.eqb s EmptyString).

End PyStr.

(** ** [os.path] (posixpath) *)

Module OsPath.
Import PyStr.

Definition sep : ascii := "/"%char.
Definition extsep : ascii := "."%char.

(** [os.path.join(a, b)]: an absolute [b] replaces [a]; otherwise [b] is
    appended, after a separator unless [a] is empty or ends with one. *)
Definition join (a b : string) : string :=
  if startswith b (String sep EmptyString) then b
  else if negb (truthy a) || endswith a (String sep EmptyString)
       then (a ++ b)%string
       else (a ++ String sep b)%string.

(** [os.path.basename(p)]: [p[p.rfind('/') + 1:]]. *)
Definition basename (p : string) : string :=
  let i := (rfind p sep + 1)%Z in
  drop (Z.to_nat i) p.

(** [os.path.dirname(p)]. *)
Definition dirname (p : string) : string :=
  let i := (rfind p sep + 1)%Z in
  let head := take (Z.to_nat i) p in
  if truthy head && negb (all_char sep head)
  then rstrip_char sep head
  else head.

(** The loop of [genericpath._splitext] that skips leading dots of the
    file name: [n] is [dotIndex - filenameIndex], the number of
    iterations left. *)
Fixpoint splitext_scan (p : string) (dotIndex filenameIndex n : nat)
  : string * string :=
  match n with
  | O => (p, EmptyString)
  | S n' =>
      if negb (String.eqb (slice filenameIndex (filenameIndex + 1) p)
                          (String extsep EmptyString))
      then (take dotIndex p, drop dotIndex p)
      else splitext_scan p dotIndex (filenameIndex + 1) n'
  end.

(** [os.path.splitext(p)]. *)
Definition splitext (p : string) : string * string :=
  let sepIndex := rfind p sep in
  let dotIndex := rfind p extsep in
  if (sepIndex <? dotIndex)%Z then
    let filenameIndex := (sepIndex + 1)%Z in
    splitext_scan p (Z.to_nat dotIndex) (Z.to_nat filenameIndex)
                  (Z.to_nat (dotIndex - filenameIndex))
  else (p, EmptyString).

End OsPath.

(** ** Exceptions, text files and the geometry library *)

(** The exceptions the code can meet. [str(e)] is what a log line shows;
    the message of an [IndexError] raised by [xs[1]] is fixed. *)
Inductive exn : Type :=
| IndexError
| FileNotFoundError (msg : string)
| OSError (msg : string)
| RuntimeError (msg : string).

(** What [open(path, 'r', ...)] followed by [for line in f] delivers: the
    lines of the file, until the end of the file or until an exception
    (raised by [open] itself when no line precedes it). *)
Inductive stream : Type :=
| Eof
| Line (l : string) (rest : stream)
| Fail (e : exn).

(** [ls] followed by what [tail] delivers. *)
Fixpoint lines_then (ls : list string) (tail : stream) : stream :=
  match ls with
  | [] => tail
  | l :: ls' => Line l (lines_then ls' tail)
  end.

Definition Vec3 : Type := (Q * Q * Q)%type.

(** An image of the geometry library, opaque to this code. *)
Inductive Image : Type := ImageHandle (n : nat).

(** [open3d.geometry.TriangleMesh], with the fields this code touches. *)
Record TriangleMesh : Type := mkMesh {
  vertices : list Vec3;
  triangles : list (nat * nat * nat);
  vertex_normals : list Vec3;
  vertex_colors : list Vec3;
  textures : list Image
}.

(** [o3d.geometry.TriangleMesh()]. *)
Definition empty_mesh : TriangleMesh := mkMesh [] [] [] [] [].

(** [mesh.paint_uniform_color(c)]: one colour per vertex, all equal. *)
Definition paint_uniform_color (m : TriangleMesh) (c : Vec3) : TriangleMesh :=
  mkMesh (vertices m) (triangles m) (vertex_normals m)
         (repeat c (length (vertices m))) (textures m).

Definition set_textures (m : TriangleMesh) (ts : list Image) : TriangleMesh :=
  mkMesh (vertices m) (triangles m) (vertex_normals m) (vertex_colors m) ts.

Definition set_vertex_normals (m : TriangleMesh) (ns : list Vec3) : TriangleMesh :=
  mkMesh (vertices m) (triangles m) ns (vertex_colors m) (textures m).

(** The colour literal [[0.7, 0.5, 0.3]] ("skin tone"). *)
Definition skin_tone : Vec3 := (7 # 10, 5 # 10, 3 # 10).

(** Everything outside the program: the file system, the content of the
    text files, and the geometry library. *)
Record World : Type := mkWorld {
  (** [os.path.exists] *)
  fs_exists : string -> bool;
  (** [open(path, 'r', encoding='utf-8', errors='ignore')], iterated *)
  fs_open : string -> stream;
  (** [o3d.io.read_triangle_mesh(path, enable_post_processing)] *)
  lib_read_triangle_mesh : string -> bool -> exn + TriangleMesh;
  (** the normals [mesh.compute_vertex_normals()] stores *)
  lib_vertex_normals : TriangleMesh -> list Vec3;
  (** [o3d.io.read_image] *)
  lib_read_image : string -> exn + Image;
  (** running the viewer on a mesh; [Some e] when it raises *)
  lib_view : TriangleMesh -> option exn
}.

(** ** Effects *)

(** Where an existence check is made. *)
Inductive site : Type := ObjFile | MtlFile | TextureCandidate.

(** The lines [MeshGUI.log] receives, one constructor per call site, with
    the values the f-string interpolates. *)
Inductive gui_message : Type :=
| LoadingObj (obj_path : string)
| FoundMaterialLibrary (mtl_file : string)
| WarnObjStructure (e : exn)
| FoundTextureReference (texture_file : string)
| WarnMtlRead (e : exn)
| LoadingMesh
| MeshLoaded (n_vertices n_triangles : nat)
| ManualLoading
| TextureLoaded (name : string)
| TextureLoadError (found_texture : string) (e : exn)
| TextureNotFound (texture_ref : string)
| ReadyWithTextures
| NoTexturesColored
| ErrorLoadingObj (e : exn)
| OpeningViewer
| ViewerClosed
| ErrorVisualization (e : exn).

(** The lines new.py prints, one constructor per [print]. *)
Inductive script_message : Type :=
| PBanner
| PObjFile (obj_path : string)
| PStep1
| PFoundMaterialLibrary (mtl_file : string)
| PErrorObj (e : exn)
| PHasMtl (b : bool)
| PHasTextureCoords (b : bool)
| PStep2
| PReading (mtl_path : string)
| PFoundTextureRef (texture_file : string)
| PErrorMtl (e : exn)
| PMtlNotFound (mtl_path : string)
| PStep3
| PFound (test_path : string)
| PNotFound (test_path : string)
| PStep4
| PVertices (n : nat)
| PTriangles (n : nat)
| PAutoLoaded (n : nat)
| PStep5
| PManualLoaded
| PErrorTexture (e : exn)
| PStep6
| PReadyTextured
| PNoTextures
| PStep7
| PDisplayTextured
| PDisplayColored.

Inductive Event : Type :=
| EvExists (s : site) (p : string)
| EvOpen (p : string)
| EvLog (m : gui_message)
| EvPrint (m : script_message)
| EvReadMesh (p : string)
| EvReadImage (p : string)
| EvView (window_name : string) (m : TriangleMesh).

(** A computation reads the world and yields a value and the trace of its
    effects. *)
Definition M (A : Type) : Type := World -> A * list Event.

Definition ret {A : Type} (a : A) : M A := fun _ => (a, []).

Definition bind {A B : Type} (m : M A) (k : A -> M B) : M B :=
  fun w =>
    let (a, t1) := m w in
    let (b, t2) := k a w in
    (b, t1 ++ t2).

Declare Scope m_scope.
Delimit Scope m_scope with m.
Notation "x <- m ;; k" := (bind m (fun x => k))
  (at level 61, m at next level, right associativity) : m_scope.
Notation "' pat <- m ;; k" := (bind m (fun x => match x with pat => k end))
  (at level 61, pat pattern, m at next level, right associativity) : m_scope.
Notation "m ;; k" := (bind m (fun _ => k))
  (at level 61, right associativity) : m_scope.
Local Open Scope m_scope.

Definition value {A : Type} (m : M A) (w : World) : A := fst (m w).
Definition trace {A : Type} (m : M A) (w : World) : list Event := snd (m w).

Definition os_path_exists (s : site) (p : string) : M bool :=
  fun w => (fs_exists w p, [EvExists s p]).

Definition open_text (p : string) : M stream :=
  fun w => (fs_open w p, [EvOpen p]).

Definition log (m : gui_message) : M unit := fun _ => (tt, [EvLog m]).

Definition print (m : script_message) : M unit := fun _ => (tt, [EvPrint m]).

Definition read_triangle_mesh (p : string) (post : bool)
  : M (exn + TriangleMesh) :=
  fun w => (lib_read_triangle_mesh w p post, [EvReadMesh p]).

Definition compute_vertex_normals (m : TriangleMesh) : M TriangleMesh :=
  fun w => (set_vertex_normals m (lib_vertex_normals w m), []).

Definition read_image (p : string) : M (exn + Image) :=
  fun w => (lib_read_image w p, [EvReadImage p]).

Definition view (window_name : string) (m : TriangleMesh) : M (option exn) :=
  fun w => (lib_view w m, [EvView window_name m]).

(** [if xs:] on a list. *)
Definition nonempty {A : Type} (xs : list A) : bool :=
  match xs with [] => false | _ => true end.

(** ** The candidate paths (testing.py 127-137, new.py 65-75) *)

Definition extensions : list string :=
  [".jpg"; ".jpeg"; ".png"; ".bmp"; ".tga"; ".JPG"; ".JPEG"; ".PNG"].

Definition possible_paths (obj_dir texture_ref : string) : list string :=
  let base_name := fst (OsPath.splitext texture_ref) in
  [OsPath.join obj_dir texture_ref;
   OsPath.join obj_dir (OsPath.basename texture_ref)]
  ++ map (fun ext => OsPath.join obj_dir (base_name ++ ext)%string) extensions.

(** ** testing.py: [MeshGUI] *)

Module Testing.
Import PyStr.

(** The probing loop of [find_texture_file] (lines 139-142). *)
Fixpoint first_existing (paths : list string) : M (option string) :=
  match paths with
  | [] => ret None
  | test_path :: rest =>
      b <- os_path_exists TextureCandidate test_path ;;
      if b then ret (Some test_path) else first_existing rest
  end.

(** [MeshGUI.find_texture_file(obj_dir, texture_ref)]. *)
Definition find_texture_file (obj_dir texture_ref : string)
  : M (option string) :=
  first_existing (possible_paths obj_dir texture_ref).

(** The body of the [for line in f] loop over the OBJ file (lines
    160-167), on the lines [f] still delivers, with the local variables
    [mtl_files] and [has_texture_coords]. The third component is the
    exception that ended the loop, if one did. *)
Fixpoint scan_obj (f : stream) (mtl_files : list string)
         (has_texture_coords : bool)
  : M (list string * bool * option exn) :=
  match f with
  | Eof => ret (mtl_files, has_texture_coords, None)
  | Fail e => ret (mtl_files, has_texture_coords, Some e)
  | Line raw rest =>
      let line := strip raw in
      if startswith line "mtllib" then
        match nth_error (split_space_1 line) 1 with
        | None => ret (mtl_files, has_texture_coords, Some IndexError)
        | Some mtl_file =>
            log (FoundMaterialLibrary mtl_file) ;;
            scan_obj rest (mtl_files ++ [mtl_file]) has_texture_coords
        end
      else if startswith line "vt" then scan_obj rest mtl_files true
      else scan_obj rest mtl_files has_texture_coords
  end.

(** Step 1 (lines 155-169): the [try] around the scan of the OBJ file. *)
Definition analyze_obj (obj_path : string) : M (list string * bool) :=
  f <- open_text obj_path ;;
  '(mtl_files, has_texture_coords, raised) <- scan_obj f [] false ;;
  match raised with
  | Some e => log (WarnObjStructure e)
  | None => ret tt
  end ;;
  ret (mtl_files, has_texture_coords).

(** The [for line in f] loop over one MTL file (lines 179-185). *)
Fixpoint scan_mtl (f : stream) (texture_paths : list string)
  : M (list string * option exn) :=
  match f with
  | Eof => ret (texture_paths, None)
  | Fail e => ret (texture_paths, Some e)
  | Line raw rest =>
      let line := strip raw in
      if startswith line "map_Kd" then
        match nth_error (split_space_1 line) 1 with
        | None => ret (texture_paths, Some IndexError)
        | Some texture_file =>
            log (FoundTextureReference texture_file) ;;
            scan_mtl rest (texture_paths ++ [texture_file])
        end
      else scan_mtl rest texture_paths
  end.

(** One iteration of the loop over [mtl_files] (lines 175-187). *)
Definition read_mtl (obj_dir mtl_file : string) (texture_paths : list string)
  : M (list string) :=
  let mtl_path := OsPath.join obj_dir mtl_file in
  present <- os_path_exists MtlFile mtl_path ;;
  if present then
    f <- open_text mtl_path ;;
    '(texture_paths', raised) <- scan_mtl f texture_paths ;;
    match raised with
    | Some e => log (WarnMtlRead e)
    | None => ret tt
    end ;;
    ret texture_paths'
  else ret texture_paths.

Fixpoint read_mtls (obj_dir : string) (mtl_files texture_paths : list string)
  : M (list string) :=
  match mtl_files with
  | [] => ret texture_paths
  | mtl_file :: rest =>
      texture_paths' <- read_mtl obj_dir mtl_file texture_paths ;;
      read_mtls obj_dir rest texture_paths'
  end.

(** Step 2 (lines 172-187). *)
Definition collect_texture_paths (obj_dir : string) (mtl_files : list string)
  : M (list string) :=
  if nonempty mtl_files then read_mtls obj_dir mtl_files [] else ret [].

(** The loop of step 4 (lines 200-213). *)
Fixpoint load_first_texture (obj_dir : string) (texture_paths : list string)
         (mesh : TriangleMesh) : M TriangleMesh :=
  match texture_paths with
  | [] => ret mesh
  | texture_ref :: rest =>
      found_texture <- find_texture_file obj_dir texture_ref ;;
      let not_found :=
        log (TextureNotFound texture_ref) ;;
        load_first_texture obj_dir rest mesh in
      match found_texture with
      | Some p =>
          if truthy p then
            r <- read_image p ;;
            match r with
            | inr texture =>
                log (TextureLoaded (OsPath.basename p)) ;;
                ret (set_textures mesh [texture])
            | inl e =>
                log (TextureLoadError p e) ;;
                load_first_texture obj_dir rest mesh
            end
          else not_found
      | None => not_found
      end
  end.

(** Steps 3 to 5 (lines 189-223), once the texture references are
    known. *)
Definition load_and_texture (obj_path obj_dir : string)
           (texture_paths : list string) : M (exn + TriangleMesh) :=
  log LoadingMesh ;;
  r <- read_triangle_mesh obj_path true ;;
  match r with
  | inl e => ret (inl e)
  | inr mesh0 =>
      mesh <- compute_vertex_normals mesh0 ;;
      log (MeshLoaded (length (vertices mesh)) (length (triangles mesh))) ;;
      mesh <- (if (length (textures mesh) =? 0)%nat && nonempty texture_paths
               then log ManualLoading ;;
                    load_first_texture obj_dir texture_paths mesh
               else ret mesh) ;;
      if (0 <? length (textures mesh))%nat
      then log ReadyWithTextures ;; ret (inr mesh)
      else log NoTexturesColored ;;
           ret (inr (paint_uniform_color mesh skin_tone))
  end.

(** [MeshGUI.load_obj_with_textures(obj_path)]: the mesh it returns, or
    the exception it raises. *)
Definition load_obj_with_textures (obj_path : string)
  : M (exn + TriangleMesh) :=
  log (LoadingObj obj_path) ;;
  present <- os_path_exists ObjFile obj_path ;;
  if negb present
  then ret (inl (FileNotFoundError ("OBJ file not found: " ++ obj_path)%string))
  else
    let obj_dir := OsPath.dirname obj_path in
    '(mtl_files, _) <- analyze_obj obj_path ;;
    texture_paths <- collect_texture_paths obj_dir mtl_files ;;
    load_and_texture obj_path obj_dir texture_paths.

(** [MeshGUI.visualize_mesh(mesh)]. *)
Definition visualize_mesh (mesh : TriangleMesh) : M unit :=
  log OpeningViewer ;;
  r <- view "OBJ Mesh Viewer" mesh ;;
  match r with
  | None => log ViewerClosed
  | Some e => log (ErrorVisualization e)
  end.

(** The fields of [MeshGUI] the load writes. *)
Record Gui : Type := mkGui {
  mesh : option TriangleMesh;
  mesh_file : option string
}.

(** [MeshGUI.load_obj_mesh()], given the [file_name] the file dialog
    returned. *)
Definition load_obj_mesh (file_name : string) (gui : Gui) : M Gui :=
  if truthy file_name then
    r <- load_obj_with_textures file_name ;;
    match r with
    | inr m =>
        visualize_mesh m ;;
        ret (mkGui (Some m) (Some file_name))
    | inl e =>
        log (ErrorLoadingObj e) ;;
        ret (mkGui (mesh gui) (Some file_name))
    end
  else ret gui.

End Testing.

(** ** new.py: [comprehensive_mesh_analysis_and_load] *)

Module New.
Import PyStr.

(** The [for line in f] loop over the OBJ file (lines 23-31), with the
    local variables [has_mtl], [has_texture_coords] and [mtl_files]. *)
Fixpoint scan_obj (f : stream) (has_mtl has_texture_coords : bool)
         (mtl_files : list string)
  : M (bool * bool * list string * option exn) :=
  match f with
  | Eof => ret (has_mtl, has_texture_coords, mtl_files, None)
  | Fail e => ret (has_mtl, has_texture_coords, mtl_files, Some e)
  | Line raw rest =>
      let line := strip raw in
      if startswith line "mtllib" then
        match nth_error (split_space_1 line) 1 with
        | None => ret (true, has_texture_coords, mtl_files, Some IndexError)
        | Some mtl_file =>
            print (PFoundMaterialLibrary mtl_file) ;;
            scan_obj rest true has_texture_coords (mtl_files ++ [mtl_file])
        end
      else if startswith line "vt" then scan_obj rest has_mtl true mtl_files
      else scan_obj rest has_mtl has_texture_coords mtl_files
  end.

(** Step 1 (lines 16-36). *)
Definition analyze_obj (obj_path : string) : M (bool * list string) :=
  print PStep1 ;;
  f <- open_text obj_path ;;
  '(has_mtl, has_texture_coords, mtl_files, raised) <-
     scan_obj f false false [] ;;
  match raised with
  | Some e => print (PErrorObj e)
  | None => ret tt
  end ;;
  print (PHasMtl has_mtl) ;;
  print (PHasTextureCoords has_texture_coords) ;;
  ret (has_mtl, mtl_files).

(** The [for line in f] loop over one MTL file (lines 48-53). *)
Fixpoint scan_mtl (f : stream) (texture_files : list string)
  : M (list string * option exn) :=
  match f with
  | Eof => ret (texture_files, None)
  | Fail e => ret (texture_files, Some e)
  | Line raw rest =>
      let line := strip raw in
      if startswith line "map_Kd" then
        match nth_error (split_space_1 line) 1 with
        | None => ret (texture_files, Some IndexError)
        | Some texture_file =>
            print (PFoundTextureRef texture_file) ;;
            scan_mtl rest (texture_files ++ [texture_file])
        end
      else scan_mtl rest texture_files
  end.

(** One iteration of the loop over [mtl_files] (lines 43-57). *)
Definition read_mtl (obj_dir mtl_file : string) (texture_files : list string)
  : M (list string) :=
  let mtl_path := OsPath.join obj_dir mtl_file in
  present <- os_path_exists MtlFile mtl_path ;;
  if present then
    print (PReading mtl_path) ;;
    f <- open_text mtl_path ;;
    '(texture_files', raised) <- scan_mtl f texture_files ;;
    match raised with
    | Some e => print (PErrorMtl e)
    | None => ret tt
    end ;;
    ret texture_files'
  else print (PMtlNotFound mtl_path) ;; ret texture_files.

Fixpoint read_mtls (obj_dir : string) (mtl_files texture_files : list string)
  : M (list string) :=
  match mtl_files with
  | [] => ret texture_files
  | mtl_file :: rest =>
      texture_files' <- read_mtl obj_dir mtl_file texture_files ;;
      read_mtls obj_dir rest texture_files'
  end.

(** Step 2 (lines 39-57). *)
Definition collect_texture_files (obj_dir : string) (has_mtl : bool)
           (mtl_files : list string) : M (list string) :=
  if has_mtl && nonempty mtl_files
  then print PStep2 ;; read_mtls obj_dir mtl_files []
  else ret [].

(** [if found_texture_path:] on a variable that is [None] or a string. *)
Definition found_truthy (found_texture_path : option string) : bool :=
  match found_texture_path with
  | Some p => truthy p
  | None => false
  end.

(** The inner loop of step 3 (lines 77-83); [found_texture_path] is the
    variable as it stands when the loop starts. *)
Fixpoint probe_paths (paths : list string) (found_texture_path : option string)
  : M (option string) :=
  match paths with
  | [] => ret found_texture_path
  | test_path :: rest =>
      b <- os_path_exists TextureCandidate test_path ;;
      if b then print (PFound test_path) ;; ret (Some test_path)
      else print (PNotFound test_path) ;; probe_paths rest found_texture_path
  end.

(** The outer loop of step 3 (lines 63-86). *)
Fixpoint search_textures (obj_dir : string) (texture_files : list string)
         (found_texture_path : option string) : M (option string) :=
  match texture_files with
  | [] => ret found_texture_path
  | texture_file :: rest =>
      found <- probe_paths (possible_paths obj_dir texture_file)
                           found_texture_path ;;
      if found_truthy found then ret found
      else search_textures obj_dir rest found
  end.

(** Step 3 (lines 60-86). *)
Definition find_texture (obj_dir : string) (texture_files : list string)
  : M (option string) :=
  if nonempty texture_files
  then print PStep3 ;; search_textures obj_dir texture_files None
  else ret None.

(** Step 5 (lines 99-106). *)
Definition load_manually (mesh : TriangleMesh)
           (found_texture_path : option string) : M TriangleMesh :=
  match found_texture_path with
  | Some p =>
      if (length (textures mesh) =? 0)%nat && truthy p then
        print PStep5 ;;
        r <- read_image p ;;
        match r with
        | inr texture => print PManualLoaded ;; ret (set_textures mesh [texture])
        | inl e => print (PErrorTexture e) ;; ret mesh
        end
      else ret mesh
  | None => ret mesh
  end.

(** Steps 6 and 7 (lines 109-137): the mesh given to the viewer, or the
    exception the viewer raised. *)
Definition visualize (mesh : TriangleMesh) : M (exn + TriangleMesh) :=
  print PStep6 ;;
  show_textured <-
    (if (0 <? length (textures mesh))%nat
     then print PReadyTextured ;; ret true
     else print PNoTextures ;; ret false) ;;
  print PStep7 ;;
  if show_textured : bool then
    print PDisplayTextured ;;
    r <- view "3D Mesh with Textures" mesh ;;
    match r with
    | None => ret (inr mesh)
    | Some e => ret (inl e)
    end
  else
    print PDisplayColored ;;
    let colored_mesh :=
      paint_uniform_color
        (mkMesh (vertices mesh) (triangles mesh) (vertex_normals mesh)
                (vertex_colors empty_mesh) (textures empty_mesh))
        skin_tone in
    r <- view "3D Mesh (Colored)" colored_mesh ;;
    match r with
    | None => ret (inr colored_mesh)
    | Some e => ret (inl e)
    end.

(** Steps 4 to 7 (lines 89-139), once the texture search is done: the
    returned [mesh] paired with the mesh given to the viewer. *)
Definition load_and_show (obj_path : string)
           (found_texture_path : option string)
  : M (exn + TriangleMesh * TriangleMesh) :=
  print PStep4 ;;
  r <- read_triangle_mesh obj_path true ;;
  match r with
  | inl e => ret (inl e)
  | inr mesh0 =>
      mesh <- compute_vertex_normals mesh0 ;;
      print (PVertices (length (vertices mesh))) ;;
      print (PTriangles (length (triangles mesh))) ;;
      print (PAutoLoaded (length (textures mesh))) ;;
      mesh <- load_manually mesh found_texture_path ;;
      shown <- visualize mesh ;;
      match shown with
      | inl e => ret (inl e)
      | inr viewed => ret (inr (mesh, viewed))
      end
  end.

(** [comprehensive_mesh_analysis_and_load(obj_path)]. *)
Definition comprehensive_mesh_analysis_and_load (obj_path : string)
  : M (exn + TriangleMesh * TriangleMesh) :=
  print PBanner ;;
  print (PObjFile obj_path) ;;
  let obj_dir := OsPath.dirname obj_path in
  '(has_mtl, mtl_files) <- analyze_obj obj_path ;;
  texture_files <- collect_texture_files obj_dir has_mtl mtl_files ;;
  found_texture_path <- find_texture obj_dir texture_files ;;
  load_and_show obj_path found_texture_path.

End New.

(** ** Vocabulary of the statements *)

(** The candidates an in-order probe of [paths] checks: all of them up to
    and including the first one present. *)
Fixpoint probed (present : string -> bool) (paths : list string) : list string :=
  match paths with
  | [] => []
  | p :: rest => if present p then [p] else p :: probed present rest
  end.

(** The texture candidates a trace checked for existence. *)
Definition texture_probes (t : list Event) : list string :=
  flat_map (fun e => match e with
                     | EvExists TextureCandidate p => [p]
                     | _ => []
                     end) t.

(** The image files a trace read. *)
Definition images_read (t : list Event) : list string :=
  flat_map (fun e => match e with EvReadImage p => [p] | _ => [] end) t.

(** The meshes a trace gave to the viewer. *)
Definition viewed (t : list Event) : list TriangleMesh :=
  flat_map (fun e => match e with EvView _ m => [m] | _ => [] end) t.

(** A raw line that, once stripped, begins with the keyword [kw]. *)
Definition is_keyword_line (kw raw : string) : bool :=
  PyStr.startswith (PyStr.strip raw) kw.

(** [line.split(' ', 1)[1]] on the stripped line; [None] is the
    [IndexError]. *)
Definition line_arg (raw : string) : option string :=
  nth_error (PyStr.split_space_1 (PyStr.strip raw)) 1.

(** The arguments of the [kw] lines of [ls], in order. *)
Definition keyword_args (kw : string) (ls : list string) : list string :=
  flat_map (fun raw => if is_keyword_line kw raw
                       then match line_arg raw with
                            | Some a => [a]
                            | None => []
                            end
                       else []) ls.

(** Every [kw] line of [ls] has an argument after a space. *)
Definition well_formed (kw : string) (ls : list string) : Prop :=
  forall raw, In raw ls -> is_keyword_line kw raw = true -> line_arg raw <> None.

(** The stem of a texture reference: [os.path.splitext(r)[0]]. *)
Definition stem (r : string) : string := fst (OsPath.splitext r).

(** Events of the analysis of the text files: log lines, opening a file,
    existence checks of the OBJ and MTL files. *)
Definition analysis_event (e : Event) : Prop :=
  match e with
  | EvLog _ | EvPrint _ | EvOpen _
  | EvExists ObjFile _ | EvExists MtlFile _ => True
  | _ => False
  end.

(** Events of the search for a texture: log lines and existence checks
    of candidates. *)
Definition search_event (e : Event) : Prop :=
  match e with
  | EvLog _ | EvPrint _ | EvExists TextureCandidate _ => True
  | _ => False
  end.

(** Anything but handing a mesh to the viewer. *)
Definition not_view (e : Event) : Prop :=
  match e with
  | EvView _ _ => False
  | _ => True
  end.

(** What new.py gives to the viewer for [mesh] (lines 119-137): the mesh
    itself when it has a texture, otherwise a fresh mesh with its
    geometry, painted. *)
Definition displayed (mesh : TriangleMesh) : TriangleMesh :=
  if (0 <? length (textures mesh))%nat then mesh
  else paint_uniform_color
         (mkMesh (vertices mesh) (triangles mesh) (vertex_normals mesh) [] [])
         skin_tone.

(** Neither the check of a texture candidate nor the reading of an
    image. *)
Definition not_manual (e : Event) : Prop :=
  match e with
  | EvExists TextureCandidate _ | EvReadImage _ => False
  | _ => True
  end.

(** Anything but the reading of an image. *)
Definition not_image (e : Event) : Prop :=
  match e with
  | EvReadImage _ => False
  | _ => True
  end.

(** The exception a scan ends with when the file fails with [e] after
    lines whose own scan ended with [raised]: the earlier of the two. *)
Definition first_failure (raised : option exn) (e : exn) : exn :=
  match raised with
  | Some x => x
  | None => e
  end.

(** The log line of an exception that ended a scan, if one did. *)
Definition warning (line : exn -> Event) (raised : option exn) : list Event :=
  match raised with
  | Some e => [line e]
  | None => []
  end.

(** The world [w] with the text file at [path] delivering [f] instead. *)
Definition with_text (w : World) (path : string) (f : stream) : World :=
  mkWorld (fs_exists w)
          (fun q => if String.eqb q path then f else fs_open w q)
          (lib_read_triangle_mesh w) (lib_vertex_normals w)
          (lib_read_image w) (lib_view w).

(** ** Concrete worlds *)

(** A world given by the paths that exist, the text of the files that
    can be read, and what the loader returns for every mesh; images are
    told apart by the length of their path, the viewer never fails. *)
Definition world_of (present : list string) (texts : list (string * stream))
           (loaded : exn + TriangleMesh) : World :=
  mkWorld
    (fun p => existsb (String.eqb p) present)
    (fun p => match find (fun kv => String.eqb p (fst kv)) texts with
              | Some kv => snd kv
              | None => Fail (FileNotFoundError p)
              end)
    (fun _ _ => loaded)
    (fun m => vertex_normals m)
    (fun p => inr (ImageHandle (String.length p)))
    (fun _ => None).

(** A mesh of one triangle, without normals, colours or textures. *)
Definition triangle : TriangleMesh :=
  mkMesh [(0 # 1, 0 # 1, 0 # 1); (1 # 1, 0 # 1, 0 # 1); (0 # 1, 1 # 1, 0 # 1)]
         [(0, 1, 2)%nat] [] [] [].

(** Nothing exists. *)
Definition empty_world : World := world_of [] [] (inr triangle).

(** The directory holds [body.jpg] only; [mat.mtl] refers to [body.JPG]. *)
Definition body_world : World :=
  world_of ["models/a.obj"; "models/mat.mtl"; "models/body.jpg"]
           [("models/a.obj", lines_then ["mtllib mat.mtl"; "vt 0.5 0.5"] Eof);
            ("models/mat.mtl", lines_then ["newmtl skin"; "map_Kd body.JPG"] Eof)]
           (inr triangle).

(** As [body_world], with other answers of the geometry library. *)
Definition body_world' : World :=
  mkWorld (fs_exists body_world) (fs_open body_world)
          (fun _ _ => inl (RuntimeError "no mesh"))
          (fun _ => [])
          (fun _ => inl (RuntimeError "no image"))
          (fun _ => Some (RuntimeError "no display")).

(** The texture is present both under its sub-path and flattened. *)
Definition both_world : World :=
  world_of ["models/tex/skin.png"; "models/skin.png"] [] (inr triangle).

(** The loader attaches a texture on its own; the material file names
    [skin.png], which is present. *)
Definition auto_world : World :=
  world_of ["models/a.obj"; "models/mat.mtl"; "models/skin.png"]
           [("models/a.obj", lines_then ["mtllib mat.mtl"] Eof);
            ("models/mat.mtl", lines_then ["map_Kd skin.png"] Eof)]
           (inr (set_textures triangle [ImageHandle 1])).

(** Reading the descriptor fails after two lines; so does reading the
    material file, after one. *)
Definition failing_world : World :=
  world_of ["models/a.obj"; "models/mat.mtl"; "models/skin.png"]
           [("models/a.obj",
             lines_then ["mtllib mat.mtl"; "vt 0.5 0.5"] (Fail (OSError "read error")));
            ("models/mat.mtl",
             lines_then ["map_Kd skin.png"] (Fail (OSError "read error")))]
           (inr triangle).

(** The second of three [mtllib] lines has no argument; so has the
    second of three [map_Kd] lines. *)
Definition truncated_world : World :=
  world_of ["models/a.obj"; "models/first.mtl"]
           [("models/a.obj",
             lines_then ["mtllib first.mtl"; "mtllib"; "mtllib later.mtl"] Eof);
            ("models/first.mtl",
             lines_then ["map_Kd one.png"; "map_Kd"; "map_Kd two.png"] Eof)]
           (inr triangle).

(** Two [mtllib] lines, the first without argument. *)
Definition bare_world : World :=
  world_of ["models/a.obj"; "models/b.mtl"]
           [("models/a.obj", lines_then ["mtllib"; "mtllib b.mtl"] Eof);
            ("models/b.mtl", lines_then ["map_Kd b.png"] Eof)]
           (inr triangle).

(** Two [mtllib] lines, the second indented, each naming a material
    file with references. *)
Definition two_world : World :=
  world_of ["models/a.obj"; "models/a.mtl"; "models/b.mtl"]
           [("models/a.obj",
             lines_then ["mtllib a.mtl"; "v 0 0 0"; "  mtllib b.mtl"] Eof);
            ("models/a.mtl",
             lines_then ["newmtl one"; "map_Kd a1.png"; "map_Kd a2.png"] Eof);
            ("models/b.mtl", lines_then ["map_Kd b1.png"] Eof)]
           (inr triangle).

(** Two textures are referred to; the image at the first path cannot be
    read. *)
Definition fallback_world : World :=
  mkWorld
    (fun p => existsb (String.eqb p)
                      ["models/a.obj"; "models/mat.mtl";
                       "models/bad.png"; "models/good.png"])
    (fs_open (world_of []
                       [("models/a.obj", lines_then ["mtllib mat.mtl"] Eof);
                        ("models/mat.mtl",
                         lines_then ["map_Kd bad.png"; "map_Kd good.png"] Eof)]
                       (inr triangle)))
    (fun _ _ => inr triangle)
    (fun m => vertex_normals m)
    (fun p => if String.eqb p "models/bad.png"
              then inl (OSError "cannot read image")
              else inr (ImageHandle (String.length p)))
    (fun _ => None).

(** ** Further vocabulary *)

(** The last character of a string, if it has one. *)
Fixpoint last_char (s : string) : option ascii :=
  match s with
  | EmptyString => None
  | String c EmptyString => Some c
  | String _ s' => last_char s'
  end.

(** An entry as the scans produce them: not empty, and not ending with
    white space. *)
Definition tidy_entry (a : string) : Prop :=
  a <> EmptyString
  /\ forall c, last_char a = Some c -> PyStr.isspace c = false.

(** The lines of [ls] before the first [kw] line without argument. *)
Fixpoint clean_prefix (kw : string) (ls : list string) : list string :=
  match ls with
  | [] => []
  | l :: ls' =>
      if is_keyword_line kw l
      then match line_arg l with
           | Some _ => l :: clean_prefix kw ls'
           | None => []
           end
      else l :: clean_prefix kw ls'
  end.

(** [c in s]. *)
Fixpoint has_char (c : ascii) (s : string) : bool :=
  match s with
  | EmptyString => false
  | String a s' => Ascii.eqb a c || has_char c s'
  end.

(** * Properties *)

(** ** Python strings and paths on examples *)

Example join_rel : OsPath.join "models" "tex/skin.png" = "models/tex/skin.png".
Proof. reflexivity. Qed.
Example join_abs : OsPath.join "models" "/abs/skin.png" = "/abs/skin.png".
Proof. reflexivity. Qed.
Example join_slash : OsPath.join "models/" "skin.png" = "models/skin.png".
Proof. reflexivity. Qed.
Example join_empty : OsPath.join "" "skin.png" = "skin.png".
Proof. reflexivity. Qed.
Example basename_sub : OsPath.basename "tex/skin.png" = "skin.png".
Proof. reflexivity. Qed.
Example dirname_sub : OsPath.dirname "/home/u/a.obj" = "/home/u".
Proof. reflexivity. Qed.
Example dirname_root : OsPath.dirname "/a.obj" = "/".
Proof. reflexivity. Qed.
Example dirname_none : OsPath.dirname "a.obj" = "".
Proof. reflexivity. Qed.
Example splitext_plain : OsPath.splitext "tex/skin.png" = ("tex/skin", ".png").
Proof. reflexivity. Qed.
Example splitext_hidden : OsPath.splitext "tex/.hidden" = ("tex/.hidden", "").
Proof. reflexivity. Qed.
Example splitext_dotdir : OsPath.splitext "a.b/skin" = ("a.b/skin", "").
Proof. reflexivity. Qed.
Example splitext_two : OsPath.splitext "..a.b" = ("..a", ".b").
Proof. reflexivity. Qed.
Example strip_line : PyStr.strip "  mtllib mat.mtl
" = "mtllib mat.mtl".
Proof. reflexivity. Qed.
Example split_two : PyStr.split_space_1 "map_Kd -bm 1 a b.png" = ["map_Kd"; "-bm 1 a b.png"].
Proof. reflexivity. Qed.
Example split_none : PyStr.split_space_1 "mtllib" = ["mtllib"].
Proof. reflexivity. Qed.

(** ** The probing loops *)

Section Probing.
Variable w : World.

Lemma first_existing_run (paths : list string) :
  Testing.first_existing paths w
  = (find (fs_exists w) paths,
     map (EvExists TextureCandidate) (probed (fs_exists w) paths)).
Proof.
  induction paths as [|p rest IH]; [reflexivity|].
  cbn [Testing.first_existing find probed].
  unfold bind, os_path_exists at 1.
  destruct (fs_exists w p); [reflexivity|].
  rewrite IH. reflexivity.
Qed.

Lemma probe_paths_value (paths : list string) (found : option string) :
  value (New.probe_paths paths found) w
  = match find (fs_exists w) paths with
    | Some p => Some p
    | None => found
    end.
Proof.
  unfold value.
  induction paths as [|p rest IH]; [reflexivity|].
  cbn [New.probe_paths find].
  unfold bind, os_path_exists at 1.
  destruct (fs_exists w p); [reflexivity|].
  cbn. destruct (New.probe_paths rest found w) as [v t].
  cbn in *. exact IH.
Qed.

Lemma probe_paths_probes (paths : list string) (found : option string) :
  texture_probes (trace (New.probe_paths paths found) w)
  = probed (fs_exists w) paths.
Proof.
  unfold trace.
  induction paths as [|p rest IH]; [reflexivity|].
  cbn [New.probe_paths probed].
  unfold bind, os_path_exists at 1.
  destruct (fs_exists w p); [reflexivity|].
  cbn. destruct (New.probe_paths rest found w) as [v t].
  cbn in *. now rewrite IH.
Qed.


Lemma find_none (paths : list string) :
  (forall q, In q paths -> fs_exists w q = false) ->
  find (fs_exists w) paths = None /\ probed (fs_exists w) paths = paths.
Proof.
  induction paths as [|q rest IH]; intros H; [now split|].
  cbn. rewrite (H q (or_introl eq_refl)).
  destruct IH as [IH1 IH2]; [intros; apply H; now right|].
  now rewrite IH1, IH2.
Qed.

Lemma probed_incl (paths : list string) :
  incl (probed (fs_exists w) paths) paths.
Proof.
  induction paths as [|q rest IH]; [easy|].
  cbn. destruct (fs_exists w q).
  - intros x [<-|[]]. now left.
  - intros x [<-|Hx]; [now left|right; now apply IH].
Qed.

End Probing.

Lemma find_ext (f g : string -> bool) (paths : list string) :
  (forall p, In p paths -> f p = g p) ->
  find f paths = find g paths /\ probed f paths = probed g paths.
Proof.
  induction paths as [|q rest IH]; intros H; [now split|].
  cbn. rewrite <- (H q (or_introl eq_refl)).
  destruct IH as [IH1 IH2]; [intros; apply H; now right|].
  now rewrite IH1, IH2.
Qed.

(** ** C1 *)


(** ** C8 *)

Lemma join_nonempty (d b : string) : b <> EmptyString -> PyStr.truthy (OsPath.join d b) = true.
Proof.
  intros Hb. unfold OsPath.join.
  destruct (PyStr.startswith b _).
  - destruct b; [contradiction|reflexivity].
  - destruct (negb (PyStr.truthy d) || PyStr.endswith d _).
    + destruct d; cbn; [destruct b; [contradiction|reflexivity]|reflexivity].
    + destruct d; reflexivity.
Qed.

Lemma search_textures_single (w : World) (d r : string) :
  value (New.search_textures d [r] None) w
  = find (fs_exists w) (possible_paths d r).
Proof.
  unfold value. cbn [New.search_textures]. unfold bind.
  pose proof (probe_paths_value w (possible_paths d r) None) as Hv.
  unfold value in Hv.
  destruct (New.probe_paths (possible_paths d r) None w) as [found t].
  cbn [fst] in Hv. subst found.
  destruct (find (fs_exists w) (possible_paths d r)) as [p|]; cbn.
  - now destruct (PyStr.truthy p).
  - reflexivity.
Qed.

(** C8. When no candidate of a reference is present, the resolver returns
    [None] after checking all ten candidates; it has no other outcome (its
    result is an optional path, never an exception), and the texture loop
    that calls it goes on to the next reference with a "not found" line and
    the mesh unchanged. The inline search of new.py leaves
    [found_texture_path] at [None]. *)
Theorem find_texture_file_not_found (w : World) (d r : string)
  (Habsent : forall p, In p (possible_paths d r) -> fs_exists w p = false) :
  Testing.find_texture_file d r w
  = (None, map (EvExists TextureCandidate) (possible_paths d r))
  /\ length (possible_paths d r) = 10%nat
  /\ (forall mesh,
        Testing.load_first_texture d [r] mesh w
        = (mesh, map (EvExists TextureCandidate) (possible_paths d r)
                 ++ [EvLog (TextureNotFound r)]))
  /\ value (New.search_textures d [r] None) w = None.
Proof.
  destruct (find_none w _ Habsent) as [Hf Hp].
  assert (Hrun : Testing.find_texture_file d r w
                 = (None, map (EvExists TextureCandidate) (possible_paths d r))).
  { unfold Testing.find_texture_file. rewrite first_existing_run.
    now rewrite Hf, Hp. }
  repeat split.
  - exact Hrun.
  - intros mesh. cbn [Testing.load_first_texture]. unfold bind at 1.
    rewrite Hrun. reflexivity.
  - rewrite search_textures_single. exact Hf.
Qed.

Lemma find_texture_file_not_found_witness :
  Testing.find_texture_file "models" "tex/skin.png" empty_world
  = (None, map (EvExists TextureCandidate) (possible_paths "models" "tex/skin.png"))
  /\ length (possible_paths "models" "tex/skin.png") = 10%nat
  /\ (forall mesh,
        Testing.load_first_texture "models" ["tex/skin.png"] mesh empty_world
        = (mesh, map (EvExists TextureCandidate)
                     (possible_paths "models" "tex/skin.png")
                 ++ [EvLog (TextureNotFound "tex/skin.png")]))
  /\ value (New.search_textures "models" ["tex/skin.png"] None) empty_world = None.
Proof.
  apply (find_texture_file_not_found empty_world "models" "tex/skin.png").
  intros p _. reflexivity.
Defined.

(** ** C9 *)

(** C9. The resolver's result and its effects depend on the world only
    through the presence of its ten candidates: two runs with the same
    directory and reference, in worlds that agree on those, return the same
    result and make the same checks. Every effect of a run is an existence
    check of one of the candidates, so a run reads the file system and
    writes nothing. *)
Theorem find_texture_file_deterministic_readonly (w1 w2 : World) (d r : string)
  (Hsame : forall p, In p (possible_paths d r) -> fs_exists w1 p = fs_exists w2 p) :
  Testing.find_texture_file d r w1 = Testing.find_texture_file d r w2
  /\ Forall (fun e => exists p, e = EvExists TextureCandidate p
                                /\ In p (possible_paths d r))
            (trace (Testing.find_texture_file d r) w1).
Proof.
  unfold trace, Testing.find_texture_file.
  rewrite !first_existing_run.
  destruct (find_ext _ _ _ Hsame) as [-> ->].
  split; [reflexivity|].
  cbn [snd]. apply Forall_forall. intros e He.
  apply in_map_iff in He as (p & <- & Hp).
  exists p. split; [reflexivity|].
  now apply (probed_incl w2).
Qed.

Lemma find_texture_file_deterministic_readonly_witness :
  Testing.find_texture_file "models" "body.JPG" body_world
  = Testing.find_texture_file "models" "body.JPG" body_world'
  /\ Forall (fun e => exists p, e = EvExists TextureCandidate p
                                /\ In p (possible_paths "models" "body.JPG"))
            (trace (Testing.find_texture_file "models" "body.JPG") body_world).
Proof.
  apply (find_texture_file_deterministic_readonly
           body_world body_world' "models" "body.JPG").
  intros p _. reflexivity.
Defined.

(** ** C2 *)

(** C2. With the reference [body.JPG], [body.jpg] present in the directory
    and [body.JPG] absent, the resolver returns the path of [body.jpg]. It
    gets there by exact checks only: the verbatim and the flattened
    candidate (both [body.JPG]) are checked and fail, and the third
    candidate, the stem [body] with [.jpg], the first extension of the
    list, is present. The material line [map_Kd body.JPG] yields that
    reference, and the inline search of new.py finds the same path. *)
Theorem body_jpg_scenario (w : World) (d : string)
  (Hlower : fs_exists w (OsPath.join d "body.jpg") = true)
  (Hupper : fs_exists w (OsPath.join d "body.JPG") = false) :
  value (Testing.scan_mtl (Line "map_Kd body.JPG" Eof) []) w
  = (["body.JPG"], None)
  /\ Testing.find_texture_file d "body.JPG" w
     = (Some (OsPath.join d "body.jpg"),
        [EvExists TextureCandidate (OsPath.join d "body.JPG");
         EvExists TextureCandidate (OsPath.join d "body.JPG");
         EvExists TextureCandidate (OsPath.join d "body.jpg")])
  /\ nth_error (possible_paths d "body.JPG") 2
     = Some (OsPath.join d (stem "body.JPG" ++ ".jpg")%string)
  /\ stem "body.JPG" = "body"
  /\ nth_error extensions 0 = Some ".jpg"
  /\ value (New.search_textures d ["body.JPG"] None) w
     = Some (OsPath.join d "body.jpg").
Proof.
  assert (Hpaths : possible_paths d "body.JPG"
                   = OsPath.join d "body.JPG" :: OsPath.join d "body.JPG"
                     :: OsPath.join d "body.jpg"
                     :: map (fun ext => OsPath.join d ("body" ++ ext)%string)
                            (tl extensions)) by reflexivity.
  assert (Hfind : find (fs_exists w) (possible_paths d "body.JPG")
                  = Some (OsPath.join d "body.jpg")).
  { rewrite Hpaths. cbn [find]. now rewrite Hupper, Hlower. }
  repeat split.
  - unfold Testing.find_texture_file. rewrite first_existing_run.
    rewrite Hfind, Hpaths. cbn [probed]. now rewrite Hupper, Hlower.
  - rewrite search_textures_single. exact Hfind.
Qed.

Lemma body_jpg_scenario_witness :
  value (Testing.find_texture_file "models" "body.JPG") body_world
  = Some "models/body.jpg".
Proof.
  pose proof (body_jpg_scenario body_world "models" eq_refl eq_refl) as H.
  destruct H as (_ & H & _).
  unfold value. rewrite H. reflexivity.
Defined.

(** The same scenario from the descriptor to the textured mesh. *)
Example body_jpg_end_to_end :
  Testing.load_obj_with_textures "models/a.obj" body_world
  = (inr (set_textures triangle [ImageHandle 15]),
     [EvLog (LoadingObj "models/a.obj");
      EvExists ObjFile "models/a.obj";
      EvOpen "models/a.obj";
      EvLog (FoundMaterialLibrary "mat.mtl");
      EvExists MtlFile "models/mat.mtl";
      EvOpen "models/mat.mtl";
      EvLog (FoundTextureReference "body.JPG");
      EvLog LoadingMesh;
      EvReadMesh "models/a.obj";
      EvLog (MeshLoaded 3 1);
      EvLog ManualLoading;
      EvExists TextureCandidate "models/body.JPG";
      EvExists TextureCandidate "models/body.JPG";
      EvExists TextureCandidate "models/body.jpg";
      EvReadImage "models/body.jpg";
      EvLog (TextureLoaded "body.jpg");
      EvLog ReadyWithTextures]).
Proof. reflexivity. Qed.

(** ** C3 *)

(** C3 as stated fails: with the reference [tex/skin.png] and both
    [models/tex/skin.png] and [models/skin.png] present, the flattened
    candidate exists but the resolver returns the verbatim one. *)
Lemma basename_not_preferred :
  OsPath.basename "tex/skin.png" = "skin.png"
  /\ fs_exists both_world (OsPath.join "models" (OsPath.basename "tex/skin.png")) = true
  /\ value (Testing.find_texture_file "models" "tex/skin.png") both_world
     = Some "models/tex/skin.png"
  /\ value (Testing.find_texture_file "models" "tex/skin.png") both_world
     <> Some (OsPath.join "models" (OsPath.basename "tex/skin.png")).
Proof. repeat split. discriminate. Qed.

(** C3, amended. When the flattened candidate [d/basename(r)] is present,
    the resolver returns it unless the verbatim candidate [d/r] is present
    too, which then wins: the result is always one of the two, the
    verbatim one first. The inline search of new.py agrees. *)
Theorem basename_candidate_found (w : World) (d r : string)
  (Hflat : fs_exists w (OsPath.join d (OsPath.basename r)) = true) :
  value (Testing.find_texture_file d r) w
  = Some (if fs_exists w (OsPath.join d r)
          then OsPath.join d r
          else OsPath.join d (OsPath.basename r))
  /\ value (New.search_textures d [r] None) w
     = value (Testing.find_texture_file d r) w.
Proof.
  assert (Hfind : find (fs_exists w) (possible_paths d r)
                  = Some (if fs_exists w (OsPath.join d r)
                          then OsPath.join d r
                          else OsPath.join d (OsPath.basename r))).
  { unfold possible_paths. cbn [app find].
    destruct (fs_exists w (OsPath.join d r)); [reflexivity|].
    now rewrite Hflat. }
  unfold value at 1 3, Testing.find_texture_file.
  rewrite search_textures_single, first_existing_run, Hfind.
  now split.
Qed.

Lemma basename_candidate_found_witness :
  value (Testing.find_texture_file "models" "sub/body.jpg") body_world
  = Some "models/body.jpg".
Proof.
  pose proof (basename_candidate_found body_world "models" "sub/body.jpg" eq_refl)
    as [H _].
  rewrite H. reflexivity.
Defined.

(** ** Running computations *)

Lemma value_bind {A B : Type} (m : M A) (k : A -> M B) (w : World) :
  value (bind m k) w = value (k (value m w)) w.
Proof.
  unfold value, bind. destruct (m w) as [a t1]. cbn [fst].
  now destruct (k a w).
Qed.

Lemma trace_bind {A B : Type} (m : M A) (k : A -> M B) (w : World) :
  trace (bind m k) w = trace m w ++ trace (k (value m w)) w.
Proof.
  unfold value, trace, bind. destruct (m w) as [a t1]. cbn [fst snd].
  now destruct (k a w).
Qed.

Lemma value_ret {A : Type} (a : A) (w : World) : value (ret a) w = a.
Proof. reflexivity. Qed.

Lemma run_eta {A : Type} (m : M A) (w : World) : m w = (value m w, trace m w).
Proof. unfold value, trace. now destruct (m w). Qed.

(** ** Which events each phase can produce *)

Lemma analysis_event_selects (t : list Event) :
  Forall analysis_event t ->
  texture_probes t = [] /\ images_read t = [] /\ viewed t = [].
Proof.
  induction 1 as [|e t He _ IH]; [easy|].
  destruct IH as (IH1 & IH2 & IH3).
  unfold texture_probes, images_read, viewed in *. cbn [flat_map].
  rewrite IH1, IH2, IH3.
  destruct e as [[| |] p| | | | | |]; cbn in He; try contradiction; easy.
Qed.

Lemma search_event_selects (t : list Event) :
  Forall search_event t -> images_read t = [] /\ viewed t = [].
Proof.
  induction 1 as [|e t He _ IH]; [easy|].
  destruct IH as (IH2 & IH3).
  unfold images_read, viewed in *. cbn [flat_map].
  rewrite IH2, IH3.
  destruct e as [[| |] p| | | | | |]; cbn in He; try contradiction; easy.
Qed.

Lemma not_view_selects (t : list Event) : Forall not_view t -> viewed t = [].
Proof.
  induction 1 as [|e t He _ IH]; [easy|].
  unfold viewed in *. cbn [flat_map]. rewrite IH.
  destruct e; cbn in He; try contradiction; easy.
Qed.

Lemma analysis_not_view (t : list Event) :
  Forall analysis_event t -> Forall not_view t.
Proof.
  apply Forall_impl. intros [[| |] p| | | | | |]; cbn; auto.
Qed.

Ltac split_trace :=
  repeat first
    [ rewrite trace_bind
    | apply Forall_app; split
    | apply Forall_cons; [exact I|]
    | apply Forall_nil ].

Section Phases.
Variable w : World.

Lemma T_scan_obj_events (f : stream) :
  forall acc tc, Forall analysis_event (trace (Testing.scan_obj f acc tc) w).
Proof.
  induction f as [|l rest IH|e]; intros acc tc; try apply Forall_nil.
  cbn [Testing.scan_obj].
  destruct (PyStr.startswith (PyStr.strip l) "mtllib").
  - destruct (nth_error _ 1); split_trace. apply IH.
  - destruct (PyStr.startswith (PyStr.strip l) "vt"); apply IH.
Qed.

Lemma T_scan_mtl_events (f : stream) :
  forall acc, Forall analysis_event (trace (Testing.scan_mtl f acc) w).
Proof.
  induction f as [|l rest IH|e]; intros acc; try apply Forall_nil.
  cbn [Testing.scan_mtl].
  destruct (PyStr.startswith (PyStr.strip l) "map_Kd"); [|apply IH].
  destruct (nth_error _ 1); split_trace. apply IH.
Qed.

Lemma N_scan_obj_events (f : stream) :
  forall hm tc acc, Forall analysis_event (trace (New.scan_obj f hm tc acc) w).
Proof.
  induction f as [|l rest IH|e]; intros hm tc acc; try apply Forall_nil.
  cbn [New.scan_obj].
  destruct (PyStr.startswith (PyStr.strip l) "mtllib").
  - destruct (nth_error _ 1); split_trace. apply IH.
  - destruct (PyStr.startswith (PyStr.strip l) "vt"); apply IH.
Qed.

Lemma N_scan_mtl_events (f : stream) :
  forall acc, Forall analysis_event (trace (New.scan_mtl f acc) w).
Proof.
  induction f as [|l rest IH|e]; intros acc; try apply Forall_nil.
  cbn [New.scan_mtl].
  destruct (PyStr.startswith (PyStr.strip l) "map_Kd"); [|apply IH].
  destruct (nth_error _ 1); split_trace. apply IH.
Qed.

Lemma T_analyze_obj_events (p : string) :
  Forall analysis_event (trace (Testing.analyze_obj p) w).
Proof.
  unfold Testing.analyze_obj. split_trace.
  - apply T_scan_obj_events.
  - destruct (value (Testing.scan_obj _ _ _) w) as [[files tc] [e|]];
      split_trace.
Qed.

Lemma N_analyze_obj_events (p : string) :
  Forall analysis_event (trace (New.analyze_obj p) w).
Proof.
  unfold New.analyze_obj. split_trace.
  - apply N_scan_obj_events.
  - destruct (value (New.scan_obj _ _ _ _) w) as [[[hm tc] files] [e|]];
      split_trace.
Qed.

Lemma T_read_mtl_events (d f : string) (acc : list string) :
  Forall analysis_event (trace (Testing.read_mtl d f acc) w).
Proof.
  unfold Testing.read_mtl. split_trace.
  destruct (value (os_path_exists _ _) w); split_trace.
  - apply T_scan_mtl_events.
  - destruct (value (Testing.scan_mtl _ _) w) as [files [e|]]; split_trace.
Qed.

Lemma N_read_mtl_events (d f : string) (acc : list string) :
  Forall analysis_event (trace (New.read_mtl d f acc) w).
Proof.
  unfold New.read_mtl. split_trace.
  destruct (value (os_path_exists _ _) w); split_trace.
  - apply N_scan_mtl_events.
  - destruct (value (New.scan_mtl _ _) w) as [files [e|]]; split_trace.
Qed.

Lemma T_collect_events (d : string) (files : list string) :
  Forall analysis_event (trace (Testing.collect_texture_paths d files) w).
Proof.
  unfold Testing.collect_texture_paths.
  destruct (nonempty files); [|apply Forall_nil].
  generalize (@nil string).
  induction files as [|f files IH]; intros acc; [apply Forall_nil|].
  cbn [Testing.read_mtls]. split_trace.
  - apply T_read_mtl_events.
  - apply IH.
Qed.

Lemma N_collect_events (d : string) (hm : bool) (files : list string) :
  Forall analysis_event (trace (New.collect_texture_files d hm files) w).
Proof.
  unfold New.collect_texture_files.
  destruct (hm && nonempty files); [|apply Forall_nil].
  split_trace.
  generalize (@nil string).
  induction files as [|f files IH]; intros acc; [apply Forall_nil|].
  cbn [New.read_mtls]. split_trace.
  - apply N_read_mtl_events.
  - apply IH.
Qed.

Lemma N_probe_paths_events (paths : list string) (found : option string) :
  Forall search_event (trace (New.probe_paths paths found) w).
Proof.
  induction paths as [|p rest IH]; [apply Forall_nil|].
  cbn [New.probe_paths]. split_trace.
  destruct (value (os_path_exists _ _) w); split_trace. apply IH.
Qed.

Lemma N_find_texture_events (d : string) (files : list string) :
  Forall search_event (trace (New.find_texture d files) w).
Proof.
  unfold New.find_texture.
  destruct (nonempty files); [|apply Forall_nil].
  split_trace.
  generalize (@None string).
  induction files as [|f files IH]; intros found; [apply Forall_nil|].
  cbn [New.search_textures]. split_trace.
  - apply N_probe_paths_events.
  - destruct (New.found_truthy _); [apply Forall_nil|apply IH].
Qed.

Lemma T_load_first_texture_events (d : string) (refs : list string) :
  forall mesh, Forall not_view (trace (Testing.load_first_texture d refs mesh) w).
Proof.
  induction refs as [|r refs IH]; intros mesh; [apply Forall_nil|].
  cbn [Testing.load_first_texture]. split_trace.
  - unfold trace, Testing.find_texture_file. rewrite first_existing_run.
    cbn [snd]. apply Forall_forall. intros e He.
    apply in_map_iff in He as (p & <- & _). exact I.
  - destruct (value (Testing.find_texture_file d r) w) as [p|].
    + destruct (PyStr.truthy p); split_trace.
      * destruct (value (read_image p) w); split_trace. apply IH.
      * apply IH.
    + split_trace. apply IH.
Qed.

End Phases.

(** ** The value of a load *)

Lemma T_load_value (w : World) (p : string) :
  fs_exists w p = true ->
  value (Testing.load_obj_with_textures p) w
  = value (Testing.load_and_texture
             p (OsPath.dirname p)
             (value (Testing.collect_texture_paths
                       (OsPath.dirname p)
                       (fst (value (Testing.analyze_obj p) w))) w)) w.
Proof.
  intros Hp. unfold Testing.load_obj_with_textures. rewrite !value_bind.
  change (value (os_path_exists ObjFile p) w) with (fs_exists w p).
  rewrite Hp. cbn [negb]. rewrite value_bind.
  destruct (value (Testing.analyze_obj p) w) as [files tc].
  now rewrite value_bind.
Qed.

Lemma T_load_and_texture_value (w : World) (p d : string) (refs : list string) :
  value (Testing.load_and_texture p d refs) w
  = match lib_read_triangle_mesh w p true with
    | inl e => inl e
    | inr m0 =>
        let mesh1 := set_vertex_normals m0 (lib_vertex_normals w m0) in
        let mesh :=
          if (length (textures mesh1) =? 0)%nat && nonempty refs
          then value (Testing.load_first_texture d refs mesh1) w
          else mesh1 in
        inr (if (0 <? length (textures mesh))%nat then mesh
             else paint_uniform_color mesh skin_tone)
    end.
Proof.
  unfold Testing.load_and_texture. rewrite !value_bind.
  change (value (read_triangle_mesh p true) w)
    with (lib_read_triangle_mesh w p true).
  destruct (lib_read_triangle_mesh w p true) as [e|m0]; [reflexivity|].
  rewrite !value_bind.
  change (value (compute_vertex_normals m0) w)
    with (set_vertex_normals m0 (lib_vertex_normals w m0)).
  cbv zeta.
  destruct (_ && _); rewrite ?value_bind;
    destruct (0 <? _)%nat; now rewrite value_bind.
Qed.

(** ** C5 *)

Section Painting.
Variable w : World.

Lemma T_load_and_texture_events (p d : string) (refs : list string) :
  Forall not_view (trace (Testing.load_and_texture p d refs) w).
Proof.
  unfold Testing.load_and_texture. split_trace.
  destruct (value (read_triangle_mesh p true) w) as [e|m0]; split_trace.
  - destruct (_ && _); split_trace. apply T_load_first_texture_events.
  - destruct (0 <? _)%nat; split_trace.
Qed.

Lemma T_load_events (p : string) :
  Forall not_view (trace (Testing.load_obj_with_textures p) w).
Proof.
  unfold Testing.load_obj_with_textures. split_trace.
  destruct (negb _); split_trace.
  - apply analysis_not_view, T_analyze_obj_events.
  - destruct (value (Testing.analyze_obj p) w) as [files tc]. split_trace.
    + apply analysis_not_view, T_collect_events.
    + apply T_load_and_texture_events.
Qed.

Lemma T_load_and_texture_painted (p d : string) (refs : list string) (m : TriangleMesh) :
  value (Testing.load_and_texture p d refs) w = inr m ->
  textures m = [] ->
  vertex_colors m = repeat skin_tone (length (vertices m)).
Proof.
  unfold Testing.load_and_texture. rewrite !value_bind.
  destruct (value (read_triangle_mesh p true) w) as [e|m0]; [discriminate|].
  rewrite !value_bind.
  match goal with
  | |- context [textures (value ?c w)] => set (mesh := value c w)
  end.
  destruct (0 <? length (textures mesh))%nat eqn:E; rewrite value_bind.
  - intros [= <-] Hm. rewrite Hm in E. discriminate.
  - intros [= <-] _. reflexivity.
Qed.

Lemma T_load_painted (p : string) (m : TriangleMesh) :
  value (Testing.load_obj_with_textures p) w = inr m ->
  textures m = [] ->
  vertex_colors m = repeat skin_tone (length (vertices m)).
Proof.
  unfold Testing.load_obj_with_textures. rewrite !value_bind.
  destruct (negb _); [discriminate|].
  rewrite value_bind.
  destruct (value (Testing.analyze_obj p) w) as [files tc].
  rewrite value_bind. apply T_load_and_texture_painted.
Qed.

Lemma T_load_obj_mesh_viewed (p : string) (gui : Testing.Gui) :
  viewed (trace (Testing.load_obj_mesh p gui) w)
  = match value (Testing.load_obj_with_textures p) w with
    | inr m => if PyStr.truthy p then [m] else []
    | inl _ => []
    end.
Proof.
  unfold Testing.load_obj_mesh.
  destruct (PyStr.truthy p).
  - rewrite trace_bind. unfold viewed at 1. rewrite flat_map_app.
    fold (viewed (trace (Testing.load_obj_with_textures p) w)).
    rewrite (not_view_selects _ (T_load_events p)).
    destruct (value (Testing.load_obj_with_textures p) w) as [e|m].
    + reflexivity.
    + rewrite trace_bind. unfold Testing.visualize_mesh.
      rewrite !trace_bind, ?value_bind.
      now destruct (value (view _ m) w).
  - now destruct (value _ w).
Qed.

Lemma N_visualize_run (mesh : TriangleMesh) :
  value (New.visualize mesh) w
  = match lib_view w (displayed mesh) with
    | None => inr (displayed mesh)
    | Some e => inl e
    end
  /\ viewed (trace (New.visualize mesh) w) = [displayed mesh].
Proof.
  unfold displayed, New.visualize, value, trace, bind, print, ret, view.
  destruct (0 <? length (textures mesh))%nat; cbn [fst snd];
    destruct (lib_view w _); split; reflexivity.
Qed.

Lemma N_load_manually_events (mesh : TriangleMesh) (found : option string) :
  Forall not_view (trace (New.load_manually mesh found) w).
Proof.
  unfold New.load_manually.
  destruct found as [q|]; [|apply Forall_nil].
  destruct (_ && _); split_trace.
  destruct (value (read_image q) w); split_trace.
Qed.

Lemma N_load_and_show_run (p : string) (found : option string) :
  match lib_read_triangle_mesh w p true with
  | inl e =>
      value (New.load_and_show p found) w = inl e
      /\ viewed (trace (New.load_and_show p found) w) = []
  | inr m0 =>
      let mesh := value (New.load_manually
                           (set_vertex_normals m0 (lib_vertex_normals w m0))
                           found) w in
      value (New.load_and_show p found) w
      = match lib_view w (displayed mesh) with
        | None => inr (mesh, displayed mesh)
        | Some e => inl e
        end
      /\ viewed (trace (New.load_and_show p found) w) = [displayed mesh]
  end.
Proof.
  unfold New.load_and_show. rewrite !value_bind, !trace_bind.
  change (value (read_triangle_mesh p true) w)
    with (lib_read_triangle_mesh w p true).
  destruct (lib_read_triangle_mesh w p true) as [e|m0]; [now split|].
  rewrite !value_bind, !trace_bind.
  change (value (compute_vertex_normals m0) w)
    with (set_vertex_normals m0 (lib_vertex_normals w m0)).
  set (m1 := set_vertex_normals m0 (lib_vertex_normals w m0)).
  set (mesh := value (New.load_manually m1 found) w). cbv zeta.
  destruct (N_visualize_run mesh) as [Hv Ht].
  pose proof (not_view_selects _ (N_load_manually_events m1 found)) as Hq.
  split.
  - rewrite Hv. now destruct (lib_view w (displayed mesh)).
  - unfold viewed in *. rewrite !flat_map_app, Hq, Ht.
    cbn [flat_map trace snd read_triangle_mesh compute_vertex_normals print app].
    now destruct (value (New.visualize mesh) w).
Qed.

Lemma displayed_painted (mesh : TriangleMesh) :
  textures (displayed mesh) = [] ->
  vertex_colors (displayed mesh)
  = repeat skin_tone (length (vertices (displayed mesh))).
Proof.
  unfold displayed.
  destruct (0 <? length (textures mesh))%nat eqn:E; [|reflexivity].
  intros H. rewrite H in E. discriminate.
Qed.

End Painting.
Lemma N_load_viewed (w : World) (p : string) :
  viewed (trace (New.comprehensive_mesh_analysis_and_load p) w)
  = viewed (trace (New.load_and_show
                     p (value (New.find_texture
                                 (OsPath.dirname p)
                                 (value (New.collect_texture_files
                                           (OsPath.dirname p)
                                           (fst (value (New.analyze_obj p) w))
                                           (snd (value (New.analyze_obj p) w))) w)) w)) w)
  /\ value (New.comprehensive_mesh_analysis_and_load p) w
     = value (New.load_and_show
                p (value (New.find_texture
                            (OsPath.dirname p)
                            (value (New.collect_texture_files
                                      (OsPath.dirname p)
                                      (fst (value (New.analyze_obj p) w))
                                      (snd (value (New.analyze_obj p) w))) w)) w)) w.
Proof.
  unfold New.comprehensive_mesh_analysis_and_load.
  rewrite !value_bind, !trace_bind.
  pose proof (N_analyze_obj_events w p) as Ha.
  destruct (value (New.analyze_obj p) w) as [hm files]. cbn [fst snd].
  rewrite !value_bind, !trace_bind.
  pose proof (N_collect_events w (OsPath.dirname p) hm files) as Hc.
  pose proof (N_find_texture_events
                w (OsPath.dirname p)
                (value (New.collect_texture_files (OsPath.dirname p) hm files) w))
    as Hf.
  apply analysis_event_selects in Ha as (_ & _ & Ha).
  apply analysis_event_selects in Hc as (_ & _ & Hc).
  apply search_event_selects in Hf as (_ & Hf).
  split; [|reflexivity].
  unfold viewed in *. rewrite !flat_map_app, Ha, Hc, Hf. reflexivity.
Qed.

Lemma T_load_first_texture_geometry (w : World) (d : string)
      (refs : list string) :
  forall mesh,
    vertices (value (Testing.load_first_texture d refs mesh) w) = vertices mesh
    /\ triangles (value (Testing.load_first_texture d refs mesh) w)
       = triangles mesh
    /\ vertex_normals (value (Testing.load_first_texture d refs mesh) w)
       = vertex_normals mesh
    /\ vertex_colors (value (Testing.load_first_texture d refs mesh) w)
       = vertex_colors mesh.
Proof.
  induction refs as [|r refs IH]; intros mesh; [now repeat split|].
  cbn [Testing.load_first_texture]. rewrite value_bind.
  destruct (value (Testing.find_texture_file d r) w) as [q|];
    [|rewrite value_bind; apply IH].
  destruct (PyStr.truthy q); [|rewrite value_bind; apply IH].
  rewrite value_bind.
  destruct (value (read_image q) w); rewrite value_bind;
    [apply IH|now repeat split].
Qed.

(** What [load_obj_with_textures] returns, in terms of the mesh the
    loader delivered. *)
Lemma T_load_result (w : World) (p : string) (m0 : TriangleMesh) :
  fs_exists w p = true ->
  lib_read_triangle_mesh w p true = inr m0 ->
  exists mesh,
    value (Testing.load_obj_with_textures p) w
    = inr (if (0 <? length (textures mesh))%nat then mesh
           else paint_uniform_color mesh skin_tone)
    /\ vertices mesh = vertices m0
    /\ triangles mesh = triangles m0
    /\ vertex_normals mesh = lib_vertex_normals w m0
    /\ vertex_colors mesh = vertex_colors m0
    /\ (value (Testing.collect_texture_paths
                 (OsPath.dirname p)
                 (fst (value (Testing.analyze_obj p) w))) w = [] ->
        textures mesh = textures m0).
Proof.
  intros Hp Hload.
  rewrite (T_load_value w p Hp), T_load_and_texture_value, Hload. cbv zeta.
  eexists. split; [reflexivity|].
  destruct (value (Testing.collect_texture_paths _ _) w) as [|r refs].
  - rewrite andb_false_r. now repeat split.
  - destruct (_ && _); [|now repeat split].
    destruct (T_load_first_texture_geometry
                w (OsPath.dirname p) (r :: refs)
                (set_vertex_normals m0 (lib_vertex_normals w m0)))
      as (H1 & H2 & H3 & H4).
    repeat split; auto. discriminate.
Qed.

Lemma N_load_manually_geometry (w : World) (mesh : TriangleMesh)
      (found : option string) :
  vertices (value (New.load_manually mesh found) w) = vertices mesh
  /\ triangles (value (New.load_manually mesh found) w) = triangles mesh
  /\ vertex_normals (value (New.load_manually mesh found) w)
     = vertex_normals mesh
  /\ vertex_colors (value (New.load_manually mesh found) w)
     = vertex_colors mesh.
Proof.
  unfold New.load_manually.
  destruct found as [q|]; [|now repeat split].
  destruct (_ && _); [|now repeat split].
  rewrite !value_bind.
  destruct (value (read_image q) w); rewrite value_bind; now repeat split.
Qed.

(** C5. Whenever a load shows a mesh that carries no texture, that mesh
    has been painted with the uniform colour [0.7, 0.5, 0.3]: every vertex
    has that colour. In testing.py the mesh [load_obj_with_textures]
    returns is the one shown, and it is painted when it has no texture; in
    new.py a mesh without texture is shown as a fresh mesh with the same
    geometry, painted, and a textured one is shown as it is. The mesh
    shown stems from the one the loader delivered: it has the loader's
    vertices and triangles and the computed normals, and when it ends
    without texture it carries one colour [0.7, 0.5, 0.3] for each vertex
    of the loader's mesh; with a texture it keeps the loader's colours.
    It ends without texture when the loader attached none and no
    reference was collected. *)
Theorem untextured_mesh_is_painted (w : World) (p : string) (gui : Testing.Gui) :
  (forall m,
      value (Testing.load_obj_with_textures p) w = inr m ->
      (PyStr.truthy p = true ->
       viewed (trace (Testing.load_obj_mesh p gui) w) = [m])
      /\ (textures m = [] ->
          vertex_colors m = repeat skin_tone (length (vertices m))))
  /\ (forall m,
        In m (viewed (trace (Testing.load_obj_mesh p gui) w)) ->
        textures m = [] ->
        vertex_colors m = repeat skin_tone (length (vertices m)))
  /\ (forall m v,
        value (New.comprehensive_mesh_analysis_and_load p) w = inr (m, v) ->
        viewed (trace (New.comprehensive_mesh_analysis_and_load p) w) = [v]
        /\ (textures m = [] ->
            v = paint_uniform_color
                  (mkMesh (vertices m) (triangles m) (vertex_normals m) [] [])
                  skin_tone)
        /\ (textures m <> [] -> v = m))
  /\ (forall v,
        In v (viewed (trace (New.comprehensive_mesh_analysis_and_load p) w)) ->
        textures v = [] ->
        vertex_colors v = repeat skin_tone (length (vertices v)))
  /\ (forall m0,
        fs_exists w p = true ->
        lib_read_triangle_mesh w p true = inr m0 ->
        exists m,
          value (Testing.load_obj_with_textures p) w = inr m
          /\ (PyStr.truthy p = true ->
              viewed (trace (Testing.load_obj_mesh p gui) w) = [m])
          /\ vertices m = vertices m0
          /\ triangles m = triangles m0
          /\ vertex_normals m = lib_vertex_normals w m0
          /\ (textures m = [] ->
              vertex_colors m = repeat skin_tone (length (vertices m0)))
          /\ (textures m <> [] -> vertex_colors m = vertex_colors m0)
          /\ (textures m0 = [] ->
              value (Testing.collect_texture_paths
                       (OsPath.dirname p)
                       (fst (value (Testing.analyze_obj p) w))) w = [] ->
              textures m = []))
  /\ (forall m0,
        lib_read_triangle_mesh w p true = inr m0 ->
        exists v,
          viewed (trace (New.comprehensive_mesh_analysis_and_load p) w) = [v]
          /\ vertices v = vertices m0
          /\ triangles v = triangles m0
          /\ vertex_normals v = lib_vertex_normals w m0
          /\ (textures v = [] ->
              vertex_colors v = repeat skin_tone (length (vertices m0)))
          /\ (textures v <> [] -> vertex_colors v = vertex_colors m0)
          /\ (textures m0 = [] ->
              value (New.collect_texture_files
                       (OsPath.dirname p)
                       (fst (value (New.analyze_obj p) w))
                       (snd (value (New.analyze_obj p) w))) w = [] ->
              textures v = [])).
Proof.
  split; [|split; [|split; [|split; [|split]]]].
  - intros m Hm. split.
    + intros Hp. rewrite T_load_obj_mesh_viewed, Hm, Hp. reflexivity.
    + now apply (T_load_painted w p).
  - intros m. rewrite T_load_obj_mesh_viewed.
    destruct (value (Testing.load_obj_with_textures p) w) as [e|m'] eqn:E;
      [intros []|].
    destruct (PyStr.truthy p); [|intros []].
    intros [<-|[]]. now apply (T_load_painted w p).
  - intros m v Hv.
    destruct (N_load_viewed w p) as [Ht Hval].
    rewrite Hval in Hv. rewrite Ht.
    match type of Hv with
    | value (New.load_and_show _ ?f) _ = _ =>
        pose proof (N_load_and_show_run w p f) as Hrun
    end.
    destruct (lib_read_triangle_mesh w p true) as [e|m0];
      [destruct Hrun as [Hrun _]; congruence|].
    cbv zeta in Hrun. destruct Hrun as [H1 H2].
    rewrite H1 in Hv. destruct (lib_view w _); [discriminate|].
    injection Hv as <- <-.
    split; [exact H2|]. unfold displayed. split; intros Hx.
    + rewrite Hx. reflexivity.
    + destruct (textures _); [contradiction|reflexivity].
  - intros v.
    destruct (N_load_viewed w p) as [Ht Hval]. rewrite Ht.
    match goal with
    | |- context [New.load_and_show _ ?f] =>
        pose proof (N_load_and_show_run w p f) as Hrun
    end.
    destruct (lib_read_triangle_mesh w p true) as [e|m0].
    + destruct Hrun as [_ ->]. intros [].
    + cbv zeta in Hrun. destruct Hrun as [_ ->].
      intros [<-|[]]. apply displayed_painted.
  - intros m0 Hp Hload.
    destruct (T_load_result w p m0 Hp Hload)
      as (mesh & Hv & H1 & H2 & H3 & H4 & H5).
    eexists. split; [exact Hv|].
    split; [intros Ht; now rewrite T_load_obj_mesh_viewed, Hv, Ht|].
    destruct (textures mesh) as [|t ts] eqn:Etex; cbn [length Nat.ltb Nat.leb].
    + cbn [paint_uniform_color vertices triangles vertex_normals vertex_colors
           textures].
      rewrite H1. repeat split; auto. intros H. now rewrite Etex in H.
    + rewrite Etex. repeat split; auto; [discriminate|].
      intros H0 Hrefs. specialize (H5 Hrefs). rewrite H0 in H5. discriminate.
  - intros m0 Hload.
    destruct (N_load_viewed w p) as [-> _].
    match goal with
    | |- context [New.load_and_show _ ?f] =>
        pose proof (N_load_and_show_run w p f) as Hrun;
        pose proof (N_load_manually_geometry
                      w (set_vertex_normals m0 (lib_vertex_normals w m0)) f)
          as (H1 & H2 & H3 & H4)
    end.
    rewrite Hload in Hrun. cbv zeta in Hrun. destruct Hrun as [_ ->].
    eexists. split; [reflexivity|]. unfold displayed.
    destruct (textures (value (New.load_manually _ _) w)) as [|t ts] eqn:Etex;
      cbn [length Nat.ltb Nat.leb].
    + cbn [paint_uniform_color vertices triangles vertex_normals vertex_colors
           textures].
      rewrite H1. repeat split; auto. intros H. now destruct H.
    + rewrite Etex. repeat split; auto; [discriminate|].
      intros H0 Hrefs. rewrite Hrefs in Etex. cbn in Etex.
      rewrite H0 in Etex. discriminate.
Qed.

Lemma untextured_mesh_is_painted_witness :
  (exists m,
      viewed (trace (Testing.load_obj_mesh "models/a.obj"
                                           (Testing.mkGui None None))
                    two_world) = [m]
      /\ vertices m = vertices triangle
      /\ textures m = []
      /\ vertex_colors m = [skin_tone; skin_tone; skin_tone])
  /\ (exists v,
        viewed (trace (New.comprehensive_mesh_analysis_and_load "models/a.obj")
                      two_world) = [v]
        /\ vertices v = vertices triangle
        /\ textures v = []
        /\ vertex_colors v = [skin_tone; skin_tone; skin_tone]).
Proof.
  pose proof (untextured_mesh_is_painted
                two_world "models/a.obj" (Testing.mkGui None None))
    as (_ & _ & _ & _ & HT & HN).
  destruct (HT triangle eq_refl eq_refl)
    as (m & Hvalue & Hview & Hvert & _ & _ & Hcol & _).
  destruct (HN triangle eq_refl) as (v & Hview' & Hvert' & _ & _ & Hcol' & _).
  assert (Hm : textures m = []).
  { vm_compute in Hvalue. now injection Hvalue as <-. }
  assert (Hv : textures v = []).
  { vm_compute in Hview'. now injection Hview' as <-. }
  split.
  - exists m. split; [exact (Hview eq_refl)|]. split; [exact Hvert|].
    split; [exact Hm|exact (Hcol Hm)].
  - exists v. split; [exact Hview'|]. split; [exact Hvert'|].
    split; [exact Hv|exact (Hcol' Hv)].
Defined.

(** ** C4 *)

Lemma not_manual_selects (t : list Event) :
  Forall not_manual t -> texture_probes t = [] /\ images_read t = [].
Proof.
  induction 1 as [|e t He _ IH]; [easy|].
  destruct IH as (IH1 & IH2).
  unfold texture_probes, images_read in *. cbn [flat_map].
  rewrite IH1, IH2.
  destruct e as [[| |] p| | | | | |]; cbn in He; try contradiction; easy.
Qed.

Lemma not_image_selects (t : list Event) :
  Forall not_image t -> images_read t = [].
Proof.
  induction 1 as [|e t He _ IH]; [easy|].
  unfold images_read in *. cbn [flat_map]. rewrite IH.
  destruct e; cbn in He; try contradiction; easy.
Qed.

Lemma analysis_not_manual (t : list Event) :
  Forall analysis_event t -> Forall not_manual t.
Proof.
  apply Forall_impl. intros [[| |] p| | | | | |]; cbn; auto.
Qed.

Lemma analysis_not_image (t : list Event) :
  Forall analysis_event t -> Forall not_image t.
Proof.
  apply Forall_impl. intros [[| |] p| | | | | |]; cbn; auto.
Qed.

Lemma search_not_image (t : list Event) :
  Forall search_event t -> Forall not_image t.
Proof.
  apply Forall_impl. intros [[| |] p| | | | | |]; cbn; auto.
Qed.

Section AutoLoaded.
Variables (w : World) (p : string) (m0 : TriangleMesh).
Hypothesis Hload : lib_read_triangle_mesh w p true = inr m0.
Hypothesis Htex : textures m0 <> [].

Lemma T_load_and_texture_auto (d : string) (refs : list string) :
  Testing.load_and_texture p d refs w
  = (inr (set_vertex_normals m0 (lib_vertex_normals w m0)),
     [EvLog LoadingMesh; EvReadMesh p;
      EvLog (MeshLoaded (length (vertices m0)) (length (triangles m0)));
      EvLog ReadyWithTextures]).
Proof.
  unfold Testing.load_and_texture, bind, log, read_triangle_mesh,
    compute_vertex_normals, ret.
  rewrite Hload.
  destruct (textures m0) as [|x xs] eqn:E; [contradiction|].
  cbn. rewrite E. cbn. rewrite ?E. reflexivity.
Qed.

Lemma N_load_manually_auto (mesh : TriangleMesh) (found : option string) :
  textures mesh <> [] -> New.load_manually mesh found w = (mesh, []).
Proof.
  intros H. unfold New.load_manually.
  destruct found as [q|]; [|reflexivity].
  destruct (textures mesh); [contradiction|reflexivity].
Qed.

Lemma N_visualize_events (mesh : TriangleMesh) :
  Forall not_image (trace (New.visualize mesh) w).
Proof.
  unfold New.visualize. split_trace.
  - destruct (0 <? _)%nat; split_trace.
  - destruct (value _ w); split_trace;
      destruct (value (view _ _) w); split_trace.
Qed.

Lemma N_load_and_show_auto (found : option string) :
  value (New.load_and_show p found) w
  = match lib_view w (set_vertex_normals m0 (lib_vertex_normals w m0)) with
    | None => inr (set_vertex_normals m0 (lib_vertex_normals w m0),
                   set_vertex_normals m0 (lib_vertex_normals w m0))
    | Some e => inl e
    end
  /\ Forall not_image (trace (New.load_and_show p found) w).
Proof.
  assert (Hm1 : textures (set_vertex_normals m0 (lib_vertex_normals w m0)) <> [])
    by exact Htex.
  split.
  - pose proof (N_load_and_show_run w p found) as Hrun.
    rewrite Hload in Hrun. cbv zeta in Hrun. destruct Hrun as [-> _].
    unfold value at 1 2 3. rewrite (N_load_manually_auto _ found Hm1). cbn [fst].
    unfold displayed.
    destruct (textures (set_vertex_normals _ _)); [contradiction|reflexivity].
  - unfold New.load_and_show. split_trace.
    change (value (read_triangle_mesh p true) w)
      with (lib_read_triangle_mesh w p true).
    rewrite Hload. split_trace.
    + unfold trace, value, compute_vertex_normals. cbn [fst].
      rewrite (N_load_manually_auto _ found Hm1). apply Forall_nil.
    + apply N_visualize_events.
    + destruct (value (New.visualize _) w); apply Forall_nil.
Qed.

End AutoLoaded.

(** C4 as stated fails for new.py: the loader attaches a texture, and the
    candidates of the reference [skin.png] are checked all the same, before
    the mesh is loaded. *)
Lemma probing_despite_auto_texture :
  option_map textures
    (match lib_read_triangle_mesh auto_world "models/a.obj" true with
     | inr m => Some m
     | inl _ => None
     end) = Some [ImageHandle 1]
  /\ texture_probes
       (trace (New.comprehensive_mesh_analysis_and_load "models/a.obj") auto_world)
     = ["models/skin.png"]
  /\ texture_probes
       (trace (New.comprehensive_mesh_analysis_and_load "models/a.obj") auto_world)
     <> [].
Proof. repeat split. discriminate. Qed.

(** C4, amended. When the loader has attached at least one texture, no
    image is read and the mesh keeps the loader's textures, in both
    programs. In testing.py no texture candidate is checked either: the
    returned mesh is the loaded one with its normals computed. In new.py
    the candidates are checked before the mesh is loaded, whatever the
    loader does afterwards; the path found is then left unused. *)
Theorem auto_textures_kept (w : World) (p : string) (m0 : TriangleMesh)
  (Hload : lib_read_triangle_mesh w p true = inr m0)
  (Htex : textures m0 <> []) :
  let m1 := set_vertex_normals m0 (lib_vertex_normals w m0) in
  textures m1 = textures m0
  /\ (fs_exists w p = true ->
      value (Testing.load_obj_with_textures p) w = inr m1
      /\ texture_probes (trace (Testing.load_obj_with_textures p) w) = []
      /\ images_read (trace (Testing.load_obj_with_textures p) w) = [])
  /\ value (New.comprehensive_mesh_analysis_and_load p) w
     = match lib_view w m1 with
       | None => inr (m1, m1)
       | Some e => inl e
       end
  /\ images_read (trace (New.comprehensive_mesh_analysis_and_load p) w) = [].
Proof.
  cbv zeta. split; [reflexivity|]. split; [|split].
  - intros Hp.
    assert (Hrun : value (Testing.load_obj_with_textures p) w
                   = inr (set_vertex_normals m0 (lib_vertex_normals w m0))
                   /\ Forall not_manual (trace (Testing.load_obj_with_textures p) w)).
    { unfold Testing.load_obj_with_textures.
      rewrite !value_bind, !trace_bind.
      change (value (os_path_exists ObjFile p) w) with (fs_exists w p).
      rewrite Hp. cbn [negb].
      rewrite !value_bind, !trace_bind.
      pose proof (T_analyze_obj_events w p) as Ha.
      destruct (value (Testing.analyze_obj p) w) as [files tc].
      rewrite !value_bind, !trace_bind.
      unfold value at 1, trace at 5.
      rewrite (T_load_and_texture_auto w p m0 Hload Htex).
      split; [reflexivity|].
      split_trace.
      - now apply analysis_not_manual.
      - apply analysis_not_manual, T_collect_events. }
    destruct Hrun as [Hv Ht].
    apply not_manual_selects in Ht as [Ht1 Ht2]. now repeat split.
  - destruct (N_load_viewed w p) as [_ ->].
    apply (N_load_and_show_auto w p m0 Hload Htex).
  - apply not_image_selects.
    unfold New.comprehensive_mesh_analysis_and_load. split_trace.
    + apply analysis_not_image, N_analyze_obj_events.
    + destruct (value (New.analyze_obj p) w) as [hm files]. split_trace.
      * apply analysis_not_image, N_collect_events.
      * apply search_not_image, N_find_texture_events.
      * apply (N_load_and_show_auto w p m0 Hload Htex).
Qed.

Lemma auto_textures_kept_witness :
  value (Testing.load_obj_with_textures "models/a.obj") auto_world
  = inr (set_textures triangle [ImageHandle 1])
  /\ texture_probes (trace (Testing.load_obj_with_textures "models/a.obj") auto_world) = []
  /\ images_read (trace (New.comprehensive_mesh_analysis_and_load "models/a.obj")
                        auto_world) = [].
Proof.
  pose proof (auto_textures_kept auto_world "models/a.obj"
                (set_textures triangle [ImageHandle 1]) eq_refl) as H.
  cbv zeta in H.
  destruct H as (_ & H1 & _ & H2); [discriminate|].
  destruct (H1 eq_refl) as (Hv & Hp & _).
  repeat split; assumption.
Defined.

(** ** Scanning the text files *)

Section Scanning.
Variable w : World.

(** Scanning [ls] followed by [tail]: when the scan of [ls] alone ends
    with an exception, [tail] is never reached; otherwise the scan goes on
    into [tail] with the variables as [ls] left them. *)
Lemma T_scan_obj_split (ls : list string) (tail : stream) :
  forall acc tc r t,
    Testing.scan_obj (lines_then ls Eof) acc tc w = (r, t) ->
    Testing.scan_obj (lines_then ls tail) acc tc w
    = match snd r with
      | Some _ => (r, t)
      | None =>
          let (r2, t2) := Testing.scan_obj tail (fst (fst r)) (snd (fst r)) w in
          (r2, t ++ t2)
      end.
Proof.
  induction ls as [|l ls IH]; intros acc tc r t.
  - cbn. intros [= <- <-]. cbn. now destruct (Testing.scan_obj tail acc tc w).
  - cbn [lines_then Testing.scan_obj].
    destruct (PyStr.startswith (PyStr.strip l) "mtllib").
    + destruct (nth_error _ 1) as [a|].
      * unfold bind, log.
        destruct (Testing.scan_obj (lines_then ls Eof) (acc ++ [a]) tc w)
          as [r1 t1] eqn:E.
        intros [= <- <-]. rewrite (IH _ _ _ _ E).
        destruct (snd r1); [reflexivity|].
        now destruct (Testing.scan_obj tail _ _ w).
      * intros [= <- <-]. reflexivity.
    + destruct (PyStr.startswith (PyStr.strip l) "vt"); apply IH.
Qed.

Lemma T_scan_mtl_split (ls : list string) (tail : stream) :
  forall acc r t,
    Testing.scan_mtl (lines_then ls Eof) acc w = (r, t) ->
    Testing.scan_mtl (lines_then ls tail) acc w
    = match snd r with
      | Some _ => (r, t)
      | None =>
          let (r2, t2) := Testing.scan_mtl tail (fst r) w in
          (r2, t ++ t2)
      end.
Proof.
  induction ls as [|l ls IH]; intros acc r t.
  - cbn. intros [= <- <-]. cbn. now destruct (Testing.scan_mtl tail acc w).
  - cbn [lines_then Testing.scan_mtl].
    destruct (PyStr.startswith (PyStr.strip l) "map_Kd"); [|apply IH].
    destruct (nth_error _ 1) as [a|].
    + unfold bind, log.
      destruct (Testing.scan_mtl (lines_then ls Eof) (acc ++ [a]) w)
        as [r1 t1] eqn:E.
      intros [= <- <-]. rewrite (IH _ _ _ E).
      destruct (snd r1); [reflexivity|].
      now destruct (Testing.scan_mtl tail _ w).
    + intros [= <- <-]. reflexivity.
Qed.

Lemma N_scan_obj_split (ls : list string) (tail : stream) :
  forall hm tc acc r t,
    New.scan_obj (lines_then ls Eof) hm tc acc w = (r, t) ->
    New.scan_obj (lines_then ls tail) hm tc acc w
    = match snd r with
      | Some _ => (r, t)
      | None =>
          let (r2, t2) := New.scan_obj tail (fst (fst (fst r)))
                                       (snd (fst (fst r))) (snd (fst r)) w in
          (r2, t ++ t2)
      end.
Proof.
  induction ls as [|l ls IH]; intros hm tc acc r t.
  - cbn. intros [= <- <-]. cbn. now destruct (New.scan_obj tail hm tc acc w).
  - cbn [lines_then New.scan_obj].
    destruct (PyStr.startswith (PyStr.strip l) "mtllib").
    + destruct (nth_error _ 1) as [a|].
      * unfold bind, print.
        destruct (New.scan_obj (lines_then ls Eof) true tc (acc ++ [a]) w)
          as [r1 t1] eqn:E.
        intros [= <- <-]. rewrite (IH _ _ _ _ _ E).
        destruct (snd r1); [reflexivity|].
        now destruct (New.scan_obj tail _ _ _ w).
      * intros [= <- <-]. reflexivity.
    + destruct (PyStr.startswith (PyStr.strip l) "vt"); apply IH.
Qed.

Lemma N_scan_mtl_split (ls : list string) (tail : stream) :
  forall acc r t,
    New.scan_mtl (lines_then ls Eof) acc w = (r, t) ->
    New.scan_mtl (lines_then ls tail) acc w
    = match snd r with
      | Some _ => (r, t)
      | None =>
          let (r2, t2) := New.scan_mtl tail (fst r) w in
          (r2, t ++ t2)
      end.
Proof.
  induction ls as [|l ls IH]; intros acc r t.
  - cbn. intros [= <- <-]. cbn. now destruct (New.scan_mtl tail acc w).
  - cbn [lines_then New.scan_mtl].
    destruct (PyStr.startswith (PyStr.strip l) "map_Kd"); [|apply IH].
    destruct (nth_error _ 1) as [a|].
    + unfold bind, print.
      destruct (New.scan_mtl (lines_then ls Eof) (acc ++ [a]) w)
        as [r1 t1] eqn:E.
      intros [= <- <-]. rewrite (IH _ _ _ E).
      destruct (snd r1); [reflexivity|].
      now destruct (New.scan_mtl tail _ w).
    + intros [= <- <-]. reflexivity.
Qed.

(** The only exception a scan of complete lines can end with is the
    [IndexError] of a keyword line without argument. *)
Lemma T_scan_obj_raised (ls : list string) :
  forall acc tc e,
    snd (value (Testing.scan_obj (lines_then ls Eof) acc tc) w) = Some e ->
    e = IndexError.
Proof.
  induction ls as [|l ls IH]; intros acc tc e; [discriminate|].
  cbn [lines_then Testing.scan_obj].
  destruct (PyStr.startswith (PyStr.strip l) "mtllib").
  - destruct (nth_error _ 1) as [a|].
    + rewrite value_bind. apply IH.
    + now intros [= <-].
  - destruct (PyStr.startswith (PyStr.strip l) "vt"); apply IH.
Qed.

Lemma T_scan_mtl_raised (ls : list string) :
  forall acc e,
    snd (value (Testing.scan_mtl (lines_then ls Eof) acc) w) = Some e ->
    e = IndexError.
Proof.
  induction ls as [|l ls IH]; intros acc e; [discriminate|].
  cbn [lines_then Testing.scan_mtl].
  destruct (PyStr.startswith (PyStr.strip l) "map_Kd"); [|apply IH].
  destruct (nth_error _ 1) as [a|].
  - rewrite value_bind. apply IH.
  - now intros [= <-].
Qed.

Lemma N_scan_obj_raised (ls : list string) :
  forall hm tc acc e,
    snd (value (New.scan_obj (lines_then ls Eof) hm tc acc) w) = Some e ->
    e = IndexError
    /\ fst (fst (fst (value (New.scan_obj (lines_then ls Eof) hm tc acc) w))) = true.
Proof.
  induction ls as [|l ls IH]; intros hm tc acc e; [discriminate|].
  cbn [lines_then New.scan_obj].
  destruct (PyStr.startswith (PyStr.strip l) "mtllib").
  - destruct (nth_error _ 1) as [a|].
    + rewrite value_bind. apply IH.
    + now intros [= <-].
  - destruct (PyStr.startswith (PyStr.strip l) "vt"); apply IH.
Qed.

Lemma N_scan_mtl_raised (ls : list string) :
  forall acc e,
    snd (value (New.scan_mtl (lines_then ls Eof) acc) w) = Some e ->
    e = IndexError.
Proof.
  induction ls as [|l ls IH]; intros acc e; [discriminate|].
  cbn [lines_then New.scan_mtl].
  destruct (PyStr.startswith (PyStr.strip l) "map_Kd"); [|apply IH].
  destruct (nth_error _ 1) as [a|].
  - rewrite value_bind. apply IH.
  - now intros [= <-].
Qed.

Lemma well_formed_tail (kw l : string) (ls : list string) :
  well_formed kw (l :: ls) -> well_formed kw ls.
Proof. intros H raw Hin. apply H. now right. Qed.

(** A file whose keyword lines all have an argument is scanned to its
    end, and every argument is collected, in order. *)
Lemma T_scan_obj_clean (ls : list string) :
  well_formed "mtllib" ls ->
  forall acc tc,
    fst (fst (value (Testing.scan_obj (lines_then ls Eof) acc tc) w))
    = acc ++ keyword_args "mtllib" ls
    /\ snd (value (Testing.scan_obj (lines_then ls Eof) acc tc) w) = None.
Proof.
  induction ls as [|l ls IH]; intros Hwf acc tc.
  - cbn. now rewrite app_nil_r.
  - specialize (IH (well_formed_tail _ _ _ Hwf)).
    pose proof (Hwf l (or_introl eq_refl)) as Hl.
    cbn [lines_then Testing.scan_obj keyword_args flat_map].
    unfold is_keyword_line, line_arg in *.
    destruct (PyStr.startswith (PyStr.strip l) "mtllib").
    + destruct (nth_error _ 1) as [a|]; [|now destruct Hl].
      rewrite value_bind. fold (keyword_args "mtllib" ls).
      destruct (IH (acc ++ [a]) tc) as [-> ->].
      now rewrite <- app_assoc.
    + fold (keyword_args "mtllib" ls). cbn [app].
      destruct (PyStr.startswith (PyStr.strip l) "vt"); apply IH.
Qed.

Lemma T_scan_mtl_clean (ls : list string) :
  well_formed "map_Kd" ls ->
  forall acc,
    value (Testing.scan_mtl (lines_then ls Eof) acc) w
    = (acc ++ keyword_args "map_Kd" ls, None).
Proof.
  induction ls as [|l ls IH]; intros Hwf acc.
  - cbn. now rewrite app_nil_r.
  - specialize (IH (well_formed_tail _ _ _ Hwf)).
    pose proof (Hwf l (or_introl eq_refl)) as Hl.
    cbn [lines_then Testing.scan_mtl keyword_args flat_map].
    unfold is_keyword_line, line_arg in *.
    destruct (PyStr.startswith (PyStr.strip l) "map_Kd").
    + destruct (nth_error _ 1) as [a|]; [|now destruct Hl].
      rewrite value_bind. fold (keyword_args "map_Kd" ls).
      rewrite (IH (acc ++ [a])). now rewrite <- app_assoc.
    + fold (keyword_args "map_Kd" ls). apply IH.
Qed.

Lemma N_scan_obj_clean (ls : list string) :
  well_formed "mtllib" ls ->
  forall hm tc acc,
    fst (fst (fst (value (New.scan_obj (lines_then ls Eof) hm tc acc) w)))
    = hm || nonempty (keyword_args "mtllib" ls)
    /\ snd (fst (value (New.scan_obj (lines_then ls Eof) hm tc acc) w))
       = acc ++ keyword_args "mtllib" ls
    /\ snd (value (New.scan_obj (lines_then ls Eof) hm tc acc) w) = None.
Proof.
  induction ls as [|l ls IH]; intros Hwf hm tc acc.
  - cbn. now rewrite app_nil_r, orb_false_r.
  - specialize (IH (well_formed_tail _ _ _ Hwf)).
    pose proof (Hwf l (or_introl eq_refl)) as Hl.
    cbn [lines_then New.scan_obj keyword_args flat_map].
    unfold is_keyword_line, line_arg in *.
    destruct (PyStr.startswith (PyStr.strip l) "mtllib").
    + destruct (nth_error _ 1) as [a|]; [|now destruct Hl].
      rewrite value_bind. fold (keyword_args "mtllib" ls).
      destruct (IH true tc (acc ++ [a])) as (-> & -> & ->).
      cbn. now rewrite <- app_assoc, orb_true_r.
    + fold (keyword_args "mtllib" ls). cbn [app].
      destruct (PyStr.startswith (PyStr.strip l) "vt"); apply IH.
Qed.

Lemma N_scan_mtl_clean (ls : list string) :
  well_formed "map_Kd" ls ->
  forall acc,
    value (New.scan_mtl (lines_then ls Eof) acc) w
    = (acc ++ keyword_args "map_Kd" ls, None).
Proof.
  induction ls as [|l ls IH]; intros Hwf acc.
  - cbn. now rewrite app_nil_r.
  - specialize (IH (well_formed_tail _ _ _ Hwf)).
    pose proof (Hwf l (or_introl eq_refl)) as Hl.
    cbn [lines_then New.scan_mtl keyword_args flat_map].
    unfold is_keyword_line, line_arg in *.
    destruct (PyStr.startswith (PyStr.strip l) "map_Kd").
    + destruct (nth_error _ 1) as [a|]; [|now destruct Hl].
      rewrite value_bind. fold (keyword_args "map_Kd" ls).
      rewrite (IH (acc ++ [a])). now rewrite <- app_assoc.
    + fold (keyword_args "map_Kd" ls). apply IH.
Qed.

(** The references a scan collects are appended to those it started
    with: what one file contributes does not depend on the files before. *)
Lemma T_scan_mtl_acc (f : stream) :
  forall acc,
    fst (value (Testing.scan_mtl f acc) w)
    = acc ++ fst (value (Testing.scan_mtl f []) w).
Proof.
  induction f as [|l rest IH|e]; intros acc;
    try (cbn; now rewrite app_nil_r).
  cbn [Testing.scan_mtl].
  destruct (PyStr.startswith (PyStr.strip l) "map_Kd"); [|apply IH].
  destruct (nth_error _ 1) as [a|]; [|cbn; now rewrite app_nil_r].
  rewrite !value_bind, (IH (acc ++ [a])), (IH ([] ++ [a])).
  now rewrite <- app_assoc.
Qed.

Lemma N_scan_mtl_acc (f : stream) :
  forall acc,
    fst (value (New.scan_mtl f acc) w)
    = acc ++ fst (value (New.scan_mtl f []) w).
Proof.
  induction f as [|l rest IH|e]; intros acc;
    try (cbn; now rewrite app_nil_r).
  cbn [New.scan_mtl].
  destruct (PyStr.startswith (PyStr.strip l) "map_Kd"); [|apply IH].
  destruct (nth_error _ 1) as [a|]; [|cbn; now rewrite app_nil_r].
  rewrite !value_bind, (IH (acc ++ [a])), (IH ([] ++ [a])).
  now rewrite <- app_assoc.
Qed.

End Scanning.

(** ** The readers in terms of the scans *)

Section Readers.
Variable w : World.

Lemma T_analyze_obj_run (path : string) :
  Testing.analyze_obj path w
  = (fst (value (Testing.scan_obj (fs_open w path) [] false) w),
     EvOpen path :: trace (Testing.scan_obj (fs_open w path) [] false) w
     ++ warning (fun e => EvLog (WarnObjStructure e))
                (snd (value (Testing.scan_obj (fs_open w path) [] false) w))).
Proof.
  unfold Testing.analyze_obj, value, trace, bind, open_text.
  destruct (Testing.scan_obj (fs_open w path) [] false w) as [[[files tc] [e|]] t];
    cbn; now rewrite ?app_nil_r.
Qed.

Lemma T_read_mtl_run (d f : string) (acc : list string) :
  Testing.read_mtl d f acc w
  = if fs_exists w (OsPath.join d f)
    then (fst (value (Testing.scan_mtl (fs_open w (OsPath.join d f)) acc) w),
          EvExists MtlFile (OsPath.join d f) :: EvOpen (OsPath.join d f)
          :: trace (Testing.scan_mtl (fs_open w (OsPath.join d f)) acc) w
          ++ warning (fun e => EvLog (WarnMtlRead e))
                     (snd (value (Testing.scan_mtl (fs_open w (OsPath.join d f)) acc) w)))
    else (acc, [EvExists MtlFile (OsPath.join d f)]).
Proof.
  unfold Testing.read_mtl, value, trace, bind, open_text, os_path_exists.
  destruct (fs_exists w (OsPath.join d f)); [|reflexivity].
  destruct (Testing.scan_mtl (fs_open w (OsPath.join d f)) acc w) as [[files [e|]] t];
    cbn; now rewrite ?app_nil_r.
Qed.

Lemma N_analyze_obj_run (path : string) :
  New.analyze_obj path w
  = ((fst (fst (fst (value (New.scan_obj (fs_open w path) false false []) w))),
      snd (fst (value (New.scan_obj (fs_open w path) false false []) w))),
     EvPrint PStep1 :: EvOpen path
     :: trace (New.scan_obj (fs_open w path) false false []) w
     ++ warning (fun e => EvPrint (PErrorObj e))
                (snd (value (New.scan_obj (fs_open w path) false false []) w))
     ++ [EvPrint (PHasMtl
                    (fst (fst (fst (value (New.scan_obj (fs_open w path)
                                                        false false []) w)))));
         EvPrint (PHasTextureCoords
                    (snd (fst (fst (value (New.scan_obj (fs_open w path)
                                                        false false []) w)))))]).
Proof.
  unfold New.analyze_obj, value, trace, bind, open_text, print.
  destruct (New.scan_obj (fs_open w path) false false [] w)
    as [[[[hm tc] files] [e|]] t]; cbn; now rewrite ?app_nil_r.
Qed.

Lemma N_read_mtl_run (d f : string) (acc : list string) :
  New.read_mtl d f acc w
  = if fs_exists w (OsPath.join d f)
    then (fst (value (New.scan_mtl (fs_open w (OsPath.join d f)) acc) w),
          EvExists MtlFile (OsPath.join d f)
          :: EvPrint (PReading (OsPath.join d f)) :: EvOpen (OsPath.join d f)
          :: trace (New.scan_mtl (fs_open w (OsPath.join d f)) acc) w
          ++ warning (fun e => EvPrint (PErrorMtl e))
                     (snd (value (New.scan_mtl (fs_open w (OsPath.join d f)) acc) w)))
    else (acc, [EvExists MtlFile (OsPath.join d f);
                EvPrint (PMtlNotFound (OsPath.join d f))]).
Proof.
  unfold New.read_mtl, value, trace, bind, open_text, os_path_exists, print.
  destruct (fs_exists w (OsPath.join d f)); [|reflexivity].
  destruct (New.scan_mtl (fs_open w (OsPath.join d f)) acc w) as [[files [e|]] t];
    cbn; now rewrite ?app_nil_r.
Qed.

(** A scan of lines followed by a failure. *)
Lemma T_scan_obj_fail (ls : list string) (e : exn) (acc : list string) (tc : bool) :
  Testing.scan_obj (lines_then ls (Fail e)) acc tc w
  = (fst (value (Testing.scan_obj (lines_then ls Eof) acc tc) w),
     Some (first_failure
             (snd (value (Testing.scan_obj (lines_then ls Eof) acc tc) w)) e),
     trace (Testing.scan_obj (lines_then ls Eof) acc tc) w).
Proof.
  unfold value, trace.
  destruct (Testing.scan_obj (lines_then ls Eof) acc tc w) as [r t] eqn:E.
  rewrite (T_scan_obj_split w ls (Fail e) _ _ _ _ E).
  destruct r as [[files tc'] [x|]]; cbn; now rewrite ?app_nil_r.
Qed.

Lemma T_scan_mtl_fail (ls : list string) (e : exn) (acc : list string) :
  Testing.scan_mtl (lines_then ls (Fail e)) acc w
  = (fst (value (Testing.scan_mtl (lines_then ls Eof) acc) w),
     Some (first_failure
             (snd (value (Testing.scan_mtl (lines_then ls Eof) acc) w)) e),
     trace (Testing.scan_mtl (lines_then ls Eof) acc) w).
Proof.
  unfold value, trace.
  destruct (Testing.scan_mtl (lines_then ls Eof) acc w) as [r t] eqn:E.
  rewrite (T_scan_mtl_split w ls (Fail e) _ _ _ E).
  destruct r as [files [x|]]; cbn; now rewrite ?app_nil_r.
Qed.

Lemma N_scan_obj_fail (ls : list string) (e : exn) (hm tc : bool) (acc : list string) :
  New.scan_obj (lines_then ls (Fail e)) hm tc acc w
  = (fst (value (New.scan_obj (lines_then ls Eof) hm tc acc) w),
     Some (first_failure
             (snd (value (New.scan_obj (lines_then ls Eof) hm tc acc) w)) e),
     trace (New.scan_obj (lines_then ls Eof) hm tc acc) w).
Proof.
  unfold value, trace.
  destruct (New.scan_obj (lines_then ls Eof) hm tc acc w) as [r t] eqn:E.
  rewrite (N_scan_obj_split w ls (Fail e) _ _ _ _ _ E).
  destruct r as [[[hm' tc'] files] [x|]]; cbn; now rewrite ?app_nil_r.
Qed.

Lemma N_scan_mtl_fail (ls : list string) (e : exn) (acc : list string) :
  New.scan_mtl (lines_then ls (Fail e)) acc w
  = (fst (value (New.scan_mtl (lines_then ls Eof) acc) w),
     Some (first_failure
             (snd (value (New.scan_mtl (lines_then ls Eof) acc) w)) e),
     trace (New.scan_mtl (lines_then ls Eof) acc) w).
Proof.
  unfold value, trace.
  destruct (New.scan_mtl (lines_then ls Eof) acc w) as [r t] eqn:E.
  rewrite (N_scan_mtl_split w ls (Fail e) _ _ _ E).
  destruct r as [files [x|]]; cbn; now rewrite ?app_nil_r.
Qed.

(** The load goes through whatever the text files hold. *)
Lemma T_load_not_aborted (obj : string) (m0 : TriangleMesh) :
  fs_exists w obj = true ->
  lib_read_triangle_mesh w obj true = inr m0 ->
  exists m, value (Testing.load_obj_with_textures obj) w = inr m.
Proof.
  intros Hp Hload. unfold Testing.load_obj_with_textures.
  rewrite !value_bind.
  change (value (os_path_exists ObjFile obj) w) with (fs_exists w obj).
  rewrite Hp. cbn [negb]. rewrite value_bind.
  destruct (value (Testing.analyze_obj obj) w) as [files tc].
  rewrite value_bind. unfold Testing.load_and_texture.
  rewrite !value_bind.
  change (value (read_triangle_mesh obj true) w)
    with (lib_read_triangle_mesh w obj true).
  rewrite Hload. rewrite !value_bind.
  destruct (0 <? _)%nat; rewrite value_bind; eexists; reflexivity.
Qed.

Lemma N_load_not_aborted (obj : string) (m0 : TriangleMesh) :
  lib_read_triangle_mesh w obj true = inr m0 ->
  (forall m, lib_view w m = None) ->
  exists r, value (New.comprehensive_mesh_analysis_and_load obj) w = inr r.
Proof.
  intros Hload Hview.
  destruct (N_load_viewed w obj) as [_ ->].
  match goal with
  | |- context [New.load_and_show _ ?f] =>
      pose proof (N_load_and_show_run w obj f) as Hrun
  end.
  rewrite Hload in Hrun. cbv zeta in Hrun. destruct Hrun as [-> _].
  rewrite Hview. eexists; reflexivity.
Qed.

End Readers.

(** ** A load on another text *)

(** The scans read the lines they are given and nothing of the world. *)
Lemma T_scan_obj_world (f : stream) (w1 w2 : World) :
  forall acc tc,
    Testing.scan_obj f acc tc w1 = Testing.scan_obj f acc tc w2.
Proof.
  induction f as [|l rest IH|e]; intros acc tc; try reflexivity.
  cbn [Testing.scan_obj].
  destruct (PyStr.startswith (PyStr.strip l) "mtllib").
  - destruct (nth_error _ 1); [|reflexivity].
    unfold bind, log. now rewrite IH.
  - destruct (PyStr.startswith (PyStr.strip l) "vt"); apply IH.
Qed.

Lemma T_scan_mtl_world (f : stream) (w1 w2 : World) :
  forall acc, Testing.scan_mtl f acc w1 = Testing.scan_mtl f acc w2.
Proof.
  induction f as [|l rest IH|e]; intros acc; try reflexivity.
  cbn [Testing.scan_mtl].
  destruct (PyStr.startswith (PyStr.strip l) "map_Kd"); [|apply IH].
  destruct (nth_error _ 1); [|reflexivity].
  unfold bind, log. now rewrite IH.
Qed.

Lemma N_scan_obj_world (f : stream) (w1 w2 : World) :
  forall hm tc acc,
    New.scan_obj f hm tc acc w1 = New.scan_obj f hm tc acc w2.
Proof.
  induction f as [|l rest IH|e]; intros hm tc acc; try reflexivity.
  cbn [New.scan_obj].
  destruct (PyStr.startswith (PyStr.strip l) "mtllib").
  - destruct (nth_error _ 1); [|reflexivity].
    unfold bind, print. now rewrite IH.
  - destruct (PyStr.startswith (PyStr.strip l) "vt"); apply IH.
Qed.

Lemma N_scan_mtl_world (f : stream) (w1 w2 : World) :
  forall acc, New.scan_mtl f acc w1 = New.scan_mtl f acc w2.
Proof.
  induction f as [|l rest IH|e]; intros acc; try reflexivity.
  cbn [New.scan_mtl].
  destruct (PyStr.startswith (PyStr.strip l) "map_Kd"); [|apply IH].
  destruct (nth_error _ 1); [|reflexivity].
  unfold bind, print. now rewrite IH.
Qed.

(** A flag of new.py: [has_mtl] stays set, and it is set as soon as one
    name is collected. *)
Lemma N_scan_obj_set (w : World) (f : stream) :
  forall tc acc,
    fst (fst (fst (value (New.scan_obj f true tc acc) w))) = true.
Proof.
  induction f as [|l rest IH|e]; intros tc acc; try reflexivity.
  cbn [New.scan_obj].
  destruct (PyStr.startswith (PyStr.strip l) "mtllib").
  - destruct (nth_error _ 1); [|reflexivity]. rewrite value_bind. apply IH.
  - destruct (PyStr.startswith (PyStr.strip l) "vt"); apply IH.
Qed.

Lemma N_scan_obj_flag (w : World) (f : stream) :
  forall hm tc acc,
    fst (fst (fst (value (New.scan_obj f hm tc acc) w))) = true
    \/ snd (fst (value (New.scan_obj f hm tc acc) w)) = acc.
Proof.
  induction f as [|l rest IH|e]; intros hm tc acc; try (now right).
  cbn [New.scan_obj].
  destruct (PyStr.startswith (PyStr.strip l) "mtllib").
  - left. destruct (nth_error _ 1); [|reflexivity].
    rewrite value_bind. apply N_scan_obj_set.
  - destruct (PyStr.startswith (PyStr.strip l) "vt"); apply IH.
Qed.

Section OtherText.
Variables (w : World) (path : string) (f' : stream).
Hypothesis HTo :
  forall acc tc,
    fst (value (Testing.scan_obj (fs_open w path) acc tc) w)
    = fst (value (Testing.scan_obj f' acc tc) w).
Hypothesis HTm :
  forall acc,
    fst (value (Testing.scan_mtl (fs_open w path) acc) w)
    = fst (value (Testing.scan_mtl f' acc) w).
Hypothesis HNo :
  forall hm tc acc,
    fst (value (New.scan_obj (fs_open w path) hm tc acc) w)
    = fst (value (New.scan_obj f' hm tc acc) w).
Hypothesis HNm :
  forall acc,
    fst (value (New.scan_mtl (fs_open w path) acc) w)
    = fst (value (New.scan_mtl f' acc) w).

Lemma T_analyze_value_same (q : string) :
  value (Testing.analyze_obj q) (with_text w path f')
  = value (Testing.analyze_obj q) w.
Proof.
  unfold value. rewrite !T_analyze_obj_run. cbn [fst with_text fs_open].
  unfold value. rewrite (T_scan_obj_world _ (with_text w path f') w).
  destruct (String.eqb q path) eqn:E; [|reflexivity].
  apply String.eqb_eq in E. subst q. symmetry. apply HTo.
Qed.

Lemma T_read_mtl_value_same (d f : string) (acc : list string) :
  value (Testing.read_mtl d f acc) (with_text w path f')
  = value (Testing.read_mtl d f acc) w.
Proof.
  unfold value. rewrite !T_read_mtl_run. cbn [with_text fs_open fs_exists].
  destruct (fs_exists w (OsPath.join d f)); [|reflexivity]. cbn [fst].
  unfold value. rewrite (T_scan_mtl_world _ (with_text w path f') w).
  destruct (String.eqb (OsPath.join d f) path) eqn:E; [|reflexivity].
  apply String.eqb_eq in E. rewrite E. symmetry. apply HTm.
Qed.

Lemma T_collect_value_same (d : string) (files : list string) :
  value (Testing.collect_texture_paths d files) (with_text w path f')
  = value (Testing.collect_texture_paths d files) w.
Proof.
  unfold Testing.collect_texture_paths.
  destruct (nonempty files); [|reflexivity].
  generalize (@nil string).
  induction files as [|f files IH]; intros acc; [reflexivity|].
  cbn [Testing.read_mtls]. now rewrite !value_bind, T_read_mtl_value_same, IH.
Qed.

Lemma T_find_same (d r : string) :
  Testing.find_texture_file d r (with_text w path f')
  = Testing.find_texture_file d r w.
Proof.
  unfold Testing.find_texture_file. now rewrite !first_existing_run.
Qed.

Lemma T_load_first_texture_value_same (d : string) (refs : list string) :
  forall mesh,
    value (Testing.load_first_texture d refs mesh) (with_text w path f')
    = value (Testing.load_first_texture d refs mesh) w.
Proof.
  induction refs as [|r refs IH]; intros mesh; [reflexivity|].
  cbn [Testing.load_first_texture]. rewrite !value_bind.
  unfold value at 2 4. rewrite T_find_same.
  destruct (fst (Testing.find_texture_file d r w)) as [q|];
    [|rewrite !value_bind; apply IH].
  destruct (PyStr.truthy q); [|rewrite !value_bind; apply IH].
  rewrite !value_bind.
  change (value (read_image q) (with_text w path f'))
    with (value (read_image q) w).
  destruct (value (read_image q) w); rewrite !value_bind;
    [apply IH|reflexivity].
Qed.

Lemma T_load_value_same (obj : string) :
  value (Testing.load_obj_with_textures obj) (with_text w path f')
  = value (Testing.load_obj_with_textures obj) w.
Proof.
  destruct (fs_exists w obj) eqn:Hp.
  - rewrite (T_load_value (with_text w path f') obj Hp), (T_load_value w obj Hp).
    rewrite !T_load_and_texture_value, T_analyze_value_same, T_collect_value_same.
    cbn [with_text lib_read_triangle_mesh lib_vertex_normals].
    destruct (lib_read_triangle_mesh w obj true) as [e|m0]; [reflexivity|].
    cbv zeta. now rewrite T_load_first_texture_value_same.
  - unfold Testing.load_obj_with_textures, value, bind, log, os_path_exists.
    cbn [with_text fs_exists]. now rewrite Hp.
Qed.

Lemma N_analyze_value_same (q : string) :
  value (New.analyze_obj q) (with_text w path f')
  = value (New.analyze_obj q) w.
Proof.
  unfold value. rewrite !N_analyze_obj_run. cbn [fst with_text fs_open].
  unfold value. rewrite (N_scan_obj_world _ (with_text w path f') w).
  destruct (String.eqb q path) eqn:E; [|reflexivity].
  apply String.eqb_eq in E. subst q.
  pose proof (HNo false false []) as H. unfold value in H. now rewrite H.
Qed.

Lemma N_read_mtl_value_same (d f : string) (acc : list string) :
  value (New.read_mtl d f acc) (with_text w path f')
  = value (New.read_mtl d f acc) w.
Proof.
  unfold value. rewrite !N_read_mtl_run. cbn [with_text fs_open fs_exists].
  destruct (fs_exists w (OsPath.join d f)); [|reflexivity]. cbn [fst].
  unfold value. rewrite (N_scan_mtl_world _ (with_text w path f') w).
  destruct (String.eqb (OsPath.join d f) path) eqn:E; [|reflexivity].
  apply String.eqb_eq in E. rewrite E. symmetry. apply HNm.
Qed.

Lemma N_collect_value_same (d : string) (hm : bool) (files : list string) :
  value (New.collect_texture_files d hm files) (with_text w path f')
  = value (New.collect_texture_files d hm files) w.
Proof.
  unfold New.collect_texture_files.
  destruct (hm && nonempty files); [|reflexivity].
  rewrite !value_bind. generalize (@nil string).
  induction files as [|f files IH]; intros acc; [reflexivity|].
  cbn [New.read_mtls]. now rewrite !value_bind, N_read_mtl_value_same, IH.
Qed.

Lemma N_find_texture_value_same (d : string) (refs : list string) :
  value (New.find_texture d refs) (with_text w path f')
  = value (New.find_texture d refs) w.
Proof.
  unfold New.find_texture. destruct (nonempty refs); [|reflexivity].
  rewrite !value_bind. generalize (@None string).
  induction refs as [|r refs IH]; intros found; [reflexivity|].
  cbn [New.search_textures]. rewrite !value_bind, !probe_paths_value.
  cbn [with_text fs_exists].
  destruct (New.found_truthy _); [reflexivity|apply IH].
Qed.

Lemma N_load_manually_value_same (mesh : TriangleMesh) (found : option string) :
  value (New.load_manually mesh found) (with_text w path f')
  = value (New.load_manually mesh found) w.
Proof.
  unfold New.load_manually. destruct found as [q|]; [|reflexivity].
  destruct (_ && _); [|reflexivity].
  rewrite !value_bind.
  change (value (read_image q) (with_text w path f'))
    with (value (read_image q) w).
  now destruct (value (read_image q) w).
Qed.

Lemma N_load_value_same (obj : string) :
  value (New.comprehensive_mesh_analysis_and_load obj) (with_text w path f')
  = value (New.comprehensive_mesh_analysis_and_load obj) w.
Proof.
  destruct (N_load_viewed (with_text w path f') obj) as [_ ->].
  destruct (N_load_viewed w obj) as [_ ->].
  rewrite N_analyze_value_same, N_collect_value_same, N_find_texture_value_same.
  match goal with
  | |- context [New.load_and_show _ ?f] =>
      pose proof (N_load_and_show_run (with_text w path f') obj f) as H1;
      pose proof (N_load_and_show_run w obj f) as H2
  end.
  cbn [with_text lib_read_triangle_mesh lib_vertex_normals lib_view] in H1.
  destruct (lib_read_triangle_mesh w obj true) as [e|m0].
  - destruct H1 as [-> _], H2 as [-> _]. reflexivity.
  - cbv zeta in H1, H2. destruct H1 as [-> _], H2 as [-> _].
    now rewrite N_load_manually_value_same.
Qed.

Lemma T_load_obj_mesh_viewed_same (obj : string) (gui : Testing.Gui) :
  viewed (trace (Testing.load_obj_mesh obj gui) (with_text w path f'))
  = viewed (trace (Testing.load_obj_mesh obj gui) w).
Proof. now rewrite !T_load_obj_mesh_viewed, T_load_value_same. Qed.

Lemma N_load_viewed_same (obj : string) :
  viewed (trace (New.comprehensive_mesh_analysis_and_load obj)
                (with_text w path f'))
  = viewed (trace (New.comprehensive_mesh_analysis_and_load obj) w).
Proof.
  destruct (N_load_viewed (with_text w path f') obj) as [-> _].
  destruct (N_load_viewed w obj) as [-> _].
  rewrite N_analyze_value_same, N_collect_value_same, N_find_texture_value_same.
  match goal with
  | |- context [New.load_and_show _ ?f] =>
      pose proof (N_load_and_show_run (with_text w path f') obj f) as H1;
      pose proof (N_load_and_show_run w obj f) as H2
  end.
  cbn [with_text lib_read_triangle_mesh lib_vertex_normals lib_view] in H1.
  destruct (lib_read_triangle_mesh w obj true) as [e|m0].
  - destruct H1 as [_ ->], H2 as [_ ->]. reflexivity.
  - cbv zeta in H1, H2. destruct H1 as [_ ->], H2 as [_ ->].
    now rewrite N_load_manually_value_same.
Qed.

End OtherText.

(** The log lines of the readers are log lines of the load. *)
Section LoadTrace.
Variable w : World.

Lemma T_read_mtls_trace (d f : string) (files : list string) :
  In f files ->
  forall acc, exists acc',
    forall ev, In ev (trace (Testing.read_mtl d f acc') w) ->
               In ev (trace (Testing.read_mtls d files acc) w).
Proof.
  induction files as [|x files IH]; intros Hin acc; [destruct Hin|].
  cbn [Testing.read_mtls]. destruct Hin as [->|Hin].
  - exists acc. intros ev Hev. rewrite trace_bind. apply in_or_app. now left.
  - destruct (IH Hin (value (Testing.read_mtl d x acc) w)) as [acc' H].
    exists acc'. intros ev Hev. rewrite trace_bind. apply in_or_app.
    right. now apply H.
Qed.

Lemma N_read_mtls_trace (d f : string) (files : list string) :
  In f files ->
  forall acc, exists acc',
    forall ev, In ev (trace (New.read_mtl d f acc') w) ->
               In ev (trace (New.read_mtls d files acc) w).
Proof.
  induction files as [|x files IH]; intros Hin acc; [destruct Hin|].
  cbn [New.read_mtls]. destruct Hin as [->|Hin].
  - exists acc. intros ev Hev. rewrite trace_bind. apply in_or_app. now left.
  - destruct (IH Hin (value (New.read_mtl d x acc) w)) as [acc' H].
    exists acc'. intros ev Hev. rewrite trace_bind. apply in_or_app.
    right. now apply H.
Qed.

Lemma T_load_trace_analyze (obj : string) (ev : Event) :
  fs_exists w obj = true ->
  In ev (trace (Testing.analyze_obj obj) w) ->
  In ev (trace (Testing.load_obj_with_textures obj) w).
Proof.
  intros Hp Hev. unfold Testing.load_obj_with_textures.
  rewrite !trace_bind.
  change (value (os_path_exists ObjFile obj) w) with (fs_exists w obj).
  rewrite Hp. cbn [negb]. rewrite trace_bind.
  apply in_or_app. right. apply in_or_app. right. apply in_or_app. now left.
Qed.

Lemma T_load_trace_collect (obj : string) (ev : Event) :
  fs_exists w obj = true ->
  In ev (trace (Testing.collect_texture_paths
                  (OsPath.dirname obj)
                  (fst (value (Testing.analyze_obj obj) w))) w) ->
  In ev (trace (Testing.load_obj_with_textures obj) w).
Proof.
  intros Hp Hev. unfold Testing.load_obj_with_textures.
  rewrite !trace_bind.
  change (value (os_path_exists ObjFile obj) w) with (fs_exists w obj).
  rewrite Hp. cbn [negb]. rewrite trace_bind.
  apply in_or_app. right. apply in_or_app. right. apply in_or_app. right.
  destruct (value (Testing.analyze_obj obj) w) as [files tc]. cbn [fst] in Hev.
  rewrite trace_bind. apply in_or_app. now left.
Qed.

Lemma N_load_trace_analyze (obj : string) (ev : Event) :
  In ev (trace (New.analyze_obj obj) w) ->
  In ev (trace (New.comprehensive_mesh_analysis_and_load obj) w).
Proof.
  intros Hev. unfold New.comprehensive_mesh_analysis_and_load.
  rewrite !trace_bind.
  apply in_or_app. right. apply in_or_app. right. apply in_or_app. now left.
Qed.

Lemma N_load_trace_collect (obj : string) (ev : Event) :
  In ev (trace (New.collect_texture_files
                  (OsPath.dirname obj)
                  (fst (value (New.analyze_obj obj) w))
                  (snd (value (New.analyze_obj obj) w))) w) ->
  In ev (trace (New.comprehensive_mesh_analysis_and_load obj) w).
Proof.
  intros Hev. unfold New.comprehensive_mesh_analysis_and_load.
  rewrite !trace_bind.
  apply in_or_app. right. apply in_or_app. right. apply in_or_app. right.
  destruct (value (New.analyze_obj obj) w) as [hm files]. cbn [fst snd] in Hev.
  rewrite trace_bind. apply in_or_app. now left.
Qed.

Lemma N_analyze_flag (obj f : string) :
  In f (snd (value (New.analyze_obj obj) w)) ->
  fst (value (New.analyze_obj obj) w) = true.
Proof.
  unfold value. rewrite N_analyze_obj_run. cbn [fst snd].
  destruct (N_scan_obj_flag w (fs_open w obj) false false []) as [H|H];
    unfold value in *; [now intros _|].
  rewrite H. intros [].
Qed.

End LoadTrace.

(** A failed read and the load around it. *)
Lemma load_after_read_failure (w : World) (path : string)
      (ls : list string) (e : exn) :
  fs_open w path = lines_then ls (Fail e) ->
  (forall obj,
      value (Testing.load_obj_with_textures obj) w
      = value (Testing.load_obj_with_textures obj)
              (with_text w path (lines_then ls Eof))
      /\ (forall gui,
             viewed (trace (Testing.load_obj_mesh obj gui) w)
             = viewed (trace (Testing.load_obj_mesh obj gui)
                             (with_text w path (lines_then ls Eof))))
      /\ value (New.comprehensive_mesh_analysis_and_load obj) w
         = value (New.comprehensive_mesh_analysis_and_load obj)
                 (with_text w path (lines_then ls Eof))
      /\ viewed (trace (New.comprehensive_mesh_analysis_and_load obj) w)
         = viewed (trace (New.comprehensive_mesh_analysis_and_load obj)
                         (with_text w path (lines_then ls Eof))))
  /\ (fs_exists w path = true ->
      In (EvLog (WarnObjStructure
                   (first_failure
                      (snd (value (Testing.scan_obj (lines_then ls Eof) [] false) w))
                      e)))
         (trace (Testing.load_obj_with_textures path) w))
  /\ In (EvPrint (PErrorObj
                    (first_failure
                       (snd (value (New.scan_obj (lines_then ls Eof)
                                                 false false []) w))
                       e)))
        (trace (New.comprehensive_mesh_analysis_and_load path) w)
  /\ (forall obj f,
        fs_exists w obj = true ->
        In f (fst (value (Testing.analyze_obj obj) w)) ->
        OsPath.join (OsPath.dirname obj) f = path ->
        fs_exists w path = true ->
        exists e',
          In (EvLog (WarnMtlRead e'))
             (trace (Testing.load_obj_with_textures obj) w)
          /\ (well_formed "map_Kd" ls -> e' = e))
  /\ (forall obj f,
        In f (snd (value (New.analyze_obj obj) w)) ->
        OsPath.join (OsPath.dirname obj) f = path ->
        fs_exists w path = true ->
        exists e',
          In (EvPrint (PErrorMtl e'))
             (trace (New.comprehensive_mesh_analysis_and_load obj) w)
          /\ (well_formed "map_Kd" ls -> e' = e))
  /\ (fs_exists w path = true ->
      value (Testing.load_obj_with_textures path) w
      = value (Testing.load_and_texture
                 path (OsPath.dirname path)
                 (value (Testing.collect_texture_paths
                           (OsPath.dirname path)
                           (fst (fst (value (Testing.scan_obj (lines_then ls Eof)
                                                              [] false) w)))) w)) w)
  /\ value (New.comprehensive_mesh_analysis_and_load path) w
     = value (New.load_and_show
                path
                (value (New.find_texture
                          (OsPath.dirname path)
                          (value (New.collect_texture_files
                                    (OsPath.dirname path)
                                    (fst (fst (fst (value (New.scan_obj
                                                             (lines_then ls Eof)
                                                             false false []) w))))
                                    (snd (fst (value (New.scan_obj
                                                        (lines_then ls Eof)
                                                        false false []) w)))) w))
                       w)) w
  /\ (forall obj f,
        fs_exists w obj = true ->
        fst (value (Testing.analyze_obj obj) w) = [f] ->
        OsPath.join (OsPath.dirname obj) f = path ->
        fs_exists w path = true ->
        value (Testing.load_obj_with_textures obj) w
        = value (Testing.load_and_texture
                   obj (OsPath.dirname obj)
                   (fst (value (Testing.scan_mtl (lines_then ls Eof) []) w))) w)
  /\ (forall obj f,
        snd (value (New.analyze_obj obj) w) = [f] ->
        OsPath.join (OsPath.dirname obj) f = path ->
        fs_exists w path = true ->
        value (New.comprehensive_mesh_analysis_and_load obj) w
        = value (New.load_and_show
                   obj
                   (value (New.find_texture
                             (OsPath.dirname obj)
                             (fst (value (New.scan_mtl (lines_then ls Eof) []) w)))
                          w)) w).
Proof.
  intros Hfail.
  assert (HTo : forall acc tc,
             fst (value (Testing.scan_obj (fs_open w path) acc tc) w)
             = fst (value (Testing.scan_obj (lines_then ls Eof) acc tc) w)).
  { intros acc tc. rewrite Hfail. unfold value at 1.
    now rewrite T_scan_obj_fail. }
  assert (HTm : forall acc,
             fst (value (Testing.scan_mtl (fs_open w path) acc) w)
             = fst (value (Testing.scan_mtl (lines_then ls Eof) acc) w)).
  { intros acc. rewrite Hfail. unfold value at 1.
    now rewrite T_scan_mtl_fail. }
  assert (HNo : forall hm tc acc,
             fst (value (New.scan_obj (fs_open w path) hm tc acc) w)
             = fst (value (New.scan_obj (lines_then ls Eof) hm tc acc) w)).
  { intros hm tc acc. rewrite Hfail. unfold value at 1.
    now rewrite N_scan_obj_fail. }
  assert (HNm : forall acc,
             fst (value (New.scan_mtl (fs_open w path) acc) w)
             = fst (value (New.scan_mtl (lines_then ls Eof) acc) w)).
  { intros acc. rewrite Hfail. unfold value at 1.
    now rewrite N_scan_mtl_fail. }
  split; [|split; [|split; [|split; [|split; [|split; [|split; [|split]]]]]]].
  - intros obj. split; [|split; [|split]]; [|intros gui| |]; symmetry.
    + now apply T_load_value_same.
    + now apply T_load_obj_mesh_viewed_same.
    + now apply N_load_value_same.
    + now apply N_load_viewed_same.
  - intros Hp. apply T_load_trace_analyze; [exact Hp|].
    unfold trace at 1. rewrite T_analyze_obj_run, Hfail.
    unfold value, trace. rewrite T_scan_obj_fail.
    cbn [snd fst]. right. apply in_or_app. right. now left.
  - apply N_load_trace_analyze.
    unfold trace at 1. rewrite N_analyze_obj_run, Hfail.
    unfold value, trace. rewrite N_scan_obj_fail.
    cbn [snd fst]. right. right. apply in_or_app. right. now left.
  - intros obj f Hobj Hin <- Hp.
    destruct (T_read_mtls_trace w (OsPath.dirname obj) f _ Hin [])
      as [acc Hacc].
    exists (first_failure
              (snd (value (Testing.scan_mtl (lines_then ls Eof) acc) w)) e).
    split.
    + apply T_load_trace_collect; [exact Hobj|].
      unfold Testing.collect_texture_paths.
      destruct (fst (value (Testing.analyze_obj obj) w)) as [|x xs];
        [destruct Hin|]. cbn [nonempty]. apply Hacc.
      unfold trace at 1. rewrite T_read_mtl_run, Hp, Hfail.
    unfold value, trace. rewrite T_scan_mtl_fail.
      cbn [snd fst]. right. right. apply in_or_app. right. now left.
    + intros Hwf. now rewrite T_scan_mtl_clean.
  - intros obj f Hin <- Hp.
    destruct (N_read_mtls_trace w (OsPath.dirname obj) f _ Hin [])
      as [acc Hacc].
    exists (first_failure
              (snd (value (New.scan_mtl (lines_then ls Eof) acc) w)) e).
    split.
    + apply N_load_trace_collect.
      unfold New.collect_texture_files.
      rewrite (N_analyze_flag w obj f Hin).
      destruct (snd (value (New.analyze_obj obj) w)) as [|x xs];
        [destruct Hin|]. cbn [nonempty andb]. rewrite trace_bind.
      apply in_or_app. right. apply Hacc.
      unfold trace at 1. rewrite N_read_mtl_run, Hp, Hfail.
    unfold value, trace. rewrite N_scan_mtl_fail.
      cbn [snd fst]. right. right. right. apply in_or_app. right. now left.
    + intros Hwf. now rewrite N_scan_mtl_clean.
  - intros Hp. rewrite (T_load_value w path Hp). do 3 f_equal.
    unfold value at 1. rewrite T_analyze_obj_run, Hfail.
    unfold value. now rewrite T_scan_obj_fail.
  - destruct (N_load_viewed w path) as [_ ->].
    assert (Ha : value (New.analyze_obj path) w
                 = (fst (fst (fst (value (New.scan_obj (lines_then ls Eof)
                                                       false false []) w))),
                    snd (fst (value (New.scan_obj (lines_then ls Eof)
                                                  false false []) w)))).
    { unfold value at 1. rewrite N_analyze_obj_run, Hfail.
      unfold value. now rewrite N_scan_obj_fail. }
    now rewrite Ha.
  - intros obj f Hobj Hfiles <- Hp. rewrite (T_load_value w obj Hobj), Hfiles.
    do 2 f_equal. unfold Testing.collect_texture_paths.
    cbn [nonempty Testing.read_mtls]. rewrite value_bind, value_ret.
    unfold value at 1. rewrite T_read_mtl_run, Hp, Hfail.
    unfold value. now rewrite T_scan_mtl_fail.
  - intros obj f Hfiles <- Hp. destruct (N_load_viewed w obj) as [_ ->].
    assert (Hflag : fst (value (New.analyze_obj obj) w) = true).
    { apply (N_analyze_flag w obj f). rewrite Hfiles. now left. }
    rewrite Hflag, Hfiles. do 3 f_equal. unfold New.collect_texture_files.
    cbn [nonempty andb New.read_mtls]. rewrite !value_bind, value_ret.
    unfold value at 1. rewrite N_read_mtl_run, Hp, Hfail.
    unfold value. now rewrite N_scan_mtl_fail.
Qed.

(** ** C6 *)

(** C6. When reading a descriptor or a material file fails after the lines
    [ls], the reader returns exactly what the scan of [ls] alone yields
    (all the arguments of the keyword lines of [ls] when each has one), at
    the cost of one more log line, the warning that carries the first
    failure met. A load is not aborted by it: it returns a mesh whenever
    the OBJ file exists and the loader delivers one (and, in new.py, the
    viewer does not fail). Its result and the meshes it shows are those of
    the same load in the world where the file ends after [ls], and its
    trace holds the warning: of the descriptor when [path] is the OBJ file
    loaded, of the material file when [path] is a material file the
    descriptor names. The load goes on with what the scan of [ls] yields:
    with the material files named in [ls] when [path] is the OBJ file
    loaded, with the references made in [ls] when [path] is the one
    material file the descriptor names. *)
Theorem read_failure_keeps_parsed (w : World) (path : string)
  (ls : list string) (e : exn)
  (Hfail : fs_open w path = lines_then ls (Fail e)) :
  Testing.analyze_obj path w
  = (fst (value (Testing.scan_obj (lines_then ls Eof) [] false) w),
     EvOpen path :: trace (Testing.scan_obj (lines_then ls Eof) [] false) w
     ++ [EvLog (WarnObjStructure
                  (first_failure
                     (snd (value (Testing.scan_obj (lines_then ls Eof) [] false) w))
                     e))])
  /\ New.analyze_obj path w
     = ((fst (fst (fst (value (New.scan_obj (lines_then ls Eof) false false []) w))),
         snd (fst (value (New.scan_obj (lines_then ls Eof) false false []) w))),
        EvPrint PStep1 :: EvOpen path
        :: trace (New.scan_obj (lines_then ls Eof) false false []) w
        ++ [EvPrint (PErrorObj
                       (first_failure
                          (snd (value (New.scan_obj (lines_then ls Eof)
                                                    false false []) w))
                          e));
            EvPrint (PHasMtl
                       (fst (fst (fst (value (New.scan_obj (lines_then ls Eof)
                                                           false false []) w)))));
            EvPrint (PHasTextureCoords
                       (snd (fst (fst (value (New.scan_obj (lines_then ls Eof)
                                                           false false []) w)))))])
  /\ (well_formed "mtllib" ls ->
      fst (value (Testing.analyze_obj path) w) = keyword_args "mtllib" ls
      /\ snd (value (New.analyze_obj path) w) = keyword_args "mtllib" ls
      /\ In (EvLog (WarnObjStructure e)) (trace (Testing.analyze_obj path) w)
      /\ In (EvPrint (PErrorObj e)) (trace (New.analyze_obj path) w))
  /\ (forall d f acc,
        OsPath.join d f = path ->
        fs_exists w path = true ->
        Testing.read_mtl d f acc w
        = (fst (value (Testing.scan_mtl (lines_then ls Eof) acc) w),
           EvExists MtlFile path :: EvOpen path
           :: trace (Testing.scan_mtl (lines_then ls Eof) acc) w
           ++ [EvLog (WarnMtlRead
                        (first_failure
                           (snd (value (Testing.scan_mtl (lines_then ls Eof) acc) w))
                           e))])
        /\ New.read_mtl d f acc w
           = (fst (value (New.scan_mtl (lines_then ls Eof) acc) w),
              EvExists MtlFile path :: EvPrint (PReading path) :: EvOpen path
              :: trace (New.scan_mtl (lines_then ls Eof) acc) w
              ++ [EvPrint (PErrorMtl
                             (first_failure
                                (snd (value (New.scan_mtl (lines_then ls Eof) acc) w))
                                e))])
        /\ (well_formed "map_Kd" ls ->
            value (Testing.read_mtl d f acc) w = acc ++ keyword_args "map_Kd" ls
            /\ value (New.read_mtl d f acc) w = acc ++ keyword_args "map_Kd" ls))
  /\ (forall obj m0,
        fs_exists w obj = true ->
        lib_read_triangle_mesh w obj true = inr m0 ->
        exists m, value (Testing.load_obj_with_textures obj) w = inr m)
  /\ (forall obj m0,
        lib_read_triangle_mesh w obj true = inr m0 ->
        (forall m, lib_view w m = None) ->
        exists r, value (New.comprehensive_mesh_analysis_and_load obj) w = inr r)
  /\ (forall obj,
      value (Testing.load_obj_with_textures obj) w
      = value (Testing.load_obj_with_textures obj)
              (with_text w path (lines_then ls Eof))
      /\ (forall gui,
             viewed (trace (Testing.load_obj_mesh obj gui) w)
             = viewed (trace (Testing.load_obj_mesh obj gui)
                             (with_text w path (lines_then ls Eof))))
      /\ value (New.comprehensive_mesh_analysis_and_load obj) w
         = value (New.comprehensive_mesh_analysis_and_load obj)
                 (with_text w path (lines_then ls Eof))
      /\ viewed (trace (New.comprehensive_mesh_analysis_and_load obj) w)
         = viewed (trace (New.comprehensive_mesh_analysis_and_load obj)
                         (with_text w path (lines_then ls Eof))))
  /\ (fs_exists w path = true ->
      In (EvLog (WarnObjStructure
                   (first_failure
                      (snd (value (Testing.scan_obj (lines_then ls Eof) [] false) w))
                      e)))
         (trace (Testing.load_obj_with_textures path) w))
  /\ In (EvPrint (PErrorObj
                    (first_failure
                       (snd (value (New.scan_obj (lines_then ls Eof)
                                                 false false []) w))
                       e)))
        (trace (New.comprehensive_mesh_analysis_and_load path) w)
  /\ (forall obj f,
        fs_exists w obj = true ->
        In f (fst (value (Testing.analyze_obj obj) w)) ->
        OsPath.join (OsPath.dirname obj) f = path ->
        fs_exists w path = true ->
        exists e',
          In (EvLog (WarnMtlRead e'))
             (trace (Testing.load_obj_with_textures obj) w)
          /\ (well_formed "map_Kd" ls -> e' = e))
  /\ (forall obj f,
        In f (snd (value (New.analyze_obj obj) w)) ->
        OsPath.join (OsPath.dirname obj) f = path ->
        fs_exists w path = true ->
        exists e',
          In (EvPrint (PErrorMtl e'))
             (trace (New.comprehensive_mesh_analysis_and_load obj) w)
          /\ (well_formed "map_Kd" ls -> e' = e))
  /\ (fs_exists w path = true ->
      value (Testing.load_obj_with_textures path) w
      = value (Testing.load_and_texture
                 path (OsPath.dirname path)
                 (value (Testing.collect_texture_paths
                           (OsPath.dirname path)
                           (fst (fst (value (Testing.scan_obj (lines_then ls Eof)
                                                              [] false) w)))) w)) w)
  /\ value (New.comprehensive_mesh_analysis_and_load path) w
     = value (New.load_and_show
                path
                (value (New.find_texture
                          (OsPath.dirname path)
                          (value (New.collect_texture_files
                                    (OsPath.dirname path)
                                    (fst (fst (fst (value (New.scan_obj
                                                             (lines_then ls Eof)
                                                             false false []) w))))
                                    (snd (fst (value (New.scan_obj
                                                        (lines_then ls Eof)
                                                        false false []) w)))) w))
                       w)) w
  /\ (forall obj f,
        fs_exists w obj = true ->
        fst (value (Testing.analyze_obj obj) w) = [f] ->
        OsPath.join (OsPath.dirname obj) f = path ->
        fs_exists w path = true ->
        value (Testing.load_obj_with_textures obj) w
        = value (Testing.load_and_texture
                   obj (OsPath.dirname obj)
                   (fst (value (Testing.scan_mtl (lines_then ls Eof) []) w))) w)
  /\ (forall obj f,
        snd (value (New.analyze_obj obj) w) = [f] ->
        OsPath.join (OsPath.dirname obj) f = path ->
        fs_exists w path = true ->
        value (New.comprehensive_mesh_analysis_and_load obj) w
        = value (New.load_and_show
                   obj
                   (value (New.find_texture
                             (OsPath.dirname obj)
                             (fst (value (New.scan_mtl (lines_then ls Eof) []) w)))
                          w)) w).
Proof.
  assert (HT : Testing.analyze_obj path w
               = (fst (value (Testing.scan_obj (lines_then ls Eof) [] false) w),
                  EvOpen path
                  :: trace (Testing.scan_obj (lines_then ls Eof) [] false) w
                  ++ [EvLog (WarnObjStructure
                               (first_failure
                                  (snd (value (Testing.scan_obj (lines_then ls Eof)
                                                                [] false) w))
                                  e))])).
  { rewrite T_analyze_obj_run, Hfail.
    unfold value at 1 2, trace at 1. now rewrite T_scan_obj_fail. }
  assert (HN : New.analyze_obj path w
     = ((fst (fst (fst (value (New.scan_obj (lines_then ls Eof) false false []) w))),
         snd (fst (value (New.scan_obj (lines_then ls Eof) false false []) w))),
        EvPrint PStep1 :: EvOpen path
        :: trace (New.scan_obj (lines_then ls Eof) false false []) w
        ++ [EvPrint (PErrorObj
                       (first_failure
                          (snd (value (New.scan_obj (lines_then ls Eof)
                                                    false false []) w))
                          e));
            EvPrint (PHasMtl
                       (fst (fst (fst (value (New.scan_obj (lines_then ls Eof)
                                                           false false []) w)))));
            EvPrint (PHasTextureCoords
                       (snd (fst (fst (value (New.scan_obj (lines_then ls Eof)
                                                           false false []) w)))))])).
  { rewrite N_analyze_obj_run, Hfail.
    unfold value at 1 2 3 4 5, trace at 1. now rewrite N_scan_obj_fail. }
  split; [exact HT|]. split; [exact HN|]. split; [|split; [|split; [|split]]].
  - intros Hwf. unfold value at 1 2, trace at 1 2. rewrite HT, HN. cbn [fst snd].
    destruct (T_scan_obj_clean w ls Hwf [] false) as [-> ->].
    destruct (N_scan_obj_clean w ls Hwf false false []) as (_ & -> & ->).
    cbn [first_failure app]. repeat split.
    + right. apply in_or_app. right. now left.
    + right. right. apply in_or_app. right. now left.
  - intros d f acc <- Hp.
    assert (HTm : Testing.read_mtl d f acc w
                  = (fst (value (Testing.scan_mtl (lines_then ls Eof) acc) w),
                     EvExists MtlFile (OsPath.join d f) :: EvOpen (OsPath.join d f)
                     :: trace (Testing.scan_mtl (lines_then ls Eof) acc) w
                     ++ [EvLog (WarnMtlRead
                                  (first_failure
                                     (snd (value (Testing.scan_mtl (lines_then ls Eof)
                                                                   acc) w))
                                     e))])).
    { rewrite T_read_mtl_run, Hp, Hfail.
      unfold value at 1 2, trace at 1. now rewrite T_scan_mtl_fail. }
    assert (HNm : New.read_mtl d f acc w
                  = (fst (value (New.scan_mtl (lines_then ls Eof) acc) w),
                     EvExists MtlFile (OsPath.join d f)
                     :: EvPrint (PReading (OsPath.join d f))
                     :: EvOpen (OsPath.join d f)
                     :: trace (New.scan_mtl (lines_then ls Eof) acc) w
                     ++ [EvPrint (PErrorMtl
                                    (first_failure
                                       (snd (value (New.scan_mtl (lines_then ls Eof)
                                                                 acc) w))
                                       e))])).
    { rewrite N_read_mtl_run, Hp, Hfail.
      unfold value at 1 2, trace at 1. now rewrite N_scan_mtl_fail. }
    split; [exact HTm|]. split; [exact HNm|].
    intros Hwf. unfold value at 1 2. rewrite HTm, HNm. cbn [fst].
    now rewrite T_scan_mtl_clean, N_scan_mtl_clean.
  - apply T_load_not_aborted.
  - apply N_load_not_aborted.
  - exact (load_after_read_failure w path ls e Hfail).
Qed.

Lemma read_failure_keeps_parsed_witness :
  value (Testing.analyze_obj "models/a.obj") failing_world = (["mat.mtl"], true)
  /\ In (EvLog (WarnObjStructure (OSError "read error")))
        (trace (Testing.analyze_obj "models/a.obj") failing_world)
  /\ value (Testing.read_mtl "models" "mat.mtl" []) failing_world = ["skin.png"]
  /\ In (EvLog (WarnObjStructure (OSError "read error")))
        (trace (Testing.load_obj_with_textures "models/a.obj") failing_world)
  /\ (exists e,
        In (EvLog (WarnMtlRead e))
           (trace (Testing.load_obj_with_textures "models/a.obj") failing_world)
        /\ e = OSError "read error")
  /\ value (Testing.load_obj_with_textures "models/a.obj") failing_world
     = inr (set_textures triangle [ImageHandle 15]).
Proof.
  pose proof (read_failure_keeps_parsed
                failing_world "models/a.obj" ["mtllib mat.mtl"; "vt 0.5 0.5"]
                (OSError "read error") eq_refl)
    as (H & _ & _ & _ & _ & _ & Hsame & Hwarn & _).
  pose proof (read_failure_keeps_parsed
                failing_world "models/mat.mtl" ["map_Kd skin.png"]
                (OSError "read error") eq_refl)
    as (_ & _ & _ & H' & _ & _ & _ & _ & _ & Hmtl & _).
  destruct (H' "models" "mat.mtl" [] eq_refl eq_refl) as (Hm & _).
  destruct (Hmtl "models/a.obj" "mat.mtl" eq_refl (or_introl eq_refl)
                 eq_refl eq_refl) as (e' & Hin & He').
  destruct (Hsame "models/a.obj") as (Hvalue & _).
  unfold value at 1 2, trace at 1. rewrite H, Hm.
  split; [reflexivity|]. split; [right; right; now left|].
  split; [reflexivity|]. split; [exact (Hwarn eq_refl)|].
  split.
  - exists e'. split; [exact Hin|]. apply He'.
    intros raw [<-|[]] _. vm_compute. discriminate.
  - rewrite Hvalue. reflexivity.
Defined.

(** ** C10 *)

Section BareKeyword.
Variable w : World.

Lemma T_scan_obj_bare (pre : list string) (raw : string) (rest : stream)
      (acc : list string) (tc : bool) :
  PyStr.strip raw = "mtllib" ->
  Testing.scan_obj (lines_then pre (Line raw rest)) acc tc w
  = (fst (value (Testing.scan_obj (lines_then pre Eof) acc tc) w),
     Some IndexError,
     trace (Testing.scan_obj (lines_then pre Eof) acc tc) w).
Proof.
  intros Hraw.
  pose proof (T_scan_obj_raised w pre acc tc) as Hidx.
  unfold value, trace in *.
  destruct (Testing.scan_obj (lines_then pre Eof) acc tc w) as [r t] eqn:E.
  rewrite (T_scan_obj_split w pre _ _ _ _ _ E).
  destruct r as [[files tc'] [x|]]; cbn [fst snd] in *.
  - now rewrite (Hidx x eq_refl).
  - cbn [Testing.scan_obj]. rewrite Hraw. cbn. now rewrite app_nil_r.
Qed.

Lemma T_scan_mtl_bare (pre : list string) (raw : string) (rest : stream)
      (acc : list string) :
  PyStr.strip raw = "map_Kd" ->
  Testing.scan_mtl (lines_then pre (Line raw rest)) acc w
  = (fst (value (Testing.scan_mtl (lines_then pre Eof) acc) w),
     Some IndexError,
     trace (Testing.scan_mtl (lines_then pre Eof) acc) w).
Proof.
  intros Hraw.
  pose proof (T_scan_mtl_raised w pre acc) as Hidx.
  unfold value, trace in *.
  destruct (Testing.scan_mtl (lines_then pre Eof) acc w) as [r t] eqn:E.
  rewrite (T_scan_mtl_split w pre _ _ _ _ E).
  destruct r as [files [x|]]; cbn [fst snd] in *.
  - now rewrite (Hidx x eq_refl).
  - cbn [Testing.scan_mtl]. rewrite Hraw. cbn. now rewrite app_nil_r.
Qed.

Lemma N_scan_obj_bare (pre : list string) (raw : string) (rest : stream)
      (hm tc : bool) (acc : list string) :
  PyStr.strip raw = "mtllib" ->
  New.scan_obj (lines_then pre (Line raw rest)) hm tc acc w
  = (true,
     snd (fst (fst (value (New.scan_obj (lines_then pre Eof) hm tc acc) w))),
     snd (fst (value (New.scan_obj (lines_then pre Eof) hm tc acc) w)),
     Some IndexError,
     trace (New.scan_obj (lines_then pre Eof) hm tc acc) w).
Proof.
  intros Hraw.
  pose proof (N_scan_obj_raised w pre hm tc acc) as Hidx.
  unfold value, trace in *.
  destruct (New.scan_obj (lines_then pre Eof) hm tc acc w) as [r t] eqn:E.
  rewrite (N_scan_obj_split w pre _ _ _ _ _ _ E).
  destruct r as [[[hm' tc'] files] [x|]]; cbn [fst snd] in *.
  - destruct (Hidx x eq_refl) as [-> ->]. reflexivity.
  - cbn [New.scan_obj]. rewrite Hraw. cbn. now rewrite app_nil_r.
Qed.

Lemma N_scan_mtl_bare (pre : list string) (raw : string) (rest : stream)
      (acc : list string) :
  PyStr.strip raw = "map_Kd" ->
  New.scan_mtl (lines_then pre (Line raw rest)) acc w
  = (fst (value (New.scan_mtl (lines_then pre Eof) acc) w),
     Some IndexError,
     trace (New.scan_mtl (lines_then pre Eof) acc) w).
Proof.
  intros Hraw.
  pose proof (N_scan_mtl_raised w pre acc) as Hidx.
  unfold value, trace in *.
  destruct (New.scan_mtl (lines_then pre Eof) acc w) as [r t] eqn:E.
  rewrite (N_scan_mtl_split w pre _ _ _ _ E).
  destruct r as [files [x|]]; cbn [fst snd] in *.
  - now rewrite (Hidx x eq_refl).
  - cbn [New.scan_mtl]. rewrite Hraw. cbn. now rewrite app_nil_r.
Qed.

End BareKeyword.

(** C10. A line that, stripped, is just [mtllib] (or [map_Kd]) has no
    second field: [line.split(' ', 1)[1]] raises [IndexError]. The scan of
    the file ends there: the reader returns what the lines before it
    yield, whatever follows the line, and logs the [IndexError] as its
    warning. When the lines before are well formed, exactly their
    arguments are kept. *)
Theorem bare_keyword_truncates (w : World) (path : string)
  (pre : list string) (raw : string) (rest : stream)
  (Hopen : fs_open w path = lines_then pre (Line raw rest)) :
  (PyStr.strip raw = "mtllib" ->
   line_arg raw = None
   /\ Testing.analyze_obj path w
      = (fst (value (Testing.scan_obj (lines_then pre Eof) [] false) w),
         EvOpen path :: trace (Testing.scan_obj (lines_then pre Eof) [] false) w
         ++ [EvLog (WarnObjStructure IndexError)])
   /\ value (New.analyze_obj path) w
      = (true, snd (fst (value (New.scan_obj (lines_then pre Eof) false false []) w)))
   /\ In (EvPrint (PErrorObj IndexError)) (trace (New.analyze_obj path) w)
   /\ (well_formed "mtllib" pre ->
       fst (value (Testing.analyze_obj path) w) = keyword_args "mtllib" pre
       /\ snd (value (New.analyze_obj path) w) = keyword_args "mtllib" pre))
  /\ (PyStr.strip raw = "map_Kd" ->
      line_arg raw = None
      /\ forall d f acc,
          OsPath.join d f = path ->
          fs_exists w path = true ->
          Testing.read_mtl d f acc w
          = (fst (value (Testing.scan_mtl (lines_then pre Eof) acc) w),
             EvExists MtlFile path :: EvOpen path
             :: trace (Testing.scan_mtl (lines_then pre Eof) acc) w
             ++ [EvLog (WarnMtlRead IndexError)])
          /\ New.read_mtl d f acc w
             = (fst (value (New.scan_mtl (lines_then pre Eof) acc) w),
                EvExists MtlFile path :: EvPrint (PReading path) :: EvOpen path
                :: trace (New.scan_mtl (lines_then pre Eof) acc) w
                ++ [EvPrint (PErrorMtl IndexError)])
          /\ (well_formed "map_Kd" pre ->
              value (Testing.read_mtl d f acc) w = acc ++ keyword_args "map_Kd" pre
              /\ value (New.read_mtl d f acc) w = acc ++ keyword_args "map_Kd" pre)).
Proof.
  split; intros Hraw.
  - assert (HT : Testing.analyze_obj path w
                 = (fst (value (Testing.scan_obj (lines_then pre Eof) [] false) w),
                    EvOpen path
                    :: trace (Testing.scan_obj (lines_then pre Eof) [] false) w
                    ++ [EvLog (WarnObjStructure IndexError)])).
    { rewrite T_analyze_obj_run, Hopen.
      unfold value at 1 2, trace at 1. now rewrite T_scan_obj_bare. }
    pose proof (N_analyze_obj_run w path) as HN.
    rewrite Hopen in HN. unfold value at 1 2 3 4 5, trace at 1 in HN.
    rewrite (N_scan_obj_bare w pre raw rest _ _ _ Hraw) in HN.
    cbn [fst snd warning] in HN.
    split; [unfold line_arg; now rewrite Hraw|].
    split; [exact HT|].
    split; [unfold value at 1; now rewrite HN|].
    split.
    + unfold trace at 1. rewrite HN. cbn [snd].
      right. right. apply in_or_app. right. now left.
    + intros Hwf. unfold value at 1 2. rewrite HT, HN. cbn [fst snd].
      destruct (T_scan_obj_clean w pre Hwf [] false) as [-> _].
      destruct (N_scan_obj_clean w pre Hwf false false []) as (_ & -> & _).
      now split.
  - split; [unfold line_arg; now rewrite Hraw|].
    intros d f acc <- Hp.
    assert (HTm : Testing.read_mtl d f acc w
                  = (fst (value (Testing.scan_mtl (lines_then pre Eof) acc) w),
                     EvExists MtlFile (OsPath.join d f) :: EvOpen (OsPath.join d f)
                     :: trace (Testing.scan_mtl (lines_then pre Eof) acc) w
                     ++ [EvLog (WarnMtlRead IndexError)])).
    { rewrite T_read_mtl_run, Hp, Hopen.
      unfold value at 1 2, trace at 1. now rewrite T_scan_mtl_bare. }
    assert (HNm : New.read_mtl d f acc w
                  = (fst (value (New.scan_mtl (lines_then pre Eof) acc) w),
                     EvExists MtlFile (OsPath.join d f)
                     :: EvPrint (PReading (OsPath.join d f))
                     :: EvOpen (OsPath.join d f)
                     :: trace (New.scan_mtl (lines_then pre Eof) acc) w
                     ++ [EvPrint (PErrorMtl IndexError)])).
    { rewrite N_read_mtl_run, Hp, Hopen.
      unfold value at 1 2, trace at 1. now rewrite N_scan_mtl_bare. }
    split; [exact HTm|]. split; [exact HNm|].
    intros Hwf. unfold value at 1 2. rewrite HTm, HNm. cbn [fst].
    now rewrite T_scan_mtl_clean, N_scan_mtl_clean.
Qed.

Lemma bare_keyword_truncates_witness :
  value (Testing.analyze_obj "models/a.obj") truncated_world = (["first.mtl"], false)
  /\ In (EvLog (WarnObjStructure IndexError))
        (trace (Testing.analyze_obj "models/a.obj") truncated_world)
  /\ value (Testing.read_mtl "models" "first.mtl" []) truncated_world = ["one.png"].
Proof.
  pose proof (bare_keyword_truncates
                truncated_world "models/a.obj" ["mtllib first.mtl"] "mtllib"
                (Line "mtllib later.mtl" Eof) eq_refl) as (H & _).
  destruct (H eq_refl) as (_ & HT & _).
  pose proof (bare_keyword_truncates
                truncated_world "models/first.mtl" ["map_Kd one.png"] "map_Kd"
                (Line "map_Kd two.png" Eof) eq_refl) as (_ & H').
  destruct (H' eq_refl) as (_ & Hm).
  destruct (Hm "models" "first.mtl" [] eq_refl eq_refl) as (HTm & _).
  unfold value, trace. rewrite HT, HTm.
  split; [reflexivity|]. split; [|reflexivity].
  right. right. now left.
Defined.

(** ** C7 *)

Lemma keyword_args_filter (kw : string) (ls : list string) :
  keyword_args kw ls
  = flat_map (fun raw => match line_arg raw with
                         | Some a => [a]
                         | None => []
                         end)
             (filter (is_keyword_line kw) ls).
Proof.
  unfold keyword_args.
  induction ls as [|l ls IH]; [reflexivity|].
  cbn [flat_map filter]. rewrite IH.
  now destruct (is_keyword_line kw l).
Qed.

Lemma T_read_mtl_acc (w : World) (d f : string) (acc : list string) :
  value (Testing.read_mtl d f acc) w
  = acc ++ value (Testing.read_mtl d f []) w.
Proof.
  unfold value at 1 2. rewrite !T_read_mtl_run.
  destruct (fs_exists w (OsPath.join d f)); cbn [fst].
  - apply T_scan_mtl_acc.
  - now rewrite app_nil_r.
Qed.

Lemma N_read_mtl_acc (w : World) (d f : string) (acc : list string) :
  value (New.read_mtl d f acc) w
  = acc ++ value (New.read_mtl d f []) w.
Proof.
  unfold value at 1 2. rewrite !N_read_mtl_run.
  destruct (fs_exists w (OsPath.join d f)); cbn [fst].
  - apply N_scan_mtl_acc.
  - now rewrite app_nil_r.
Qed.

(** C7 as stated fails: a descriptor with exactly two [mtllib] lines, the
    first of them without argument, yields no entry at all. *)
Lemma two_mtllib_lines_no_entry :
  fs_open bare_world "models/a.obj" = lines_then ["mtllib"; "mtllib b.mtl"] Eof
  /\ length (filter (is_keyword_line "mtllib") ["mtllib"; "mtllib b.mtl"]) = 2%nat
  /\ fst (value (Testing.analyze_obj "models/a.obj") bare_world) = []
  /\ snd (value (New.analyze_obj "models/a.obj") bare_world) = []
  /\ length (fst (value (Testing.analyze_obj "models/a.obj") bare_world)) <> 2%nat.
Proof. repeat split. discriminate. Qed.

(** C7, amended. A descriptor that is read to its end and has exactly two
    [mtllib] lines, each with an argument after a space, yields exactly
    those two arguments, in file order. The two material files are then
    read one after the other, each contributing its own references
    whatever the other holds: nothing when the file does not exist, all the
    arguments of its [map_Kd] lines, in order, when it is read to its end
    and each of them has an argument. *)
Theorem two_mtllib_lines (w : World) (obj_path : string) (ls : list string)
  (l1 l2 a1 a2 : string)
  (Hopen : fs_open w obj_path = lines_then ls Eof)
  (Htwo : filter (is_keyword_line "mtllib") ls = [l1; l2])
  (Harg1 : line_arg l1 = Some a1)
  (Harg2 : line_arg l2 = Some a2) :
  fst (value (Testing.analyze_obj obj_path) w) = [a1; a2]
  /\ value (New.analyze_obj obj_path) w = (true, [a1; a2])
  /\ (forall d,
        value (Testing.collect_texture_paths d [a1; a2]) w
        = value (Testing.read_mtl d a1 []) w ++ value (Testing.read_mtl d a2 []) w
        /\ value (New.collect_texture_files d true [a1; a2]) w
           = value (New.read_mtl d a1 []) w ++ value (New.read_mtl d a2 []) w)
  /\ (forall d a,
        fs_exists w (OsPath.join d a) = false ->
        value (Testing.read_mtl d a []) w = []
        /\ value (New.read_mtl d a []) w = [])
  /\ (forall d a ms,
        fs_exists w (OsPath.join d a) = true ->
        fs_open w (OsPath.join d a) = lines_then ms Eof ->
        well_formed "map_Kd" ms ->
        value (Testing.read_mtl d a []) w = keyword_args "map_Kd" ms
        /\ value (New.read_mtl d a []) w = keyword_args "map_Kd" ms).
Proof.
  assert (Hwf : well_formed "mtllib" ls).
  { intros raw Hin Hkw.
    assert (Hf : In raw (filter (is_keyword_line "mtllib") ls))
      by (apply filter_In; now split).
    rewrite Htwo in Hf. destruct Hf as [<-|[<-|[]]]; congruence. }
  assert (Hargs : keyword_args "mtllib" ls = [a1; a2]).
  { rewrite keyword_args_filter, Htwo. cbn [flat_map].
    now rewrite Harg1, Harg2. }
  split; [|split; [|split; [|split]]].
  - unfold value. rewrite T_analyze_obj_run, Hopen. cbn [fst].
    destruct (T_scan_obj_clean w ls Hwf [] false) as [-> _]. exact Hargs.
  - unfold value. rewrite N_analyze_obj_run, Hopen. cbn [fst].
    destruct (N_scan_obj_clean w ls Hwf false false []) as (-> & -> & _).
    now rewrite Hargs.
  - intros d. split.
    + unfold Testing.collect_texture_paths. cbn [nonempty Testing.read_mtls].
      rewrite !value_bind, value_ret. apply T_read_mtl_acc.
    + unfold New.collect_texture_files. cbn [nonempty andb New.read_mtls].
      rewrite !value_bind, value_ret. apply N_read_mtl_acc.
  - intros d a Ha. unfold value.
    now rewrite T_read_mtl_run, N_read_mtl_run, Ha.
  - intros d a ms Ha Hms Hwfm. unfold value at 1 2.
    rewrite T_read_mtl_run, N_read_mtl_run, Ha, Hms. cbn [fst].
    now rewrite T_scan_mtl_clean, N_scan_mtl_clean.
Qed.

Lemma two_mtllib_lines_witness :
  fst (value (Testing.analyze_obj "models/a.obj") two_world) = ["a.mtl"; "b.mtl"]
  /\ value (Testing.collect_texture_paths "models" ["a.mtl"; "b.mtl"]) two_world
     = ["a1.png"; "a2.png"; "b1.png"].
Proof.
  pose proof (two_mtllib_lines
                two_world "models/a.obj"
                ["mtllib a.mtl"; "v 0 0 0"; "  mtllib b.mtl"]
                "mtllib a.mtl" "  mtllib b.mtl" "a.mtl" "b.mtl"
                eq_refl eq_refl eq_refl eq_refl) as (H1 & _ & H2 & _).
  destruct (H2 "models") as [H3 _].
  rewrite H1, H3. split; reflexivity.
Defined.

(** ** Complete runs *)

(** new.py on [auto_world]: the candidates are checked in step 3, the
    mesh is loaded in step 4 with its own texture, and step 5 is skipped. *)
Example new_run_auto_texture :
  trace (New.comprehensive_mesh_analysis_and_load "models/a.obj") auto_world
  = [EvPrint PBanner; EvPrint (PObjFile "models/a.obj");
     EvPrint PStep1; EvOpen "models/a.obj";
     EvPrint (PFoundMaterialLibrary "mat.mtl");
     EvPrint (PHasMtl true); EvPrint (PHasTextureCoords false);
     EvPrint PStep2; EvExists MtlFile "models/mat.mtl";
     EvPrint (PReading "models/mat.mtl"); EvOpen "models/mat.mtl";
     EvPrint (PFoundTextureRef "skin.png");
     EvPrint PStep3; EvExists TextureCandidate "models/skin.png";
     EvPrint (PFound "models/skin.png");
     EvPrint PStep4; EvReadMesh "models/a.obj";
     EvPrint (PVertices 3); EvPrint (PTriangles 1); EvPrint (PAutoLoaded 1);
     EvPrint PStep6; EvPrint PReadyTextured;
     EvPrint PStep7; EvPrint PDisplayTextured;
     EvView "3D Mesh with Textures" (set_textures triangle [ImageHandle 1])].
Proof. reflexivity. Qed.

(** testing.py on [empty_world] extended with the OBJ file alone: no
    material, no texture, the mesh is painted and shown. *)
Example gui_run_untextured :
  viewed (trace (Testing.load_obj_mesh "a.obj" (Testing.mkGui None None))
                (world_of ["a.obj"] [("a.obj", lines_then ["v 0 0 0"] Eof)]
                          (inr triangle)))
  = [paint_uniform_color triangle skin_tone]
  /\ vertex_colors (paint_uniform_color triangle skin_tone)
     = [skin_tone; skin_tone; skin_tone].
Proof. split; reflexivity. Qed.

(** testing.py on [truncated_world]: the descriptor is cut at its bare
    [mtllib] line, the material file at its bare [map_Kd] line, and the
    load goes on with [one.png], which is not found. *)
Example gui_run_truncated :
  Testing.load_obj_with_textures "models/a.obj" truncated_world
  = (inr (paint_uniform_color triangle skin_tone),
     [EvLog (LoadingObj "models/a.obj");
      EvExists ObjFile "models/a.obj";
      EvOpen "models/a.obj";
      EvLog (FoundMaterialLibrary "first.mtl");
      EvLog (WarnObjStructure IndexError);
      EvExists MtlFile "models/first.mtl";
      EvOpen "models/first.mtl";
      EvLog (FoundTextureReference "one.png");
      EvLog (WarnMtlRead IndexError);
      EvLog LoadingMesh;
      EvReadMesh "models/a.obj";
      EvLog (MeshLoaded 3 1);
      EvLog ManualLoading]
     ++ map (EvExists TextureCandidate) (possible_paths "models" "one.png")
     ++ [EvLog (TextureNotFound "one.png");
         EvLog NoTexturesColored]).
Proof. reflexivity. Qed.

(** * Further properties *)

(** ** The resolver returns only what exists *)

Lemma find_texture_file_some (w : World) (d r p : string) :
  value (Testing.find_texture_file d r) w = Some p ->
  fs_exists w p = true /\ In p (possible_paths d r).
Proof.
  unfold value, Testing.find_texture_file. rewrite first_existing_run. cbn [fst].
  intros Hp. apply List.find_some in Hp. tauto.
Qed.

(** X1. A path the resolver returns is one of the ten candidates and
    exists; the resolver returns [None] exactly when no candidate
    exists. *)
Theorem find_texture_file_sound (w : World) (d r : string) :
  (forall p, value (Testing.find_texture_file d r) w = Some p ->
             fs_exists w p = true /\ In p (possible_paths d r))
  /\ (value (Testing.find_texture_file d r) w = None
      <-> forall p, In p (possible_paths d r) -> fs_exists w p = false).
Proof.
  split; [intros p; apply find_texture_file_some|].
  unfold value, Testing.find_texture_file. rewrite first_existing_run. cbn [fst].
  split.
  - intros H p Hin. exact (List.find_none _ _ H p Hin).
  - intros H. now apply find_none.
Qed.

(** ** What an entry looks like *)

Lemma cut_at_space_spec (s a b : string) :
  PyStr.cut_at_space s = Some (a, b) ->
  s = (a ++ String " " b)%string /\ PyStr.cut_at_space a = None.
Proof.
  revert a b. induction s as [|c s IH]; intros a b; [discriminate|].
  cbn [PyStr.cut_at_space].
  destruct (Ascii.eqb c " ") eqn:Ec.
  - intros [= <- <-]. apply Ascii.eqb_eq in Ec. subst c. now split.
  - destruct (PyStr.cut_at_space s) as [[a' b']|]; [|discriminate].
    intros [= <- <-]. destruct (IH a' b' eq_refl) as [-> Ha].
    split; [reflexivity|]. cbn [PyStr.cut_at_space]. now rewrite Ec, Ha.
Qed.

Lemma cut_at_space_app (k a : string) :
  PyStr.cut_at_space k = None ->
  PyStr.cut_at_space (k ++ String " " a) = Some (k, a).
Proof.
  induction k as [|c k IH]; [reflexivity|].
  cbn [PyStr.cut_at_space String.append].
  destruct (Ascii.eqb c " "); [discriminate|].
  destruct (PyStr.cut_at_space k) as [[x y]|]; [discriminate|].
  intros _. now rewrite IH.
Qed.

Lemma last_char_app (a b : string) (c : ascii) :
  last_char (a ++ String c b) = last_char (String c b).
Proof.
  induction a as [|x a IH]; [reflexivity|].
  cbn [String.append]. rewrite <- IH.
  cbn [last_char]. now destruct (a ++ String c b)%string eqn:E; [destruct a; discriminate|].
Qed.

Lemma last_char_rstrip (f : ascii -> bool) (s : string) (c : ascii) :
  last_char (PyStr.rstrip_by f s) = Some c -> f c = false.
Proof.
  induction s as [|x s IH]; [discriminate|].
  cbn [PyStr.rstrip_by].
  destruct (PyStr.rstrip_by f s) as [|y t] eqn:E.
  - destruct (f x) eqn:Ex; [discriminate|]. now intros [= <-].
  - cbn [last_char]. exact IH.
Qed.

Lemma line_arg_tidy (raw a : string) : line_arg raw = Some a -> tidy_entry a.
Proof.
  unfold line_arg, PyStr.split_space_1.
  destruct (PyStr.cut_at_space (PyStr.strip raw)) as [[k b]|] eqn:E;
    [|discriminate].
  intros [= <-]. apply cut_at_space_spec in E as [E _].
  pose proof (last_char_rstrip PyStr.isspace
                (PyStr.lstrip_by PyStr.isspace raw)) as Hlast.
  fold (PyStr.strip raw) in Hlast. rewrite E, last_char_app in Hlast.
  split.
  - intros ->. discriminate (Hlast " "%char eq_refl).
  - intros c Hc. apply Hlast.
    destruct b as [|x b]; [discriminate|exact Hc].
Qed.

Lemma prefix_app (kw k s : string) :
  String.prefix kw k = true -> String.prefix kw (k ++ s) = true.
Proof.
  revert k. induction kw as [|c kw IH]; intros k.
  - intros _. now destruct (k ++ s)%string.
  - destruct k as [|x k]; [discriminate|].
    cbn [String.prefix String.append].
    destruct (ascii_dec c x); [apply IH|discriminate].
Qed.

Section Entries.
Variable w : World.

Lemma T_scan_obj_tidy (f : stream) :
  forall acc tc,
    Forall tidy_entry acc ->
    Forall tidy_entry (fst (fst (value (Testing.scan_obj f acc tc) w))).
Proof.
  induction f as [|l rest IH|e]; intros acc tc Hacc; try exact Hacc.
  cbn [Testing.scan_obj].
  destruct (PyStr.startswith (PyStr.strip l) "mtllib").
  - destruct (nth_error _ 1) as [a|] eqn:Ea; [|exact Hacc].
    rewrite value_bind. apply IH, Forall_app. split; [exact Hacc|].
    constructor; [|constructor]. now apply (line_arg_tidy l).
  - destruct (PyStr.startswith (PyStr.strip l) "vt"); now apply IH.
Qed.

Lemma N_scan_obj_tidy (f : stream) :
  forall hm tc acc,
    Forall tidy_entry acc ->
    Forall tidy_entry (snd (fst (value (New.scan_obj f hm tc acc) w))).
Proof.
  induction f as [|l rest IH|e]; intros hm tc acc Hacc; try exact Hacc.
  cbn [New.scan_obj].
  destruct (PyStr.startswith (PyStr.strip l) "mtllib").
  - destruct (nth_error _ 1) as [a|] eqn:Ea; [|exact Hacc].
    rewrite value_bind. apply IH, Forall_app. split; [exact Hacc|].
    constructor; [|constructor]. now apply (line_arg_tidy l).
  - destruct (PyStr.startswith (PyStr.strip l) "vt"); now apply IH.
Qed.

Lemma T_scan_mtl_tidy (f : stream) :
  forall acc,
    Forall tidy_entry acc ->
    Forall tidy_entry (fst (value (Testing.scan_mtl f acc) w)).
Proof.
  induction f as [|l rest IH|e]; intros acc Hacc; try exact Hacc.
  cbn [Testing.scan_mtl].
  destruct (PyStr.startswith (PyStr.strip l) "map_Kd"); [|now apply IH].
  destruct (nth_error _ 1) as [a|] eqn:Ea; [|exact Hacc].
  rewrite value_bind. apply IH, Forall_app. split; [exact Hacc|].
  constructor; [|constructor]. now apply (line_arg_tidy l).
Qed.

Lemma N_scan_mtl_tidy (f : stream) :
  forall acc,
    Forall tidy_entry acc ->
    Forall tidy_entry (fst (value (New.scan_mtl f acc) w)).
Proof.
  induction f as [|l rest IH|e]; intros acc Hacc; try exact Hacc.
  cbn [New.scan_mtl].
  destruct (PyStr.startswith (PyStr.strip l) "map_Kd"); [|now apply IH].
  destruct (nth_error _ 1) as [a|] eqn:Ea; [|exact Hacc].
  rewrite value_bind. apply IH, Forall_app. split; [exact Hacc|].
  constructor; [|constructor]. now apply (line_arg_tidy l).
Qed.

Lemma T_read_mtls_tidy (d : string) (files : list string) :
  forall acc,
    Forall tidy_entry acc ->
    Forall tidy_entry (value (Testing.read_mtls d files acc) w).
Proof.
  induction files as [|f files IH]; intros acc Hacc; [exact Hacc|].
  cbn [Testing.read_mtls]. rewrite value_bind. apply IH.
  unfold value. rewrite T_read_mtl_run.
  destruct (fs_exists w _); [|exact Hacc].
  now apply T_scan_mtl_tidy.
Qed.

Lemma N_read_mtls_tidy (d : string) (files : list string) :
  forall acc,
    Forall tidy_entry acc ->
    Forall tidy_entry (value (New.read_mtls d files acc) w).
Proof.
  induction files as [|f files IH]; intros acc Hacc; [exact Hacc|].
  cbn [New.read_mtls]. rewrite value_bind. apply IH.
  unfold value. rewrite N_read_mtl_run.
  destruct (fs_exists w _); [|exact Hacc].
  now apply N_scan_mtl_tidy.
Qed.

End Entries.

(** X2. Every material-file name and every texture reference the two
    programs collect is a non-empty string that does not end with white
    space, whatever the files hold; the path such an entry is joined into
    is therefore never the empty path. *)
Theorem entries_are_tidy (w : World) (obj_path d : string) (files : list string) :
  Forall tidy_entry (fst (value (Testing.analyze_obj obj_path) w))
  /\ Forall tidy_entry (snd (value (New.analyze_obj obj_path) w))
  /\ Forall tidy_entry (value (Testing.collect_texture_paths d files) w)
  /\ (forall hm, Forall tidy_entry (value (New.collect_texture_files d hm files) w))
  /\ (forall a, tidy_entry a -> PyStr.truthy (OsPath.join d a) = true).
Proof.
  repeat split.
  - unfold value. rewrite T_analyze_obj_run. cbn [fst].
    apply T_scan_obj_tidy. constructor.
  - unfold value. rewrite N_analyze_obj_run. cbn [fst snd].
    apply N_scan_obj_tidy. constructor.
  - unfold Testing.collect_texture_paths.
    destruct (nonempty files); [|constructor].
    apply T_read_mtls_tidy. constructor.
  - intros hm. unfold New.collect_texture_files.
    destruct (hm && nonempty files); [|constructor].
    rewrite value_bind. apply N_read_mtls_tidy. constructor.
  - intros a [Ha _]. now apply join_nonempty.
Qed.

(** X3. The keyword is matched as a prefix of the stripped line, and the
    entry is everything after the first space, verbatim: a stripped line
    [k ++ " " ++ a] whose first field [k] begins with the keyword yields
    the entry [a], later spaces and option tokens included, and the scan
    goes on with the next line. *)
Theorem keyword_prefix_entry (w : World) (raw k a : string) (rest : stream)
  (Hline : PyStr.strip raw = (k ++ String " " a)%string)
  (Hfield : PyStr.cut_at_space k = None) :
  line_arg raw = Some a
  /\ (PyStr.startswith k "map_Kd" = true ->
      forall acc,
        Testing.scan_mtl (Line raw rest) acc w
        = (value (Testing.scan_mtl rest (acc ++ [a])) w,
           EvLog (FoundTextureReference a)
           :: trace (Testing.scan_mtl rest (acc ++ [a])) w)
        /\ New.scan_mtl (Line raw rest) acc w
           = (value (New.scan_mtl rest (acc ++ [a])) w,
              EvPrint (PFoundTextureRef a)
              :: trace (New.scan_mtl rest (acc ++ [a])) w))
  /\ (PyStr.startswith k "mtllib" = true ->
      forall acc tc hm,
        Testing.scan_obj (Line raw rest) acc tc w
        = (value (Testing.scan_obj rest (acc ++ [a]) tc) w,
           EvLog (FoundMaterialLibrary a)
           :: trace (Testing.scan_obj rest (acc ++ [a]) tc) w)
        /\ New.scan_obj (Line raw rest) hm tc acc w
           = (value (New.scan_obj rest true tc (acc ++ [a])) w,
              EvPrint (PFoundMaterialLibrary a)
              :: trace (New.scan_obj rest true tc (acc ++ [a])) w)).
Proof.
  assert (Harg : nth_error (PyStr.split_space_1 (PyStr.strip raw)) 1 = Some a).
  { unfold PyStr.split_space_1. now rewrite Hline, cut_at_space_app. }
  split; [exact Harg|]. split; intros Hkw.
  - intros acc. cbn [Testing.scan_mtl New.scan_mtl].
    unfold PyStr.startswith in *. rewrite Harg, Hline, (prefix_app _ _ _ Hkw).
    unfold bind, log, print, value, trace.
    destruct (Testing.scan_mtl rest (acc ++ [a]) w),
             (New.scan_mtl rest (acc ++ [a]) w). now split.
  - intros acc tc hm. cbn [Testing.scan_obj New.scan_obj].
    unfold PyStr.startswith in *. rewrite Harg, Hline, (prefix_app _ _ _ Hkw).
    unfold bind, log, print, value, trace.
    destruct (Testing.scan_obj rest (acc ++ [a]) tc w),
             (New.scan_obj rest true tc (acc ++ [a]) w). now split.
Qed.

Lemma keyword_prefix_entry_witness :
  line_arg "  map_Kd_alt -bm 1 my skin.png  " = Some "-bm 1 my skin.png"
  /\ value (Testing.scan_mtl (Line "  map_Kd_alt -bm 1 my skin.png  " Eof) [])
           empty_world
     = (["-bm 1 my skin.png"], None).
Proof.
  pose proof (keyword_prefix_entry
                empty_world "  map_Kd_alt -bm 1 my skin.png  "
                "map_Kd_alt" "-bm 1 my skin.png" Eof eq_refl eq_refl)
    as (H1 & H2 & _).
  destruct (H2 eq_refl []) as [H3 _].
  split; [exact H1|]. unfold value at 1. now rewrite H3.
Defined.

(** ** The scans in closed form *)

Lemma well_formed_cons (kw l : string) (ls : list string) :
  well_formed kw (l :: ls)
  <-> (is_keyword_line kw l = true -> line_arg l <> None) /\ well_formed kw ls.
Proof.
  split.
  - intros H. split; [apply H; now left|]. intros raw Hin. apply H. now right.
  - intros [Hl Hls] raw [<-|Hin]; [exact Hl|now apply Hls].
Qed.

Section ClosedForm.
Variable w : World.

Lemma T_scan_mtl_step (l : string) (rest : stream) (acc : list string) :
  Testing.scan_mtl (Line l rest) acc
  = if is_keyword_line "map_Kd" l
    then match line_arg l with
         | None => ret (acc, Some IndexError)
         | Some a => bind (log (FoundTextureReference a))
                          (fun _ => Testing.scan_mtl rest (acc ++ [a]))
         end
    else Testing.scan_mtl rest acc.
Proof. reflexivity. Qed.

Lemma T_scan_obj_step (l : string) (rest : stream) (acc : list string) (tc : bool) :
  Testing.scan_obj (Line l rest) acc tc
  = if is_keyword_line "mtllib" l
    then match line_arg l with
         | None => ret (acc, tc, Some IndexError)
         | Some a => bind (log (FoundMaterialLibrary a))
                          (fun _ => Testing.scan_obj rest (acc ++ [a]) tc)
         end
    else if is_keyword_line "vt" l then Testing.scan_obj rest acc true
         else Testing.scan_obj rest acc tc.
Proof. reflexivity. Qed.

Lemma clean_prefix_cons (kw l : string) (ls : list string) :
  clean_prefix kw (l :: ls)
  = if is_keyword_line kw l
    then match line_arg l with
         | Some _ => l :: clean_prefix kw ls
         | None => []
         end
    else l :: clean_prefix kw ls.
Proof. reflexivity. Qed.

Lemma keyword_args_cons (kw l : string) (ls : list string) :
  keyword_args kw (l :: ls)
  = (if is_keyword_line kw l
     then match line_arg l with
          | Some a => [a]
          | None => []
          end
     else []) ++ keyword_args kw ls.
Proof. reflexivity. Qed.

Lemma T_scan_mtl_closed (ls : list string) :
  forall acc,
    fst (value (Testing.scan_mtl (lines_then ls Eof) acc) w)
    = acc ++ keyword_args "map_Kd" (clean_prefix "map_Kd" ls)
    /\ (snd (value (Testing.scan_mtl (lines_then ls Eof) acc) w) = None
        <-> well_formed "map_Kd" ls).
Proof.
  induction ls as [|l ls IH]; intros acc.
  - cbn. rewrite app_nil_r. split; [reflexivity|]. split; [intros _ raw []|easy].
  - rewrite well_formed_cons. cbn [lines_then].
    rewrite T_scan_mtl_step, clean_prefix_cons.
    destruct (is_keyword_line "map_Kd" l) eqn:Ek.
    + destruct (line_arg l) as [a|] eqn:Ea.
      * rewrite value_bind, keyword_args_cons, Ek, Ea.
        destruct (IH (acc ++ [a])) as [-> ->].
        rewrite <- app_assoc. split; [reflexivity|].
        split; [intros H; split; [discriminate|exact H]|tauto].
      * cbn. rewrite app_nil_r. split; [reflexivity|].
        split; [discriminate|]. intros [H _]. now destruct (H eq_refl).
    + rewrite keyword_args_cons, Ek. cbn [app].
      destruct (IH acc) as [-> ->]. split; [reflexivity|].
      split; [intros H; split; [discriminate|exact H]|tauto].
Qed.

Lemma T_scan_obj_closed (ls : list string) :
  forall acc tc,
    fst (fst (value (Testing.scan_obj (lines_then ls Eof) acc tc) w))
    = acc ++ keyword_args "mtllib" (clean_prefix "mtllib" ls)
    /\ snd (fst (value (Testing.scan_obj (lines_then ls Eof) acc tc) w))
       = tc || existsb (fun l => negb (is_keyword_line "mtllib" l)
                                 && is_keyword_line "vt" l)
                       (clean_prefix "mtllib" ls)
    /\ (snd (value (Testing.scan_obj (lines_then ls Eof) acc tc) w) = None
        <-> well_formed "mtllib" ls).
Proof.
  induction ls as [|l ls IH]; intros acc tc.
  - cbn. rewrite app_nil_r, orb_false_r. repeat split; easy.
  - rewrite well_formed_cons. cbn [lines_then].
    rewrite T_scan_obj_step, clean_prefix_cons.
    destruct (is_keyword_line "mtllib" l) eqn:Ek.
    + destruct (line_arg l) as [a|] eqn:Ea.
      * rewrite value_bind, keyword_args_cons, Ek, Ea.
        destruct (IH (acc ++ [a]) tc) as (-> & -> & ->).
        cbn [existsb]. rewrite Ek, <- app_assoc. cbn [negb andb orb].
        repeat split; try tauto. discriminate.
      * cbn. rewrite app_nil_r, orb_false_r. repeat split; try discriminate.
        intros [H _]. now destruct (H eq_refl).
    + rewrite keyword_args_cons, Ek. cbn [existsb app]. rewrite Ek.
      cbn [negb andb].
      destruct (is_keyword_line "vt" l).
      * destruct (IH acc true) as (-> & -> & ->). cbn [orb].
        rewrite orb_true_r. repeat split; try tauto. discriminate.
      * destruct (IH acc tc) as (-> & -> & ->). cbn [orb].
        repeat split; try tauto. discriminate.
Qed.

Lemma T_scan_obj_trace (ls : list string) :
  forall acc tc,
    trace (Testing.scan_obj (lines_then ls Eof) acc tc) w
    = map (fun a => EvLog (FoundMaterialLibrary a))
          (keyword_args "mtllib" (clean_prefix "mtllib" ls)).
Proof.
  induction ls as [|l ls IH]; intros acc tc; [reflexivity|].
  cbn [lines_then]. rewrite T_scan_obj_step, clean_prefix_cons.
  destruct (is_keyword_line "mtllib" l) eqn:Ek.
  - destruct (line_arg l) as [a|] eqn:Ea; [|reflexivity].
    rewrite trace_bind, keyword_args_cons, Ek, Ea, IH. reflexivity.
  - rewrite keyword_args_cons, Ek. cbn [app].
    destruct (is_keyword_line "vt" l); apply IH.
Qed.

Lemma clean_prefix_all (kw : string) (ls : list string) :
  well_formed kw ls -> clean_prefix kw ls = ls.
Proof.
  induction ls as [|l ls IH]; [reflexivity|].
  rewrite well_formed_cons, clean_prefix_cons. intros [Hl Hls].
  rewrite (IH Hls).
  destruct (is_keyword_line kw l); [|reflexivity].
  destruct (line_arg l); [reflexivity|]. now destruct (Hl eq_refl).
Qed.

(** The two programs scan alike. *)
Lemma scan_mtl_agree (f : stream) :
  forall acc,
    value (New.scan_mtl f acc) w = value (Testing.scan_mtl f acc) w.
Proof.
  induction f as [|l rest IH|e]; intros acc; try reflexivity.
  cbn [New.scan_mtl Testing.scan_mtl].
  destruct (PyStr.startswith (PyStr.strip l) "map_Kd"); [|apply IH].
  destruct (nth_error _ 1); [|reflexivity].
  rewrite !value_bind. apply IH.
Qed.

Lemma scan_obj_agree (f : stream) :
  forall hm tc acc,
    snd (fst (value (New.scan_obj f hm tc acc) w))
    = fst (fst (value (Testing.scan_obj f acc tc) w))
    /\ snd (fst (fst (value (New.scan_obj f hm tc acc) w)))
       = snd (fst (value (Testing.scan_obj f acc tc) w))
    /\ snd (value (New.scan_obj f hm tc acc) w)
       = snd (value (Testing.scan_obj f acc tc) w)
    /\ (fst (fst (fst (value (New.scan_obj f hm tc acc) w))) = true
        \/ fst (fst (fst (value (New.scan_obj f hm tc acc) w))) = hm
           /\ snd (fst (value (New.scan_obj f hm tc acc) w)) = acc).
Proof.
  induction f as [|l rest IH|e]; intros hm tc acc; try (cbn; tauto).
  cbn [New.scan_obj Testing.scan_obj].
  destruct (PyStr.startswith (PyStr.strip l) "mtllib").
  - destruct (nth_error _ 1); [|cbn; tauto].
    rewrite !value_bind. destruct (IH true tc (acc ++ [s])) as (H1 & H2 & H3 & H4).
    repeat split; try assumption. left. destruct H4 as [H4|[H4 _]]; exact H4.
  - destruct (PyStr.startswith (PyStr.strip l) "vt"); apply IH.
Qed.

Lemma read_mtl_agree (d f : string) (acc : list string) :
  value (New.read_mtl d f acc) w = value (Testing.read_mtl d f acc) w.
Proof.
  change (value (New.read_mtl d f acc) w) with (fst (New.read_mtl d f acc w)).
  change (value (Testing.read_mtl d f acc) w)
    with (fst (Testing.read_mtl d f acc w)).
  rewrite N_read_mtl_run, T_read_mtl_run.
  destruct (fs_exists w _); [|reflexivity].
  cbn [fst]. now rewrite scan_mtl_agree.
Qed.

Lemma read_mtls_agree (d : string) (files : list string) :
  forall acc,
    value (New.read_mtls d files acc) w = value (Testing.read_mtls d files acc) w.
Proof.
  induction files as [|f files IH]; intros acc; [reflexivity|].
  cbn [New.read_mtls Testing.read_mtls].
  now rewrite !value_bind, read_mtl_agree, IH.
Qed.

Lemma T_read_mtls_flat (d : string) (files : list string) :
  forall acc,
    value (Testing.read_mtls d files acc) w
    = acc ++ flat_map (fun f => value (Testing.read_mtl d f []) w) files.
Proof.
  induction files as [|f files IH]; intros acc.
  - cbn. now rewrite app_nil_r.
  - cbn [Testing.read_mtls flat_map].
    now rewrite value_bind, IH, T_read_mtl_acc, app_assoc.
Qed.

End ClosedForm.

(** X4. A text file that is read to its end is scanned up to its first
    keyword line without argument: the descriptor yields the arguments of
    the [mtllib] lines before it, in order, one log line for each, and the
    flag for texture coordinates is set exactly when one of the other
    lines before it begins with [vt]; a material file yields the arguments
    of its [map_Kd] lines before it. The warning is logged exactly when
    some keyword line has no argument. *)
Theorem scans_in_closed_form (w : World) (path : string) (ls : list string)
  (Hopen : fs_open w path = lines_then ls Eof) :
  value (Testing.analyze_obj path) w
  = (keyword_args "mtllib" (clean_prefix "mtllib" ls),
     existsb (fun l => negb (is_keyword_line "mtllib" l) && is_keyword_line "vt" l)
             (clean_prefix "mtllib" ls))
  /\ (well_formed "mtllib" ls ->
      clean_prefix "mtllib" ls = ls
      /\ trace (Testing.analyze_obj path) w
         = EvOpen path
           :: map (fun a => EvLog (FoundMaterialLibrary a))
                  (keyword_args "mtllib" ls))
  /\ (~ well_formed "mtllib" ls ->
      trace (Testing.analyze_obj path) w
      = EvOpen path
        :: map (fun a => EvLog (FoundMaterialLibrary a))
               (keyword_args "mtllib" (clean_prefix "mtllib" ls))
        ++ [EvLog (WarnObjStructure IndexError)])
  /\ (forall d f acc,
        OsPath.join d f = path ->
        fs_exists w path = true ->
        value (Testing.read_mtl d f acc) w
        = acc ++ keyword_args "map_Kd" (clean_prefix "map_Kd" ls)).
Proof.
  pose proof (T_analyze_obj_run w path) as Hrun. rewrite Hopen in Hrun.
  rewrite T_scan_obj_trace in Hrun.
  destruct (T_scan_obj_closed w ls [] false) as (H1 & H2 & H3).
  pose proof (T_scan_obj_raised w ls [] false) as Hidx.
  destruct (value (Testing.scan_obj (lines_then ls Eof) [] false) w)
    as [[files tc] raised].
  cbn [fst snd] in *. subst files tc.
  split; [|split; [|split]].
  - unfold value. now rewrite Hrun.
  - intros Hwf. split; [now apply clean_prefix_all|].
    unfold trace. rewrite Hrun. cbn [snd].
    rewrite (proj2 H3 Hwf), (clean_prefix_all _ _ Hwf). cbn [warning].
    now rewrite app_nil_r.
  - intros Hwf. unfold trace. rewrite Hrun. cbn [snd].
    destruct raised as [e|]; [|now destruct Hwf; apply H3].
    now rewrite (Hidx e eq_refl).
  - intros d f acc <- Hp. unfold value. rewrite T_read_mtl_run, Hp, Hopen.
    cbn [fst]. apply T_scan_mtl_closed.
Qed.

Lemma scans_in_closed_form_witness :
  value (Testing.analyze_obj "models/a.obj") truncated_world = (["first.mtl"], false)
  /\ value (Testing.read_mtl "models" "first.mtl" []) truncated_world = ["one.png"].
Proof.
  pose proof (scans_in_closed_form
                truncated_world "models/a.obj"
                ["mtllib first.mtl"; "mtllib"; "mtllib later.mtl"] eq_refl)
    as (H1 & _).
  pose proof (scans_in_closed_form
                truncated_world "models/first.mtl"
                ["map_Kd one.png"; "map_Kd"; "map_Kd two.png"] eq_refl)
    as (_ & _ & _ & H2).
  rewrite H1, (H2 "models" "first.mtl" [] eq_refl eq_refl). now split.
Defined.

Lemma collect_agree (w : World) (d : string) (files : list string) :
  value (New.collect_texture_files d true files) w
  = value (Testing.collect_texture_paths d files) w.
Proof.
  unfold New.collect_texture_files, Testing.collect_texture_paths.
  cbn [andb]. destruct (nonempty files); [|reflexivity].
  rewrite value_bind. apply read_mtls_agree.
Qed.

Lemma analyze_agree (w : World) (obj_path : string) :
  snd (value (New.analyze_obj obj_path) w)
  = fst (value (Testing.analyze_obj obj_path) w)
  /\ (fst (value (New.analyze_obj obj_path) w) = true
      \/ snd (value (New.analyze_obj obj_path) w) = []).
Proof.
  destruct (scan_obj_agree w (fs_open w obj_path) false false [])
    as (Hfiles & _ & _ & Hhm).
  change (value (New.analyze_obj obj_path) w)
    with (fst (New.analyze_obj obj_path w)).
  change (value (Testing.analyze_obj obj_path) w)
    with (fst (Testing.analyze_obj obj_path w)).
  rewrite N_analyze_obj_run, T_analyze_obj_run.
  cbn [fst snd]. split; [exact Hfiles|]. destruct Hhm as [H|[_ H]]; auto.
Qed.

Lemma collect_after_analysis_agree (w : World) (obj_path d : string) :
  value (New.collect_texture_files
           d (fst (value (New.analyze_obj obj_path) w))
           (snd (value (New.analyze_obj obj_path) w))) w
  = value (Testing.collect_texture_paths
             d (fst (value (Testing.analyze_obj obj_path) w))) w.
Proof.
  destruct (analyze_agree w obj_path) as [<- [->|Hnil]];
    [apply collect_agree|].
  rewrite Hnil. unfold New.collect_texture_files.
  now rewrite andb_false_r.
Qed.

(** X5. The two programs read the text files alike: they collect the same
    material-file names from a descriptor and the same texture references
    from any list of material files, and the extra [has_mtl] test of
    new.py never changes the outcome. The references of a list of material
    files are those of each file on its own, concatenated in order. *)
Theorem parsers_agree (w : World) (obj_path d : string) (files : list string) :
  snd (value (New.analyze_obj obj_path) w)
  = fst (value (Testing.analyze_obj obj_path) w)
  /\ value (New.collect_texture_files d true files) w
     = value (Testing.collect_texture_paths d files) w
  /\ value (New.collect_texture_files
              d (fst (value (New.analyze_obj obj_path) w))
              (snd (value (New.analyze_obj obj_path) w))) w
     = value (Testing.collect_texture_paths
                d (fst (value (Testing.analyze_obj obj_path) w))) w
  /\ value (Testing.collect_texture_paths d files) w
     = flat_map (fun f => value (Testing.read_mtl d f []) w) files.
Proof.
  split; [apply analyze_agree|]. split; [apply collect_agree|].
  split; [apply collect_after_analysis_agree|].
  unfold Testing.collect_texture_paths.
  destruct files as [|f files]; [reflexivity|].
  cbn [nonempty]. apply (T_read_mtls_flat w d (f :: files) []).
Qed.

(** ** What a load can raise *)

(** X6. [load_obj_with_textures] raises in two cases only. When the OBJ
    path does not exist it raises [FileNotFoundError] at once: the path is
    checked, and no file is opened and no library is called. When it
    exists, the load raises exactly when the loader raises, with the
    loader's exception; nothing the text files hold and no texture can
    make it fail. new.py does not check the path: it raises what the
    loader raises, and otherwise only what the viewer raises. *)
Theorem load_errors (w : World) (p : string) :
  (fs_exists w p = false ->
   Testing.load_obj_with_textures p w
   = (inl (FileNotFoundError ("OBJ file not found: " ++ p)%string),
      [EvLog (LoadingObj p); EvExists ObjFile p]))
  /\ (fs_exists w p = true ->
      forall e, value (Testing.load_obj_with_textures p) w = inl e
                <-> lib_read_triangle_mesh w p true = inl e)
  /\ (forall e, lib_read_triangle_mesh w p true = inl e ->
                value (New.comprehensive_mesh_analysis_and_load p) w = inl e)
  /\ (forall e, value (New.comprehensive_mesh_analysis_and_load p) w = inl e ->
                lib_read_triangle_mesh w p true = inl e
                \/ exists m, lib_view w m = Some e).
Proof.
  split; [|split; [|split]].
  - intros Hp. unfold Testing.load_obj_with_textures, bind, log, os_path_exists.
    now rewrite Hp.
  - intros Hp e. rewrite (T_load_value w p Hp), T_load_and_texture_value.
    destruct (lib_read_triangle_mesh w p true) as [e'|m0]; [|easy].
    split; intros [= ->]; reflexivity.
  - intros e He. destruct (N_load_viewed w p) as [_ ->].
    match goal with
    | |- context [New.load_and_show _ ?f] =>
        pose proof (N_load_and_show_run w p f) as Hrun
    end.
    rewrite He in Hrun. now destruct Hrun.
  - intros e. destruct (N_load_viewed w p) as [_ ->].
    match goal with
    | |- context [New.load_and_show _ ?f] =>
        pose proof (N_load_and_show_run w p f) as Hrun
    end.
    destruct (lib_read_triangle_mesh w p true) as [e'|m0].
    + destruct Hrun as [-> _]. intros [= ->]. now left.
    + cbv zeta in Hrun. destruct Hrun as [-> _].
      destruct (lib_view w _) as [e'|] eqn:Ev; [|discriminate].
      intros [= ->]. right. eexists. exact Ev.
Qed.

(** ** What a load changes in the mesh *)

Section Texturing.
Variable w : World.

Lemma T_load_first_texture_result (d : string) (refs : list string)
      (mesh : TriangleMesh) :
  value (Testing.load_first_texture d refs mesh) w = mesh
  \/ exists ref p img,
      In ref refs /\ In p (possible_paths d ref) /\ fs_exists w p = true
      /\ lib_read_image w p = inr img
      /\ value (Testing.load_first_texture d refs mesh) w
         = set_textures mesh [img].
Proof.
  induction refs as [|r refs IH]; [now left|].
  assert (Hrest :
            value (Testing.load_first_texture d refs mesh) w = mesh
            \/ exists ref p img,
                In ref (r :: refs) /\ In p (possible_paths d ref)
                /\ fs_exists w p = true /\ lib_read_image w p = inr img
                /\ value (Testing.load_first_texture d refs mesh) w
                   = set_textures mesh [img]).
  { destruct IH as [IH|(ref & p & img & H1 & H)]; [now left|right].
    exists ref, p, img. split; [now right|exact H]. }
  cbn [Testing.load_first_texture]. rewrite value_bind.
  pose proof (find_texture_file_some w d r) as Hsound.
  destruct (value (Testing.find_texture_file d r) w) as [p|];
    [|rewrite value_bind; exact Hrest].
  destruct (Hsound p eq_refl) as [Hp Hin].
  destruct (PyStr.truthy p); [|rewrite value_bind; exact Hrest].
  rewrite value_bind.
  change (value (read_image p) w) with (lib_read_image w p).
  destruct (lib_read_image w p) as [e|img] eqn:Eimg;
    rewrite value_bind; [exact Hrest|].
  right. exists r, p, img. repeat split; auto. now left.
Qed.

Lemma T_load_first_texture_reads (d : string) (refs : list string) :
  forall mesh q,
    In q (images_read (trace (Testing.load_first_texture d refs mesh) w)) ->
    fs_exists w q = true.
Proof.
  induction refs as [|r refs IH]; intros mesh q; [intros []|].
  cbn [Testing.load_first_texture]. rewrite trace_bind.
  unfold images_read at 1. rewrite flat_map_app.
  fold (images_read (trace (Testing.find_texture_file d r) w)).
  assert (Hsearch : images_read (trace (Testing.find_texture_file d r) w) = []).
  { apply search_event_selects. unfold trace, Testing.find_texture_file.
    rewrite first_existing_run. cbn [snd]. apply Forall_forall.
    intros e He. apply in_map_iff in He as (x & <- & _). exact I. }
  rewrite Hsearch. cbn [app].
  pose proof (find_texture_file_some w d r) as Hsound.
  destruct (value (Testing.find_texture_file d r) w) as [p|].
  - destruct (Hsound p eq_refl) as [Hp _].
    destruct (PyStr.truthy p).
    + rewrite trace_bind. cbn [flat_map trace snd read_image app].
      change (value (read_image p) w) with (lib_read_image w p).
      destruct (lib_read_image w p); rewrite trace_bind; cbn [flat_map app].
      * intros [<-|Hq]; [exact Hp|]. now apply (IH mesh).
      * cbn. intros [<-|[]]. exact Hp.
    + rewrite trace_bind. cbn [flat_map app]. apply IH.
  - rewrite trace_bind. cbn [flat_map app]. apply IH.
Qed.

End Texturing.

(** X7. A successful load returns the loader's mesh with its vertices and
    triangles untouched and its normals computed; it changes the textures
    only by attaching one image, read from a candidate that exists, to a
    mesh the loader left without texture, and the vertex colours only by
    painting a mesh that ends without texture. *)
Theorem load_changes_only_textures_and_colours (w : World) (p : string)
  (m : TriangleMesh)
  (Hm : value (Testing.load_obj_with_textures p) w = inr m) :
  exists m0,
    lib_read_triangle_mesh w p true = inr m0
    /\ vertices m = vertices m0
    /\ triangles m = triangles m0
    /\ vertex_normals m = lib_vertex_normals w m0
    /\ (textures m = textures m0
        \/ textures m0 = []
           /\ exists q img, fs_exists w q = true
                            /\ lib_read_image w q = inr img
                            /\ textures m = [img])
    /\ (vertex_colors m = vertex_colors m0
        \/ textures m = []
           /\ vertex_colors m = repeat skin_tone (length (vertices m0))).
Proof.
  destruct (fs_exists w p) eqn:Hp.
  2:{ unfold Testing.load_obj_with_textures, value, bind, log,
        os_path_exists in Hm.
      rewrite Hp in Hm. discriminate. }
  rewrite (T_load_value w p Hp), T_load_and_texture_value in Hm.
  destruct (lib_read_triangle_mesh w p true) as [e|m0]; [discriminate|].
  exists m0. split; [reflexivity|]. cbv zeta in Hm. injection Hm as Hm.
  set (mesh1 := set_vertex_normals m0 (lib_vertex_normals w m0)) in *.
  set (refs := value (Testing.collect_texture_paths _ _) w) in *.
  assert (Hmesh : exists mesh,
             (if (0 <? length (textures mesh))%nat then mesh
              else paint_uniform_color mesh skin_tone) = m
             /\ (mesh = mesh1
                 \/ textures m0 = []
                    /\ exists q img, fs_exists w q = true
                                     /\ lib_read_image w q = inr img
                                     /\ mesh = set_textures mesh1 [img])).
  { match type of Hm with
    | context [if ?c then value _ w else _] => destruct c eqn:Ec
    end.
    - eexists. split; [exact Hm|].
      apply andb_prop in Ec as [Ec _]. apply Nat.eqb_eq in Ec.
      destruct (T_load_first_texture_result w (OsPath.dirname p) refs mesh1)
        as [->|(ref & q & img & _ & _ & Hq & Himg & ->)]; [now left|].
      right. split; [destruct (textures m0); [reflexivity|discriminate]|].
      exists q, img. auto.
    - eexists. split; [exact Hm|]. now left. }
  clear Hm. destruct Hmesh as (mesh & Hm & Hmesh).
  assert (Hgeo : vertices mesh = vertices m0 /\ triangles mesh = triangles m0
                 /\ vertex_normals mesh = lib_vertex_normals w m0
                 /\ vertex_colors mesh = vertex_colors m0).
  { destruct Hmesh as [->|(_ & q & img & _ & _ & ->)]; now repeat split. }
  destruct Hgeo as (Hv & Ht & Hn & Hc).
  assert (Htex : textures mesh = textures m0
                 \/ textures m0 = []
                    /\ exists q img, fs_exists w q = true
                                     /\ lib_read_image w q = inr img
                                     /\ textures mesh = [img]).
  { destruct Hmesh as [->|(H0 & q & img & Hq & Himg & ->)]; [now left|].
    right. split; [exact H0|]. now exists q, img. }
  destruct (0 <? length (textures mesh))%nat eqn:Elen; subst m.
  - repeat split; auto.
  - cbn [paint_uniform_color vertices triangles vertex_normals vertex_colors
         textures].
    repeat split; auto. right. rewrite Hv. split; [|reflexivity].
    destruct (textures mesh); [reflexivity|discriminate].
Qed.

Lemma load_changes_only_textures_and_colours_witness :
  exists m0,
    lib_read_triangle_mesh body_world "models/a.obj" true = inr m0
    /\ vertices (set_textures triangle [ImageHandle 15]) = vertices m0
    /\ triangles (set_textures triangle [ImageHandle 15]) = triangles m0.
Proof.
  destruct (load_changes_only_textures_and_colours
              body_world "models/a.obj" (set_textures triangle [ImageHandle 15])
              eq_refl) as (m0 & H1 & H2 & H3 & _).
  exists m0. now repeat split.
Defined.

(** ** Which images are read *)

Lemma images_read_app (a b : list Event) :
  images_read (a ++ b) = images_read a ++ images_read b.
Proof. apply flat_map_app. Qed.

Section ImagesRead.
Variable w : World.

Lemma T_load_and_texture_reads (p d : string) (refs : list string) (q : string) :
  In q (images_read (trace (Testing.load_and_texture p d refs) w)) ->
  fs_exists w q = true.
Proof.
  unfold Testing.load_and_texture. rewrite !trace_bind, !images_read_app.
  cbn [images_read flat_map trace snd log read_triangle_mesh app].
  destruct (value (read_triangle_mesh p true) w) as [e|m0]; [intros []|].
  rewrite !trace_bind, !images_read_app.
  cbn [images_read flat_map trace snd log compute_vertex_normals app].
  rewrite in_app_iff. intros [Hq|Hq].
  - destruct (_ && _); [|destruct Hq].
    rewrite trace_bind, images_read_app in Hq. cbn [app] in Hq.
    now apply T_load_first_texture_reads in Hq.
  - destruct (0 <? _)%nat; rewrite trace_bind in Hq; destruct Hq.
Qed.

Lemma N_search_exists (d : string) (refs : list string) :
  forall found q,
    value (New.search_textures d refs found) w = Some q ->
    found = Some q \/ fs_exists w q = true.
Proof.
  induction refs as [|r refs IH]; intros found q; [now left|].
  cbn [New.search_textures]. rewrite value_bind, probe_paths_value.
  destruct (find (fs_exists w) (possible_paths d r)) as [x|] eqn:Ef.
  - apply List.find_some in Ef as [_ Hx].
    destruct (New.found_truthy (Some x)).
    + intros [= <-]. now right.
    + intros H. apply IH in H as [[= <-]|H]; now right.
  - destruct (New.found_truthy found); [intros H; now left|apply IH].
Qed.

Lemma N_load_and_show_reads (p : string) (found : option string) :
  images_read (trace (New.load_and_show p found) w) = []
  \/ exists q, found = Some q
               /\ images_read (trace (New.load_and_show p found) w) = [q].
Proof.
  unfold New.load_and_show, New.load_manually, New.visualize, trace, bind,
    print, read_triangle_mesh, compute_vertex_normals, read_image, view, ret.
  destruct (lib_read_triangle_mesh w p true) as [e|m0]; [now left|].
  destruct found as [q|].
  - destruct (_ && _).
    + right. exists q. split; [reflexivity|].
      destruct (lib_read_image w q); cbn [fst snd];
        destruct (0 <? _)%nat; cbn [fst snd];
        destruct (lib_view w _); reflexivity.
    + left. cbn [fst snd]. destruct (0 <? _)%nat; cbn [fst snd];
        destruct (lib_view w _); reflexivity.
  - left. cbn [fst snd]. destruct (0 <? _)%nat; cbn [fst snd];
      destruct (lib_view w _); reflexivity.
Qed.

Lemma N_compr_images (p : string) :
  images_read (trace (New.comprehensive_mesh_analysis_and_load p) w)
  = images_read
      (trace (New.load_and_show
                p (value (New.find_texture
                            (OsPath.dirname p)
                            (value (New.collect_texture_files
                                      (OsPath.dirname p)
                                      (fst (value (New.analyze_obj p) w))
                                      (snd (value (New.analyze_obj p) w))) w)) w)) w).
Proof.
  unfold New.comprehensive_mesh_analysis_and_load.
  rewrite !trace_bind.
  pose proof (N_analyze_obj_events w p) as Ha.
  destruct (value (New.analyze_obj p) w) as [hm files]. cbn [fst snd].
  rewrite !trace_bind.
  pose proof (N_collect_events w (OsPath.dirname p) hm files) as Hc.
  pose proof (N_find_texture_events
                w (OsPath.dirname p)
                (value (New.collect_texture_files (OsPath.dirname p) hm files) w))
    as Hf.
  apply analysis_event_selects in Ha as (_ & Ha & _).
  apply analysis_event_selects in Hc as (_ & Hc & _).
  apply search_event_selects in Hf as (Hf & _).
  unfold images_read in *. rewrite !flat_map_app, Ha, Hc, Hf. reflexivity.
Qed.

Lemma N_compr_reads (p : string) :
  images_read (trace (New.comprehensive_mesh_analysis_and_load p) w) = []
  \/ exists q, fs_exists w q = true
               /\ images_read (trace (New.comprehensive_mesh_analysis_and_load p) w)
                  = [q].
Proof.
  rewrite N_compr_images.
  set (refs := value (New.collect_texture_files _ _ _) w).
  assert (Hfound : forall q,
             value (New.find_texture (OsPath.dirname p) refs) w = Some q ->
             fs_exists w q = true).
  { intros q. unfold New.find_texture.
    destruct (nonempty refs); [|discriminate].
    rewrite value_bind. intros H.
    apply N_search_exists in H as [H|H]; [discriminate|exact H]. }
  destruct (N_load_and_show_reads
              p (value (New.find_texture (OsPath.dirname p) refs) w))
    as [H|(q & Hq & H)]; rewrite H.
  - now left.
  - right. exists q. split; [now apply Hfound|reflexivity].
Qed.

End ImagesRead.

(** One turn of the loop over the references (testing.py 199-213). *)
Lemma T_find_reads_nothing (w : World) (d r : string) :
  images_read (trace (Testing.find_texture_file d r) w) = [].
Proof.
  apply search_event_selects. unfold trace, Testing.find_texture_file.
  rewrite first_existing_run. cbn [snd]. apply Forall_forall.
  intros e He. apply in_map_iff in He as (x & <- & _). exact I.
Qed.

Lemma T_load_first_texture_unreadable (w : World) (d r : string)
      (rest : list string) (mesh : TriangleMesh) (q : string) (e : exn) :
  value (Testing.find_texture_file d r) w = Some q ->
  PyStr.truthy q = true ->
  lib_read_image w q = inl e ->
  value (Testing.load_first_texture d (r :: rest) mesh) w
  = value (Testing.load_first_texture d rest mesh) w
  /\ images_read (trace (Testing.load_first_texture d (r :: rest) mesh) w)
     = q :: images_read (trace (Testing.load_first_texture d rest mesh) w)
  /\ In (EvLog (TextureLoadError q e))
        (trace (Testing.load_first_texture d (r :: rest) mesh) w).
Proof.
  intros Hq Ht He. cbn [Testing.load_first_texture].
  rewrite value_bind, trace_bind, images_read_app, T_find_reads_nothing, Hq, Ht.
  rewrite value_bind, trace_bind.
  change (value (read_image q) w) with (lib_read_image w q). rewrite He.
  rewrite value_bind, trace_bind. split; [reflexivity|]. split; [reflexivity|].
  apply in_or_app. right. right. now left.
Qed.

Lemma T_load_first_texture_readable (w : World) (d r : string)
      (rest : list string) (mesh : TriangleMesh) (q : string) (img : Image) :
  value (Testing.find_texture_file d r) w = Some q ->
  PyStr.truthy q = true ->
  lib_read_image w q = inr img ->
  value (Testing.load_first_texture d (r :: rest) mesh) w
  = set_textures mesh [img]
  /\ images_read (trace (Testing.load_first_texture d (r :: rest) mesh) w) = [q].
Proof.
  intros Hq Ht He. cbn [Testing.load_first_texture].
  rewrite value_bind, trace_bind, images_read_app, T_find_reads_nothing, Hq, Ht.
  rewrite value_bind, trace_bind.
  change (value (read_image q) w) with (lib_read_image w q). rewrite He.
  rewrite value_bind, trace_bind. now split.
Qed.

Lemma T_load_first_texture_missing (w : World) (d r : string)
      (rest : list string) (mesh : TriangleMesh) :
  match value (Testing.find_texture_file d r) w with
  | Some q => PyStr.truthy q = false
  | None => True
  end ->
  value (Testing.load_first_texture d (r :: rest) mesh) w
  = value (Testing.load_first_texture d rest mesh) w
  /\ images_read (trace (Testing.load_first_texture d (r :: rest) mesh) w)
     = images_read (trace (Testing.load_first_texture d rest mesh) w).
Proof.
  intros Hq. cbn [Testing.load_first_texture].
  rewrite value_bind, trace_bind, images_read_app, T_find_reads_nothing.
  destruct (value (Testing.find_texture_file d r) w) as [q|];
    [rewrite Hq|]; now rewrite value_bind, trace_bind.
Qed.

(** The images a load reads are those of the loop, which runs on the mesh
    the loader delivered when that one has no texture. *)
Lemma T_load_reads (w : World) (p : string) (m0 : TriangleMesh) :
  fs_exists w p = true ->
  lib_read_triangle_mesh w p true = inr m0 ->
  textures m0 = [] ->
  let refs := value (Testing.collect_texture_paths
                       (OsPath.dirname p)
                       (fst (value (Testing.analyze_obj p) w))) w in
  let mesh := value (Testing.load_first_texture
                       (OsPath.dirname p) refs
                       (set_vertex_normals m0 (lib_vertex_normals w m0))) w in
  images_read (trace (Testing.load_obj_with_textures p) w)
  = images_read (trace (Testing.load_first_texture
                          (OsPath.dirname p) refs
                          (set_vertex_normals m0 (lib_vertex_normals w m0))) w)
  /\ value (Testing.load_obj_with_textures p) w
     = inr (if (0 <? length (textures mesh))%nat then mesh
            else paint_uniform_color mesh skin_tone).
Proof.
  intros Hp Hm Ht. cbv zeta. split.
  - unfold Testing.load_obj_with_textures.
    rewrite !trace_bind, !images_read_app.
    change (value (os_path_exists ObjFile p) w) with (fs_exists w p).
    rewrite Hp. cbn [negb].
    cbn [images_read flat_map trace snd log os_path_exists app].
    rewrite !trace_bind, !images_read_app.
    pose proof (T_analyze_obj_events w p) as Ha.
    apply analysis_event_selects in Ha as (_ & Ha & _). rewrite Ha. cbn [app].
    destruct (value (Testing.analyze_obj p) w) as [files tc]. cbn [fst].
    rewrite !trace_bind, !images_read_app.
    pose proof (T_collect_events w (OsPath.dirname p) files) as Hc.
    apply analysis_event_selects in Hc as (_ & Hc & _). rewrite Hc. cbn [app].
    set (refs := value (Testing.collect_texture_paths (OsPath.dirname p) files) w).
    unfold Testing.load_and_texture. rewrite !trace_bind, !images_read_app.
    cbn [images_read flat_map trace snd log read_triangle_mesh app].
    change (value (read_triangle_mesh p true) w)
      with (lib_read_triangle_mesh w p true).
    rewrite Hm. rewrite !trace_bind, !images_read_app.
    cbn [images_read flat_map trace snd log compute_vertex_normals app].
    change (value (compute_vertex_normals m0) w)
      with (set_vertex_normals m0 (lib_vertex_normals w m0)).
    cbn [set_vertex_normals textures]. rewrite Ht. cbn [length Nat.eqb andb].
    assert (Hlast : forall (c : bool) (a b : TriangleMesh),
               images_read
                 (trace (if c
                         then log ReadyWithTextures ;; ret (inr a)
                         else log NoTexturesColored ;;
                              ret (inr (A := exn) b)) w) = [])
      by (now intros [|] a b).
    rewrite Hlast, app_nil_r.
    destruct refs as [|r refs]; [reflexivity|].
    cbn [nonempty]. now rewrite trace_bind, images_read_app.
  - rewrite (T_load_value w p Hp), T_load_and_texture_value, Hm. cbv zeta.
    cbn [set_vertex_normals textures]. rewrite Ht. cbn [length Nat.eqb andb].
    destruct (value (Testing.collect_texture_paths _ _) w) as [|r refs];
      reflexivity.
Qed.

Lemma N_load_manually_unreadable (w : World) (mesh : TriangleMesh)
      (q : string) (e : exn) :
  lib_read_image w q = inl e ->
  value (New.load_manually mesh (Some q)) w = mesh.
Proof.
  intros He. unfold New.load_manually. destruct (_ && _); [|reflexivity].
  rewrite !value_bind.
  change (value (read_image q) w) with (lib_read_image w q).
  now rewrite He, value_bind.
Qed.

(** X8. An image is only ever read from a path that was found to exist.
    testing.py may read several images: the images a load reads are those
    of its loop over the references, and a turn of that loop whose image
    cannot be read logs the error and goes on with the later references
    on the same mesh, while a turn whose image is read ends the loop with
    that image as the texture, and a turn that finds no file reads
    nothing. new.py reads at most one, the first path its search found,
    and keeps the mesh as it is when that image cannot be read. *)
Theorem images_read_exist (w : World) (p : string) :
  (forall q, In q (images_read (trace (Testing.load_obj_with_textures p) w)) ->
             fs_exists w q = true)
  /\ (forall q, In q (images_read
                        (trace (New.comprehensive_mesh_analysis_and_load p) w)) ->
                fs_exists w q = true)
  /\ (length (images_read
                (trace (New.comprehensive_mesh_analysis_and_load p) w)) <= 1)%nat
  /\ (forall m0,
        fs_exists w p = true ->
        lib_read_triangle_mesh w p true = inr m0 ->
        textures m0 = [] ->
        let refs := value (Testing.collect_texture_paths
                             (OsPath.dirname p)
                             (fst (value (Testing.analyze_obj p) w))) w in
        let mesh := value (Testing.load_first_texture
                             (OsPath.dirname p) refs
                             (set_vertex_normals m0 (lib_vertex_normals w m0))) w in
        images_read (trace (Testing.load_obj_with_textures p) w)
        = images_read (trace (Testing.load_first_texture
                                (OsPath.dirname p) refs
                                (set_vertex_normals m0 (lib_vertex_normals w m0))) w)
        /\ value (Testing.load_obj_with_textures p) w
           = inr (if (0 <? length (textures mesh))%nat then mesh
                  else paint_uniform_color mesh skin_tone))
  /\ (forall d r rest mesh q e,
        value (Testing.find_texture_file d r) w = Some q ->
        PyStr.truthy q = true ->
        lib_read_image w q = inl e ->
        value (Testing.load_first_texture d (r :: rest) mesh) w
        = value (Testing.load_first_texture d rest mesh) w
        /\ images_read (trace (Testing.load_first_texture d (r :: rest) mesh) w)
           = q :: images_read (trace (Testing.load_first_texture d rest mesh) w)
        /\ In (EvLog (TextureLoadError q e))
              (trace (Testing.load_first_texture d (r :: rest) mesh) w))
  /\ (forall d r rest mesh q img,
        value (Testing.find_texture_file d r) w = Some q ->
        PyStr.truthy q = true ->
        lib_read_image w q = inr img ->
        value (Testing.load_first_texture d (r :: rest) mesh) w
        = set_textures mesh [img]
        /\ images_read (trace (Testing.load_first_texture d (r :: rest) mesh) w)
           = [q])
  /\ (forall d r rest mesh,
        match value (Testing.find_texture_file d r) w with
        | Some q => PyStr.truthy q = false
        | None => True
        end ->
        value (Testing.load_first_texture d (r :: rest) mesh) w
        = value (Testing.load_first_texture d rest mesh) w
        /\ images_read (trace (Testing.load_first_texture d (r :: rest) mesh) w)
           = images_read (trace (Testing.load_first_texture d rest mesh) w))
  /\ (forall d mesh,
        value (Testing.load_first_texture d [] mesh) w = mesh
        /\ images_read (trace (Testing.load_first_texture d [] mesh) w) = [])
  /\ (forall mesh q e,
        lib_read_image w q = inl e ->
        value (New.load_manually mesh (Some q)) w = mesh).
Proof.
  split; [|split; [|split; [|split; [|split; [|split; [|split; [|split]]]]]]].
  4: exact (T_load_reads w p).
  4: exact (T_load_first_texture_unreadable w).
  4: exact (T_load_first_texture_readable w).
  4: exact (T_load_first_texture_missing w).
  4: now split.
  4: exact (N_load_manually_unreadable w).
  - intros q. unfold Testing.load_obj_with_textures.
    rewrite !trace_bind, !images_read_app.
    cbn [images_read flat_map trace snd log os_path_exists app].
    destruct (negb _); [intros []|].
    rewrite !trace_bind, !images_read_app.
    pose proof (T_analyze_obj_events w p) as Ha.
    apply analysis_event_selects in Ha as (_ & Ha & _). rewrite Ha. cbn [app].
    destruct (value (Testing.analyze_obj p) w) as [files tc].
    rewrite !trace_bind, !images_read_app.
    pose proof (T_collect_events w (OsPath.dirname p) files) as Hc.
    apply analysis_event_selects in Hc as (_ & Hc & _). rewrite Hc. cbn [app].
    apply T_load_and_texture_reads.
  - intros q. destruct (N_compr_reads w p) as [->|(x & Hx & ->)]; [intros []|].
    now intros [<-|[]].
  - destruct (N_compr_reads w p) as [->|(x & Hx & ->)]; cbn; lia.
Qed.

Lemma images_read_exist_witness :
  images_read (trace (Testing.load_obj_with_textures "models/a.obj")
                     fallback_world)
  = ["models/bad.png"; "models/good.png"]
  /\ (exists m,
        value (Testing.load_obj_with_textures "models/a.obj") fallback_world
        = inr m
        /\ textures m = [ImageHandle 15])
  /\ images_read (trace (New.comprehensive_mesh_analysis_and_load "models/a.obj")
                        fallback_world)
     = ["models/bad.png"]
  /\ map textures
         (viewed (trace (New.comprehensive_mesh_analysis_and_load "models/a.obj")
                        fallback_world))
     = [[]].
Proof.
  pose proof (images_read_exist fallback_world "models/a.obj")
    as (_ & _ & _ & Hload & Hbad & Hgood & _).
  destruct (Hload triangle eq_refl eq_refl eq_refl) as [Hreads Hvalue].
  cbv zeta in Hreads, Hvalue.
  assert (Hrefs : value (Testing.collect_texture_paths
                           (OsPath.dirname "models/a.obj")
                           (fst (value (Testing.analyze_obj "models/a.obj")
                                       fallback_world))) fallback_world
                  = ["bad.png"; "good.png"]) by reflexivity.
  rewrite Hrefs in Hreads, Hvalue.
  change (OsPath.dirname "models/a.obj") with "models" in Hreads, Hvalue.
  set (m1 := set_vertex_normals triangle
                                (lib_vertex_normals fallback_world triangle))
    in Hreads, Hvalue.
  destruct (Hbad "models" "bad.png" ["good.png"] m1 "models/bad.png"
                 (OSError "cannot read image") eq_refl eq_refl eq_refl)
    as (Hv1 & Hr1 & _).
  destruct (Hgood "models" "good.png" [] m1 "models/good.png"
                  (ImageHandle 15) eq_refl eq_refl eq_refl)
    as (Hv2 & Hr2).
  rewrite Hr1, Hr2 in Hreads. rewrite Hv1, Hv2 in Hvalue.
  split; [exact Hreads|]. split; [|split; reflexivity].
  eexists. split; [exact Hvalue|reflexivity].
Defined.

(** ** The meshes the two programs show *)

Section SameMesh.
Variable w : World.
Hypothesis Hempty : fs_exists w "" = false.
Hypothesis Himg :
  forall q, fs_exists w q = true -> exists img, lib_read_image w q = inr img.

Lemma exists_truthy (q : string) : fs_exists w q = true -> PyStr.truthy q = true.
Proof.
  destruct q; [|reflexivity]. rewrite Hempty. discriminate.
Qed.

Lemma texture_step_agree (d : string) (refs : list string) (mesh1 : TriangleMesh) :
  textures mesh1 = [] ->
  value (Testing.load_first_texture d refs mesh1) w
  = value (New.load_manually mesh1 (value (New.search_textures d refs None) w)) w.
Proof.
  intros Htex. induction refs as [|r refs IH]; [reflexivity|].
  cbn [Testing.load_first_texture New.search_textures].
  rewrite !value_bind, probe_paths_value.
  unfold value at 2, Testing.find_texture_file.
  rewrite first_existing_run. cbn [fst].
  destruct (find (fs_exists w) (possible_paths d r)) as [x|] eqn:Ef.
  - apply List.find_some in Ef as [_ Hx].
    pose proof (exists_truthy x Hx) as Ht.
    destruct (Himg x Hx) as [img Hi].
    cbn [New.found_truthy]. rewrite Ht, value_bind.
    change (value (read_image x) w) with (lib_read_image w x).
    rewrite Hi, value_bind, !value_ret.
    unfold New.load_manually. rewrite Htex, Ht. cbn [length Nat.eqb andb].
    rewrite !value_bind.
    change (value (read_image x) w) with (lib_read_image w x).
    now rewrite Hi, value_bind.
  - cbn [New.found_truthy]. rewrite value_bind. exact IH.
Qed.

Lemma find_texture_value (d : string) (refs : list string) :
  value (New.find_texture d refs) w
  = value (New.search_textures d refs None) w.
Proof.
  unfold New.find_texture. destruct refs; [reflexivity|].
  cbn [nonempty]. now rewrite value_bind.
Qed.

Lemma loaded_mesh_agree (p : string) (m0 : TriangleMesh) :
  (if (length (textures (set_vertex_normals m0 (lib_vertex_normals w m0))) =? 0)%nat
      && nonempty (value (Testing.collect_texture_paths
                            (OsPath.dirname p)
                            (fst (value (Testing.analyze_obj p) w))) w)
   then value (Testing.load_first_texture
                 (OsPath.dirname p)
                 (value (Testing.collect_texture_paths
                           (OsPath.dirname p)
                           (fst (value (Testing.analyze_obj p) w))) w)
                 (set_vertex_normals m0 (lib_vertex_normals w m0))) w
   else set_vertex_normals m0 (lib_vertex_normals w m0))
  = value (New.load_manually
             (set_vertex_normals m0 (lib_vertex_normals w m0))
             (value (New.find_texture
                       (OsPath.dirname p)
                       (value (New.collect_texture_files
                                 (OsPath.dirname p)
                                 (fst (value (New.analyze_obj p) w))
                                 (snd (value (New.analyze_obj p) w))) w)) w)) w.
Proof.
  rewrite (collect_after_analysis_agree w p (OsPath.dirname p)).
  set (refs := value (Testing.collect_texture_paths _ _) w).
  set (mesh1 := set_vertex_normals m0 (lib_vertex_normals w m0)).
  rewrite find_texture_value.
  destruct (textures mesh1) as [|t ts] eqn:Etex.
  - cbn [length Nat.eqb andb].
    rewrite <- (texture_step_agree _ _ _ Etex).
    now destruct refs.
  - cbn [length Nat.eqb andb].
    unfold value at 1. rewrite N_load_manually_auto; [reflexivity|].
    now rewrite Etex.
Qed.

End SameMesh.

(** X9. On an OBJ file that exists, and as long as every image found can
    be read, the two programs show nothing when the loader fails, and
    otherwise one mesh each, built from the same mesh [mesh]: the mesh of
    the loader with its normals computed and, when it had no texture and
    one was found, that texture attached. When [mesh] has a texture both
    show [mesh] itself. When it has none, testing.py paints [mesh] and
    shows it, while new.py shows a new mesh that has the vertices, the
    triangles and the vertex normals of [mesh], painted. So the meshes
    shown have the same vertices, triangles, vertex normals, vertex
    colours and textures; nothing is said of any other attribute of a
    mesh. *)
Theorem programs_show_agreeing_meshes (w : World) (p : string)
  (gui : Testing.Gui)
  (Hp : fs_exists w p = true)
  (Hempty : fs_exists w "" = false)
  (Himg : forall q, fs_exists w q = true ->
                    exists img, lib_read_image w q = inr img) :
  match lib_read_triangle_mesh w p true with
  | inl _ =>
      viewed (trace (Testing.load_obj_mesh p gui) w) = []
      /\ viewed (trace (New.comprehensive_mesh_analysis_and_load p) w) = []
  | inr m0 =>
      let mesh :=
        value (New.load_manually
                 (set_vertex_normals m0 (lib_vertex_normals w m0))
                 (value (New.find_texture
                           (OsPath.dirname p)
                           (value (New.collect_texture_files
                                     (OsPath.dirname p)
                                     (fst (value (New.analyze_obj p) w))
                                     (snd (value (New.analyze_obj p) w))) w)) w)) w in
      value (Testing.load_obj_with_textures p) w
      = inr (if (0 <? length (textures mesh))%nat then mesh
             else paint_uniform_color mesh skin_tone)
      /\ viewed (trace (Testing.load_obj_mesh p gui) w)
         = [if (0 <? length (textures mesh))%nat then mesh
            else paint_uniform_color mesh skin_tone]
      /\ viewed (trace (New.comprehensive_mesh_analysis_and_load p) w)
         = [if (0 <? length (textures mesh))%nat then mesh
            else paint_uniform_color
                   (mkMesh (vertices mesh) (triangles mesh)
                           (vertex_normals mesh)
                           (vertex_colors empty_mesh) (textures empty_mesh))
                   skin_tone]
  end
  /\ map vertices (viewed (trace (Testing.load_obj_mesh p gui) w))
     = map vertices (viewed (trace (New.comprehensive_mesh_analysis_and_load p) w))
  /\ map triangles (viewed (trace (Testing.load_obj_mesh p gui) w))
     = map triangles (viewed (trace (New.comprehensive_mesh_analysis_and_load p) w))
  /\ map vertex_normals (viewed (trace (Testing.load_obj_mesh p gui) w))
     = map vertex_normals
         (viewed (trace (New.comprehensive_mesh_analysis_and_load p) w))
  /\ map vertex_colors (viewed (trace (Testing.load_obj_mesh p gui) w))
     = map vertex_colors
         (viewed (trace (New.comprehensive_mesh_analysis_and_load p) w))
  /\ map textures (viewed (trace (Testing.load_obj_mesh p gui) w))
     = map textures (viewed (trace (New.comprehensive_mesh_analysis_and_load p) w)).
Proof.
  rewrite T_load_obj_mesh_viewed, (exists_truthy w Hempty p Hp).
  rewrite (T_load_value w p Hp), T_load_and_texture_value.
  destruct (N_load_viewed w p) as [-> _].
  pose proof (N_load_and_show_run
                w p (value (New.find_texture
                              (OsPath.dirname p)
                              (value (New.collect_texture_files
                                        (OsPath.dirname p)
                                        (fst (value (New.analyze_obj p) w))
                                        (snd (value (New.analyze_obj p) w))) w)) w))
    as Hrun.
  pose proof (loaded_mesh_agree w Hempty Himg p) as Hsame.
  destruct (lib_read_triangle_mesh w p true) as [e|m0].
  - destruct Hrun as [_ ->]. repeat split.
  - cbv zeta in Hrun. destruct Hrun as [_ ->]. cbv zeta. rewrite (Hsame m0).
    unfold displayed.
    match goal with
    | |- context [paint_uniform_color ?m skin_tone] => set (mesh := m)
    end.
    destruct (textures mesh) as [|t ts] eqn:Et; [|repeat split].
    cbn [length Nat.ltb Nat.leb]. repeat split.
    cbn [map paint_uniform_color textures]. now rewrite Et.
Qed.

Lemma programs_show_agreeing_meshes_witness :
  (map textures
       (viewed (trace (Testing.load_obj_mesh "models/a.obj"
                                             (Testing.mkGui None None))
                      body_world))
   = [[ImageHandle 15]]
   /\ map textures
          (viewed (trace (New.comprehensive_mesh_analysis_and_load "models/a.obj")
                         body_world))
      = [[ImageHandle 15]])
  /\ (map vertex_colors
          (viewed (trace (Testing.load_obj_mesh "models/a.obj"
                                                (Testing.mkGui None None))
                         two_world))
      = [repeat skin_tone 3]
      /\ map vertex_colors
             (viewed (trace (New.comprehensive_mesh_analysis_and_load
                               "models/a.obj")
                            two_world))
         = [repeat skin_tone 3]).
Proof.
  assert (Hread : forall present texts loaded q,
             fs_exists (world_of present texts loaded) q = true ->
             exists img,
               lib_read_image (world_of present texts loaded) q = inr img)
    by (intros present texts loaded q _; eexists; reflexivity).
  pose proof (programs_show_agreeing_meshes
                body_world "models/a.obj" (Testing.mkGui None None)
                eq_refl eq_refl (Hread _ _ _))
    as (_ & _ & _ & _ & _ & Htex).
  pose proof (programs_show_agreeing_meshes
                two_world "models/a.obj" (Testing.mkGui None None)
                eq_refl eq_refl (Hread _ _ _))
    as (_ & _ & _ & _ & Hcol & _).
  split; split.
  - rewrite Htex. reflexivity.
  - reflexivity.
  - rewrite Hcol. reflexivity.
  - reflexivity.
Defined.

(** ** Paths *)

Lemma rfind_from_range (c : ascii) (s : string) :
  forall i last,
    PyStr.rfind_from c s i last = last
    \/ (i <= PyStr.rfind_from c s i last)%Z.
Proof.
  induction s as [|a s IH]; intros i last; [now left|].
  cbn [PyStr.rfind_from].
  destruct (IH (i + 1)%Z (if Ascii.eqb a c then i else last)) as [->|H].
  - destruct (Ascii.eqb a c); [right; lia|now left].
  - right. lia.
Qed.

Lemma rfind_from_no (c : ascii) (s : string) :
  has_char c s = false ->
  forall i last, PyStr.rfind_from c s i last = last.
Proof.
  induction s as [|a s IH]; intros H i last; [reflexivity|].
  cbn [has_char] in H. apply orb_false_elim in H as [Ha Hs].
  cbn [PyStr.rfind_from]. rewrite Ha. now apply IH.
Qed.

Lemma rfind_from_app (c : ascii) (a b : string) :
  forall i last,
    PyStr.rfind_from c (a ++ b) i last
    = PyStr.rfind_from c b (i + Z.of_nat (String.length a))
                       (PyStr.rfind_from c a i last).
Proof.
  induction a as [|x a IH]; intros i last.
  - cbn. f_equal. lia.
  - cbn [String.append PyStr.rfind_from String.length]. rewrite IH.
    f_equal. lia.
Qed.

Lemma rfind_from_tail (c : ascii) (s : string) :
  forall i last,
    (last < i)%Z ->
    has_char c (PyStr.drop (Z.to_nat (PyStr.rfind_from c s i last - i + 1)) s)
    = false.
Proof.
  induction s as [|a s IH]; intros i last Hlt.
  - now destruct (Z.to_nat _).
  - cbn [PyStr.rfind_from].
    set (last' := if Ascii.eqb a c then i else last).
    assert (Hlt' : (last' < i + 1)%Z) by (unfold last'; destruct (Ascii.eqb a c); lia).
    specialize (IH (i + 1)%Z last' Hlt').
    destruct (rfind_from_range c s (i + 1)%Z last') as [E|E].
    + rewrite E in *. unfold last' in *.
      destruct (Ascii.eqb a c) eqn:Ea.
      * replace (Z.to_nat (i - i + 1)) with 1%nat by lia.
        replace (Z.to_nat (i - (i + 1) + 1)) with 0%nat in IH by lia.
        exact IH.
      * replace (Z.to_nat (last - i + 1)) with 0%nat by lia.
        replace (Z.to_nat (last - (i + 1) + 1)) with 0%nat in IH by lia.
        cbn [PyStr.drop has_char] in *. now rewrite Ea.
    + replace (Z.to_nat (PyStr.rfind_from c s (i + 1) last' - i + 1))
        with (S (Z.to_nat (PyStr.rfind_from c s (i + 1) last' - (i + 1) + 1)))
        by lia.
      exact IH.
Qed.

Lemma basename_no_sep (r : string) :
  has_char OsPath.sep (OsPath.basename r) = false.
Proof.
  unfold OsPath.basename, PyStr.rfind.
  pose proof (rfind_from_tail OsPath.sep r 0 (-1) ltac:(lia)) as H.
  now replace (PyStr.rfind_from OsPath.sep r 0 (-1) - 0 + 1)%Z
    with (PyStr.rfind_from OsPath.sep r 0 (-1) + 1)%Z in H by lia.
Qed.

Lemma take_drop (n : nat) (s : string) :
  (PyStr.take n s ++ PyStr.drop n s)%string = s.
Proof.
  revert s. induction n as [|n IH]; intros [|c s]; try reflexivity.
  cbn. now rewrite IH.
Qed.

Lemma drop_app_length (a b : string) :
  PyStr.drop (String.length a) (a ++ b) = b.
Proof. induction a as [|x a IH]; [reflexivity|exact IH]. Qed.

Lemma append_assoc (a b c : string) :
  ((a ++ b) ++ c)%string = (a ++ (b ++ c))%string.
Proof. induction a as [|x a IH]; [reflexivity|cbn; now rewrite IH]. Qed.

Lemma length_app (a b : string) :
  String.length (a ++ b) = (String.length a + String.length b)%nat.
Proof. induction a as [|x a IH]; [reflexivity|cbn; now rewrite IH]. Qed.

Lemma endswith_sep (x : string) :
  PyStr.endswith x (String OsPath.sep EmptyString) = true ->
  exists y, x = (y ++ String OsPath.sep EmptyString)%string.
Proof.
  unfold PyStr.endswith. intros H. apply andb_prop in H as [_ H].
  apply String.eqb_eq in H.
  exists (PyStr.take (String.length x - 1) x).
  cbn [String.length] in H.
  pose proof (take_drop (String.length x - 1) x) as E.
  rewrite H in E. now symmetry.
Qed.

Lemma basename_after_sep (y b : string) :
  has_char OsPath.sep b = false ->
  OsPath.basename (y ++ String OsPath.sep b) = b.
Proof.
  intros Hb. unfold OsPath.basename, PyStr.rfind.
  rewrite rfind_from_app. cbn [PyStr.rfind_from].
  change (Ascii.eqb OsPath.sep OsPath.sep) with true. cbn match.
  rewrite (rfind_from_no _ _ Hb).
  replace (Z.to_nat (0 + Z.of_nat (String.length y) + 1))
    with (String.length (y ++ String OsPath.sep EmptyString)).
  - replace (y ++ String OsPath.sep b)%string
      with ((y ++ String OsPath.sep EmptyString) ++ b)%string.
    + apply drop_app_length.
    + now rewrite append_assoc.
  - rewrite length_app. cbn [String.length]. lia.
Qed.

Lemma basename_join (d b : string) :
  has_char OsPath.sep b = false ->
  OsPath.basename (OsPath.join d b) = b.
Proof.
  intros Hb. unfold OsPath.join.
  destruct (PyStr.startswith b _) eqn:Es.
  { destruct b as [|c b]; [discriminate|].
    unfold PyStr.startswith in Es. cbn [String.prefix] in Es.
    destruct (ascii_dec _ c) as [<-|];
      [cbn in Hb; discriminate Hb|discriminate Es]. }
  destruct (negb (PyStr.truthy d) || PyStr.endswith d _) eqn:Ec.
  - apply orb_prop in Ec as [Ec|Ec].
    + destruct d; [|discriminate]. cbn [String.append].
      unfold OsPath.basename, PyStr.rfind.
      now rewrite (rfind_from_no _ _ Hb).
    + apply endswith_sep in Ec as [y ->].
      rewrite append_assoc. cbn [String.append].
      now apply basename_after_sep.
  - now apply basename_after_sep.
Qed.

Lemma basename_id (r : string) :
  has_char OsPath.sep r = false -> OsPath.basename r = r.
Proof.
  intros H. unfold OsPath.basename, PyStr.rfind.
  now rewrite (rfind_from_no _ _ H).
Qed.

Lemma splitext_scan_cases (p : string) (dotIndex : nat) :
  forall n filenameIndex,
    OsPath.splitext_scan p dotIndex filenameIndex n = (p, EmptyString)
    \/ OsPath.splitext_scan p dotIndex filenameIndex n
       = (PyStr.take dotIndex p, PyStr.drop dotIndex p).
Proof.
  induction n as [|n IH]; intros i; [now left|].
  cbn [OsPath.splitext_scan]. destruct (negb _); [now right|apply IH].
Qed.

Lemma splitext_cases (p : string) :
  OsPath.splitext p = (p, EmptyString)
  \/ (PyStr.rfind p OsPath.sep < PyStr.rfind p OsPath.extsep)%Z
     /\ OsPath.splitext p
        = (PyStr.take (Z.to_nat (PyStr.rfind p OsPath.extsep)) p,
           PyStr.drop (Z.to_nat (PyStr.rfind p OsPath.extsep)) p).
Proof.
  unfold OsPath.splitext.
  destruct (PyStr.rfind p OsPath.sep <? PyStr.rfind p OsPath.extsep)%Z eqn:E;
    [|now left].
  apply Z.ltb_lt in E.
  destruct (splitext_scan_cases
              p (Z.to_nat (PyStr.rfind p OsPath.extsep))
              (Z.to_nat (PyStr.rfind p OsPath.extsep
                         - (PyStr.rfind p OsPath.sep + 1)))
              (Z.to_nat (PyStr.rfind p OsPath.sep + 1))) as [->| ->];
    [now left|now right].
Qed.

Lemma splitext_round_trip (p : string) :
  (fst (OsPath.splitext p) ++ snd (OsPath.splitext p))%string = p.
Proof.
  destruct (splitext_cases p) as [->|[_ ->]]; cbn [fst snd].
  - induction p as [|c p IH]; [reflexivity|cbn; now rewrite IH].
  - apply take_drop.
Qed.

Lemma stem_absolute (r ext : string) :
  PyStr.startswith r (String OsPath.sep EmptyString) = true ->
  PyStr.startswith (stem r ++ ext) (String OsPath.sep EmptyString) = true.
Proof.
  intros H. apply prefix_app. unfold stem.
  destruct (splitext_cases r) as [->|[Hlt ->]]; [exact H|]. cbn [fst].
  destruct r as [|c r]; [discriminate|].
  unfold PyStr.startswith in H. cbn [String.prefix] in H.
  destruct (ascii_dec _ c) as [<-|]; [|discriminate].
  assert (Hsep : (0 <= PyStr.rfind (String OsPath.sep r) OsPath.sep)%Z).
  { unfold PyStr.rfind. cbn [PyStr.rfind_from].
    change (Ascii.eqb OsPath.sep OsPath.sep) with true. cbn match.
    destruct (rfind_from_range OsPath.sep r (0 + 1) 0) as [->|E]; lia. }
  destruct (Z.to_nat (PyStr.rfind (String OsPath.sep r) OsPath.extsep))
    as [|n] eqn:En; [lia|].
  unfold PyStr.startswith. cbn [PyStr.take String.prefix].
  destruct (ascii_dec OsPath.sep OsPath.sep); [|contradiction].
  now destruct (PyStr.take n r).
Qed.

Lemma join_absolute (d b : string) :
  PyStr.startswith b (String OsPath.sep EmptyString) = true ->
  OsPath.join d b = b.
Proof. intros H. unfold OsPath.join. now rewrite H. Qed.

(** X10. The flattened candidate, second in the list, is a path whose
    last component is the file name of the reference, whatever the
    directory and the reference are; the file name itself contains no
    separator. *)
Theorem flattened_candidate_keeps_name (d r : string) :
  nth_error (possible_paths d r) 1 = Some (OsPath.join d (OsPath.basename r))
  /\ OsPath.basename (OsPath.join d (OsPath.basename r)) = OsPath.basename r
  /\ has_char OsPath.sep (OsPath.basename r) = false
  /\ OsPath.basename (OsPath.basename r) = OsPath.basename r.
Proof.
  pose proof (basename_no_sep r) as H.
  repeat split; [now apply basename_join|exact H|now apply basename_id].
Qed.

(** X11. An absolute texture reference makes the resolver leave the
    directory of the OBJ file: the verbatim candidate is the reference
    itself and the eight extension candidates are its stem with each
    extension, none of them under the directory. Only the flattened
    candidate stays in it. If the referenced path exists it is returned,
    wherever the OBJ file is. *)
Theorem absolute_reference_ignores_directory (d r : string)
  (Habs : PyStr.startswith r (String OsPath.sep EmptyString) = true) :
  possible_paths d r
  = r :: OsPath.join d (OsPath.basename r)
      :: map (fun ext => (stem r ++ ext)%string) extensions
  /\ (forall w, fs_exists w r = true ->
                value (Testing.find_texture_file d r) w = Some r).
Proof.
  assert (Hpaths : possible_paths d r
                   = r :: OsPath.join d (OsPath.basename r)
                       :: map (fun ext => (stem r ++ ext)%string) extensions).
  { unfold possible_paths. fold (stem r). cbn [app].
    rewrite (join_absolute d r Habs). do 2 f_equal.
    apply map_ext. intros ext. apply join_absolute. now apply stem_absolute. }
  split; [exact Hpaths|].
  intros w Hr. unfold value, Testing.find_texture_file.
  rewrite first_existing_run, Hpaths. cbn [fst find]. now rewrite Hr.
Qed.

Lemma absolute_reference_ignores_directory_witness :
  possible_paths "models" "/srv/tex/skin.png"
  = "/srv/tex/skin.png" :: "models/skin.png"
      :: map (fun ext => ("/srv/tex/skin" ++ ext)%string) extensions.
Proof.
  now destruct (absolute_reference_ignores_directory
                  "models" "/srv/tex/skin.png" eq_refl) as [-> _].
Defined.

(** X12. Candidates can coincide. For a reference without directory part
    the flattened candidate is the verbatim one, checked twice. The stem
    and the extension of a reference make up the reference again, so the
    extension candidate of a reference's own extension is the verbatim
    candidate once more. *)
Theorem candidates_coincide (d r : string) :
  (has_char OsPath.sep r = false ->
   nth_error (possible_paths d r) 1 = nth_error (possible_paths d r) 0)
  /\ (stem r ++ snd (OsPath.splitext r))%string = r
  /\ (forall i, nth_error extensions i = Some (snd (OsPath.splitext r)) ->
                nth_error (possible_paths d r) (2 + i)
                = nth_error (possible_paths d r) 0).
Proof.
  split; [|split].
  - intros H. cbn. now rewrite (basename_id r H).
  - apply splitext_round_trip.
  - intros i Hi. unfold possible_paths. fold (stem r).
    cbn [app Nat.add nth_error].
    rewrite nth_error_map, Hi. cbn [option_map].
    unfold stem. now rewrite splitext_round_trip.
Qed.

(** ** The state of the window *)

(** X13. [load_obj_mesh] with an empty file name (the dialog was
    cancelled) does nothing at all. Otherwise [mesh_file] takes the chosen
    name in every case, before the load is tried: when the load raises,
    the error is logged, the viewer is not opened and [mesh] keeps the
    mesh loaded before, which then no longer belongs to [mesh_file]; when
    it succeeds, the new mesh is stored and shown, once. *)
Theorem load_obj_mesh_state (w : World) (file : string) (gui : Testing.Gui) :
  (PyStr.truthy file = false -> Testing.load_obj_mesh file gui w = (gui, []))
  /\ (PyStr.truthy file = true ->
      Testing.mesh_file (value (Testing.load_obj_mesh file gui) w) = Some file
      /\ (forall e,
            value (Testing.load_obj_with_textures file) w = inl e ->
            Testing.mesh (value (Testing.load_obj_mesh file gui) w)
            = Testing.mesh gui
            /\ viewed (trace (Testing.load_obj_mesh file gui) w) = []
            /\ In (EvLog (ErrorLoadingObj e))
                  (trace (Testing.load_obj_mesh file gui) w))
      /\ (forall m,
            value (Testing.load_obj_with_textures file) w = inr m ->
            Testing.mesh (value (Testing.load_obj_mesh file gui) w) = Some m
            /\ viewed (trace (Testing.load_obj_mesh file gui) w) = [m])).
Proof.
  split; intros Ht.
  - unfold Testing.load_obj_mesh. now rewrite Ht.
  - pose proof (T_load_obj_mesh_viewed w file gui) as Hview.
    rewrite Ht in Hview.
    unfold Testing.load_obj_mesh in *. rewrite Ht in *.
    rewrite value_bind, trace_bind in *.
    destruct (value (Testing.load_obj_with_textures file) w) as [e|m].
    + split; [now rewrite value_bind|]. split; [|intros m [=]].
      intros e' [= <-]. rewrite value_bind. repeat split; [exact Hview|].
      apply in_or_app. right. rewrite trace_bind. now left.
    + split; [now rewrite value_bind|]. split; [intros e [=]|].
      intros m' [= <-]. rewrite value_bind. now split.
Qed.

(** ** Several references *)

Lemma find_app_first (f : string -> bool) (a b : list string) :
  find f (a ++ b)
  = match find f a with
    | Some x => Some x
    | None => find f b
    end.
Proof.
  induction a as [|x a IH]; [reflexivity|].
  cbn [app find]. now destruct (f x).
Qed.

Lemma probed_app (f : string -> bool) (a b : list string) :
  probed f (a ++ b)
  = match find f a with
    | Some _ => probed f a
    | None => a ++ probed f b
    end.
Proof.
  induction a as [|x a IH]; [reflexivity|].
  cbn [app find probed]. destruct (f x); [reflexivity|].
  rewrite IH. now destruct (find f a).
Qed.

Lemma texture_probes_app (a b : list Event) :
  texture_probes (a ++ b) = texture_probes a ++ texture_probes b.
Proof. apply flat_map_app. Qed.

Section FirstMatch.
Variable w : World.
Hypothesis Hempty : fs_exists w "" = false.

Lemma N_search_first_match (d : string) (refs : list string) :
  value (New.search_textures d refs None) w
  = find (fs_exists w) (flat_map (possible_paths d) refs)
  /\ texture_probes (trace (New.search_textures d refs None) w)
     = probed (fs_exists w) (flat_map (possible_paths d) refs).
Proof.
  induction refs as [|r refs [IHv IHt]]; [now split|].
  cbn [New.search_textures flat_map].
  rewrite value_bind, trace_bind, texture_probes_app, probe_paths_probes,
    probe_paths_value, find_app_first, probed_app.
  destruct (find (fs_exists w) (possible_paths d r)) as [x|] eqn:Ef.
  - pose proof Ef as Hx. apply List.find_some in Hx as [_ Hx].
    cbn [New.found_truthy]. rewrite (exists_truthy w Hempty x Hx).
    split; [reflexivity|]. apply app_nil_r.
  - cbn [New.found_truthy]. split; [exact IHv|]. rewrite IHt. f_equal.
    now apply find_none, (List.find_none _ _ Ef).
Qed.

Lemma T_load_first_texture_probes (d : string) (refs : list string)
      (mesh : TriangleMesh) :
  (forall q, fs_exists w q = true -> exists img, lib_read_image w q = inr img) ->
  texture_probes (trace (Testing.load_first_texture d refs mesh) w)
  = probed (fs_exists w) (flat_map (possible_paths d) refs).
Proof.
  intros Himg. induction refs as [|r refs IH]; [reflexivity|].
  cbn [Testing.load_first_texture flat_map].
  rewrite trace_bind, texture_probes_app, probed_app.
  unfold value, trace at 1, Testing.find_texture_file.
  rewrite first_existing_run. cbn [fst snd].
  assert (Hp : texture_probes
                 (map (EvExists TextureCandidate)
                      (probed (fs_exists w) (possible_paths d r)))
               = probed (fs_exists w) (possible_paths d r)).
  { generalize (probed (fs_exists w) (possible_paths d r)).
    induction l as [|x l IHl]; [reflexivity|]. cbn. now rewrite <- IHl at 2. }
  rewrite Hp.
  destruct (find (fs_exists w) (possible_paths d r)) as [x|] eqn:Ef.
  - pose proof Ef as Hx. apply List.find_some in Hx as [_ Hx].
    rewrite (exists_truthy w Hempty x Hx).
    destruct (Himg x Hx) as [img Hi].
    rewrite trace_bind, texture_probes_app.
    change (value (read_image x) w) with (lib_read_image w x). rewrite Hi.
    rewrite trace_bind. cbn. apply app_nil_r.
  - rewrite trace_bind, texture_probes_app. cbn [trace log snd texture_probes
                                                 flat_map app].
    fold (texture_probes (trace (Testing.load_first_texture d refs mesh) w)).
    rewrite IH. f_equal.
    now apply find_none, (List.find_none _ _ Ef).
Qed.

End FirstMatch.

(** X14. The search over several references is one first-match search
    over their candidate lists put end to end, in the order of the
    references: new.py finds the first candidate of the whole list that
    exists and checks exactly the candidates up to it, and testing.py
    checks the same candidates as long as the image found can be read. *)
Theorem search_is_first_match (w : World) (d : string) (refs : list string)
  (mesh : TriangleMesh)
  (Hempty : fs_exists w "" = false) :
  value (New.find_texture d refs) w
  = find (fs_exists w) (flat_map (possible_paths d) refs)
  /\ texture_probes (trace (New.find_texture d refs) w)
     = probed (fs_exists w) (flat_map (possible_paths d) refs)
  /\ ((forall q, fs_exists w q = true ->
                 exists img, lib_read_image w q = inr img) ->
      texture_probes (trace (Testing.load_first_texture d refs mesh) w)
      = probed (fs_exists w) (flat_map (possible_paths d) refs)).
Proof.
  destruct (N_search_first_match w Hempty d refs) as [Hv Ht].
  split; [|split].
  - now rewrite find_texture_value.
  - unfold New.find_texture. destruct refs as [|r refs]; [reflexivity|].
    cbn [nonempty]. rewrite trace_bind, texture_probes_app. exact Ht.
  - now apply T_load_first_texture_probes.
Qed.

Lemma search_is_first_match_witness :
  value (New.find_texture "models" ["missing.png"; "body.JPG"]) body_world
  = Some "models/body.jpg".
Proof.
  destruct (search_is_first_match
              body_world "models" ["missing.png"; "body.JPG"] triangle eq_refl)
    as [H _].
  rewrite H. reflexivity.
Defined.
